(** * shodan_busqueda: query builder, page fetcher and result accumulator

    A shallow embedding of [shodan_busqueda.py].

    Modelling conventions.
    - A Python [str] is a [string]; each character stands for one code
      point below 256.  [str.lower], [str.strip] and [quote_plus] are
      written out for that range.
    - A decoded JSON document is a [json] value (no floating point
      numbers); a Python dict is an association list with distinct keys.
    - Python integers are [Z].
    - Exceptions are values of [exn]; pure code returns a [result],
      code that talks to the outside world returns an [io]: the list of
      its observable events together with its outcome.
    - The HTTP library is a parameter: a function from the requested URL
      to either the class of the exception it raises or a response.
    - The clock ([datetime.now], the 60-second limit of a request) and
      the interrupt handler around [main] are outside the model; a
      request that times out is a request on which the library raises. *)

From Stdlib Require Import QArith.
From stdpp Require Import base strings list gmap sets fin_sets pretty sorting.
Close Scope Q_scope.
Open Scope Z_scope.

(** ** Text *)

Module Text.

Definition code (c : Ascii.ascii) : N := Ascii.N_of_ascii c.

Definition chr (n : N) : string := String (Ascii.ascii_of_N n) EmptyString.

(** [str.lower] on one code point below 256: A-Z and the accented
    capitals U+00C0..U+00DE (the multiplication sign U+00D7 apart). *)
Definition lower_char (c : Ascii.ascii) : Ascii.ascii :=
  let n := code c in
  if ((65 <=? n) && (n <=? 90) || (192 <=? n) && (n <=? 222) && negb (n =? 215))%N
  then Ascii.ascii_of_N (n + 32) else c.

Fixpoint lower (s : string) : string :=
  match s with
  | EmptyString => EmptyString
  | String c s' => String (lower_char c) (lower s')
  end.

(** Python's [x in s] on strings. *)
Fixpoint contains (x s : string) : bool :=
  String.prefix x s ||
  match s with
  | EmptyString => false
  | String _ s' => contains x s'
  end.

(** [str.isspace] on one code point below 256. *)
Definition is_space (c : Ascii.ascii) : bool :=
  let n := code c in
  ((9 <=? n) && (n <=? 13) || (28 <=? n) && (n <=? 32) || (n =? 133) || (n =? 160))%N.

Fixpoint lstrip (s : string) : string :=
  match s with
  | EmptyString => EmptyString
  | String c s' => if is_space c then lstrip s' else s
  end.

Fixpoint rstrip (s : string) : string :=
  match s with
  | EmptyString => EmptyString
  | String c s' =>
      match rstrip s' with
      | EmptyString => if is_space c then EmptyString else String c EmptyString
      | r => String c r
      end
  end.

(** [str.strip()] without arguments. *)
Definition strip (s : string) : string := rstrip (lstrip s).

(** Truth value of a string: non-empty. *)
Definition nonempty (s : string) : bool :=
  match s with EmptyString => false | _ => true end.

Definition first_char (s : string) : option Ascii.ascii :=
  match s with EmptyString => None | String c _ => Some c end.

Fixpoint last_char (s : string) : option Ascii.ascii :=
  match s with
  | EmptyString => None
  | String c EmptyString => Some c
  | String _ s' => last_char s'
  end.

(** No leading and no trailing whitespace. *)
Definition trimmed (s : string) : Prop :=
  (∀ c, first_char s = Some c → is_space c = false) ∧
  (∀ c, last_char s = Some c → is_space c = false).

(** [t] occurs in [s] at some position, in some letter case. *)
Definition occurs_ci (t s : string) : Prop :=
  ∃ pre mid post, s = pre +:+ mid +:+ post ∧ lower mid = lower t.

Definition dquote : string := chr 34.
Definition newline : string := chr 10.

(** *** URL encoding: [urlencode(params, quote_via=quote_plus)] *)

Definition hex_digit (n : N) : string :=
  chr (if (n <? 10)%N then 48 + n else 55 + n)%N.

Definition percent (b : N) : string :=
  "%" +:+ hex_digit (b / 16) +:+ hex_digit (b mod 16).

(** The UTF-8 bytes of a code point below 256. *)
Definition utf8 (n : N) : list N :=
  if (n <? 128)%N then [n] else [192 + n / 64; 128 + n mod 64]%N.

(** Letters, digits and [_.-~] are never quoted. *)
Definition unreserved (n : N) : bool :=
  ((48 <=? n) && (n <=? 57) || (65 <=? n) && (n <=? 90) || (97 <=? n) && (n <=? 122)
   || (n =? 95) || (n =? 46) || (n =? 45) || (n =? 126))%N.

Definition quote_char (c : Ascii.ascii) : string :=
  let n := code c in
  if (n =? 32)%N then "+"
  else if unreserved n then String c EmptyString
  else String.concat EmptyString (percent <$> utf8 n).

Fixpoint quote_plus (s : string) : string :=
  match s with
  | EmptyString => EmptyString
  | String c s' => quote_char c +:+ quote_plus s'
  end.

Definition urlencode (params : list (string * string)) : string :=
  String.concat "&" ((λ kv, quote_plus kv.1 +:+ "=" +:+ quote_plus kv.2) <$> params).

End Text.

(** ** Exceptions, results and observable runs *)

Inductive exn :=
  | SystemExit (msg : string)     (* [raise SystemExit(msg)] *)
  | Exception (cls : string).     (* any other exception, by class name *)

Inductive result (A : Type) :=
  | Ret (a : A)
  | Raise (e : exn).
Arguments Ret {A} a.
Arguments Raise {A} e.

Global Instance result_ret : MRet result := @Ret.
Global Instance result_bind : MBind result := λ A B f m,
  match m with Ret a => f a | Raise e => Raise e end.

(** [for x in l: f(x)], stopping at the first exception. *)
Fixpoint for_each {A} (f : A → result unit) (l : list A) : result unit :=
  match l with
  | [] => Ret tt
  | x :: l' => f x ≫= λ _, for_each f l'
  end.

(** ** Decoded JSON, as Python sees it *)

#[warnings="-register-all"]
Inductive json :=
  | JNull
  | JBool (b : bool)
  | JInt (z : Z)
  | JStr (s : string)
  | JArr (l : list json)
  | JObj (o : list (string * json)).

(** What the program prints on standard output, block by block. *)
Inductive report :=
  | Banner (final_query : string)          (* print_banner *)
  | Totals (total_reported : Z) (n : nat)  (* the two counters of main *)
  | FacetListing (facets_obj : json)       (* print_facets, when it prints *)
  | Table (results : list json)            (* print_results *)
  | Summary (results : list json).         (* print_summary *)

Inductive event :=
  | HttpGet (full_url : string)   (* requests.get(full_url, timeout=60) *)
  | Sleep (seconds : Q)           (* time.sleep *)
  | Stderr (line : string)        (* print(..., file=sys.stderr) *)
  | Stdout (block : report).

Inductive outcome (A : Type) :=
  | Returns (a : A)
  | Raises (e : exn)
  | OutOfFuel.                    (* the model's loop bound was hit *)
Arguments Returns {A} a.
Arguments Raises {A} e.
Arguments OutOfFuel {A}.

Record io (A : Type) := IO { trace : list event; out : outcome A }.
Arguments IO {A} trace out.
Arguments trace {A} i.
Arguments out {A} i.

Global Instance io_ret : MRet io := λ A a, IO [] (Returns a).
Global Instance io_bind : MBind io := λ A B f m,
  match out m with
  | Returns a => IO (trace m ++ trace (f a)) (out (f a))
  | Raises e => IO (trace m) (Raises e)
  | OutOfFuel => IO (trace m) OutOfFuel
  end.

Definition emit (e : event) : io unit := IO [e] (Returns tt).
Definition throw {A} (e : exn) : io A := IO [] (Raises e).
Definition lift {A} (r : result A) : io A :=
  match r with Ret a => IO [] (Returns a) | Raise e => IO [] (Raises e) end.

(** [try: m except SystemExit as exc: h(exc)]: other exceptions pass. *)
Definition try_except_SystemExit {A} (m : io A) (h : string → io A) : io A :=
  match out m with
  | Raises (SystemExit msg) => IO (trace m ++ trace (h msg)) (out (h msg))
  | _ => m
  end.

(** ** Python operations on decoded JSON *)

Module Py.

Definition AttributeError : exn := Exception "AttributeError".
Definition TypeError : exn := Exception "TypeError".
Definition ValueError : exn := Exception "ValueError".

(** [bool(v)] *)
Definition truthy (v : json) : bool :=
  match v with
  | JNull => false
  | JBool b => b
  | JInt z => negb (z =? 0)
  | JStr s => Text.nonempty s
  | JArr l => match l with [] => false | _ => true end
  | JObj o => match o with [] => false | _ => true end
  end.

(** [a or b] *)
Definition or (a b : json) : json := if truthy a then a else b.

Fixpoint assoc (k : string) (o : list (string * json)) : option json :=
  match o with
  | [] => None
  | (k', v) :: o' => if String.eqb k k' then Some v else assoc k o'
  end.

(** [v.get(k, d)]: only a dict has the method. *)
Definition get (v : json) (k : string) (d : json) : result json :=
  match v with
  | JObj o => Ret (default d (assoc k o))
  | _ => Raise AttributeError
  end.

(** [v.items()] *)
Definition items (v : json) : result (list (string * json)) :=
  match v with
  | JObj o => Ret o
  | _ => Raise AttributeError
  end.

Fixpoint chars (s : string) : list json :=
  match s with
  | EmptyString => []
  | String c s' => JStr (String c EmptyString) :: chars s'
  end.

(** The elements a [for] loop over [v] visits. *)
Definition iter (v : json) : result (list json) :=
  match v with
  | JArr l => Ret l
  | JObj o => Ret ((λ kv, JStr kv.1) <$> o)
  | JStr s => Ret (chars s)
  | _ => Raise TypeError
  end.

(** The two conversions of Python that depend on the interpreter's text
    handling are left open: [repr] of a list or dict, and [int] of a
    string ([None] when it raises ValueError). *)
Class Builtins := {
  repr_container : json → string;
  int_of_str : string → option Z
}.

Section WithBuiltins.
Context `{Builtins}.

(** [str(v)] *)
Definition str (v : json) : string :=
  match v with
  | JNull => "None"
  | JBool true => "True"
  | JBool false => "False"
  | JInt z => pretty z
  | JStr s => s
  | _ => repr_container v
  end.

(** [int(v)] *)
Definition int (v : json) : result Z :=
  match v with
  | JInt z => Ret z
  | JBool b => Ret (if b then 1 else 0)
  | JStr s => match int_of_str s with Some z => Ret z | None => Raise ValueError end
  | _ => Raise TypeError
  end.

End WithBuiltins.

(** [l[:n]] *)
Definition slice_to {A} (l : list A) (n : Z) : list A :=
  if 0 <=? n then take (Z.to_nat n) l
  else take (Z.to_nat (Z.of_nat (length l) + n)) l.

End Py.

(** ** Configuration

    The module-level constants of the script.  They are read through a
    record so that statements can range over the additional filter, the
    city and the limits. *)

Record Config := {
  SHODAN_API_KEY : string;
  CITY_FILTER : option string;
  ADDITIONAL_FILTERS : string;
  FACETS : string;
  MAX_RESULTS : Z;
  SLEEP_SECONDS : Q;
  PROHIBITED_KEYWORDS : list string
}.

(** The constants as the source file has them. *)
Definition source_config : Config := {|
  SHODAN_API_KEY := "XXXXXXX";
  CITY_FILTER := None;
  ADDITIONAL_FILTERS := EmptyString;
  FACETS := EmptyString;
  MAX_RESULTS := 1000;
  SLEEP_SECONDS := 1%Q;
  PROHIBITED_KEYWORDS := ["org:"]
|}.

Definition with_filters (cfg : Config) (city : option string) (extra : string) : Config := {|
  SHODAN_API_KEY := SHODAN_API_KEY cfg;
  CITY_FILTER := city;
  ADDITIONAL_FILTERS := extra;
  FACETS := FACETS cfg;
  MAX_RESULTS := MAX_RESULTS cfg;
  SLEEP_SECONDS := SLEEP_SECONDS cfg;
  PROHIBITED_KEYWORDS := PROHIBITED_KEYWORDS cfg
|}.

(** ** Query builder *)

Definition org_prohibited_msg : string :=
  "ERROR: El uso de filtros por organizaci" +:+ Text.chr 243 +:+ "n (org:) est"
  +:+ Text.chr 225 +:+ " prohibido por los requisitos.".

(** [if CITY_FILTER:] holds for a non-empty string only. *)
Definition city_configured (cfg : Config) : option string :=
  match CITY_FILTER cfg with
  | Some c => if Text.nonempty c then Some c else None
  | None => None
  end.

(** [any(x in low for x in PROHIBITED_KEYWORDS)] *)
Definition any_prohibited (cfg : Config) (low : string) : bool :=
  existsb (λ x, Text.contains x low) (PROHIBITED_KEYWORDS cfg).

Definition build_query (cfg : Config) : result string :=
  let base := "country:GT" in
  let base :=
    match city_configured cfg with
    | Some c => base +:+ " city:" +:+ Text.dquote +:+ c +:+ Text.dquote
    | None => base
    end in
  if Text.nonempty (ADDITIONAL_FILTERS cfg) then
    let low := Text.lower (ADDITIONAL_FILTERS cfg) in
    if any_prohibited cfg low then Raise (SystemExit org_prohibited_msg)
    else Ret (Text.strip (base +:+ " " +:+ ADDITIONAL_FILTERS cfg))
  else Ret (Text.strip base).

(** ** Page fetcher *)

Record Response := {
  status_code : Z;
  text : string;
  json_body : result json          (* [resp.json()] *)
}.

(** [requests.get]: the class of the exception it raises, or a response. *)
Definition Network := string → string + Response.

Definition endpoint : string := "https://api.shodan.io/shodan/host/search".

Definition request_params (cfg : Config) (query : string) (page : Z) (facets : string)
  : list (string * string) :=
  [("key", SHODAN_API_KEY cfg); ("query", query); ("page", pretty page)]
  ++ (if Text.nonempty facets then [("facets", facets)] else []).

Definition full_url (cfg : Config) (query : string) (page : Z) (facets : string) : string :=
  endpoint +:+ "?" +:+ Text.urlencode (request_params cfg query page facets).

Definition http_error_msg (status : Z) (url body : string) : string :=
  "ERROR HTTP " +:+ pretty status +:+ " al consultar Shodan." +:+ Text.newline
  +:+ "URL: " +:+ url +:+ Text.newline
  +:+ "Cuerpo: " +:+ body.

Definition requests_get (net : Network) (url : string) : io Response :=
  IO [HttpGet url]
     match net url with
     | inl cls => Raises (Exception cls)
     | inr resp => Returns resp
     end.

Definition http_get_shodan (cfg : Config) (net : Network)
    (query : string) (page : Z) (facets : string) : io json :=
  let url := full_url cfg query page facets in
  resp ← requests_get net url;
  if negb (status_code resp =? 200) then
    throw (SystemExit (http_error_msg (status_code resp) url (text resp)))
  else lift (json_body resp).

(** ** Result accumulator *)

(** The identity key of a match. *)
Abbreviation key := (string * Z)%type.

Record acc := Acc {
  matches : list json;          (* [matches], in insertion order *)
  seen : gset key               (* [seen] *)
}.

Definition empty_acc : acc := Acc [] ∅.

(** One turn of the [while] loop: go on with the new state, or [break]. *)
Inductive step :=
  | Continue (a : acc)
  | Break.

Definition warning_msg (page : Z) (exc : string) : string :=
  "ADVERTENCIA: No fue posible continuar en la p" +:+ Text.chr 225 +:+ "gina "
  +:+ pretty page +:+ ": " +:+ exc.

(** [time.sleep(s)] refuses a negative duration. *)
Definition time_sleep (s : Q) : io unit :=
  if Qle_bool 0 s then emit (Sleep s) else throw Py.ValueError.

Section Program.
Context `{Py.Builtins} (cfg : Config) (net : Network).

(** [(str(ip), int(port) if port is not None else -1)] *)
Definition match_key (m : json) : result key :=
  ip_str ← Py.get m "ip_str" JNull;
  ip ← (if Py.truthy ip_str then Ret ip_str else Py.get m "ip" JNull);
  port ← Py.get m "port" JNull;
  p ← match port with JNull => Ret (-1) | _ => Py.int port end;
  Ret (Py.str ip, p).

(** The body of [add_batch]'s loop, over the matches still to visit. *)
Fixpoint add_each (ms : list json) (a : acc) (added : Z) : result (acc * Z) :=
  match ms with
  | [] => Ret (a, added)
  | m :: ms' =>
      k ← match_key m;
      if decide (k ∈ seen a) then add_each ms' a added
      else add_each ms' (Acc (matches a ++ [m]) ({[k]} ∪ seen a)) (added + 1)
  end.

Definition add_batch (batch : json) (a : acc) : result (acc * Z) :=
  ms ← Py.iter (Py.or batch (JArr []));
  add_each ms a 0.

Definition loop_condition (max_results total_reported : Z) (a : acc) : bool :=
  (Z.of_nat (length (matches a)) <? max_results)
  && (Z.of_nat (length (matches a)) <? total_reported).

(** The loop body for [page] (already incremented). *)
Definition loop_body (query : string) (sleep_s : Q) (page : Z) (a : acc) : io step :=
  fetched ← try_except_SystemExit
      (data ← http_get_shodan cfg net query page EmptyString; mret (Some data))
      (λ exc, emit (Stderr (warning_msg page exc));; mret None);
  match fetched with
  | None => mret Break
  | Some data =>
      batch ← lift (Py.get data "matches" (JArr []));
      if negb (Py.truthy batch) then mret Break
      else
        '(a', added) ← lift (add_batch batch a);
        if added =? 0 then mret Break
        else time_sleep sleep_s;; mret (Continue a')
  end.

(** The [while] loop, entered with [page] the last page fetched. *)
Fixpoint fetch_loop (fuel : nat) (query : string) (max_results total_reported : Z)
    (sleep_s : Q) (page : Z) (a : acc) : io acc :=
  if loop_condition max_results total_reported a then
    match fuel with
    | O => IO [] OutOfFuel
    | S fuel' =>
        s ← loop_body query sleep_s (page + 1) a;
        match s with
        | Break => mret a
        | Continue a' =>
            fetch_loop fuel' query max_results total_reported sleep_s (page + 1) a'
        end
    end
  else mret a.

(** Every turn that goes on adds a match and the loop stops at
    [max_results] matches, so [max_results] turns are enough
    (theorem [fetch_all_terminates]). *)
Definition fetch_all (query facets : string) (max_results : Z) (sleep_s : Q)
  : io (list json * Z * option json) :=
  first ← http_get_shodan cfg net query 1 facets;
  total_reported ← lift (Py.get first "total" (JInt 0) ≫= Py.int);
  f ← lift (Py.get first "facets" JNull);
  let facets_obj := if Py.truthy f then Some f else None in
  batch ← lift (Py.get first "matches" (JArr []));
  '(a, _) ← lift (add_batch batch empty_acc);
  a ← fetch_loop (Z.to_nat max_results) query max_results total_reported sleep_s 1 a;
  mret (Py.slice_to (matches a) max_results, total_reported, facets_obj).

(** ** Reporter

    The text of the report is not modelled: each print function leaves
    one [Stdout] block carrying its arguments.  Where the record
    accesses of a print function can raise, the model raises too. *)

Definition print_banner (final_query : string) : io unit :=
  emit (Stdout (Banner final_query)).

Definition facet_item (it : json) : result unit :=
  _ ← Py.get it "value" JNull;
  _ ← Py.get it "count" JNull;
  Ret tt.

Definition facet_entry (entry : string * json) : result unit :=
  if Py.truthy entry.2 then Py.iter entry.2 ≫= for_each facet_item else Ret tt.

Definition print_facets (facets_obj : option json) : io unit :=
  match facets_obj with
  | None => mret tt
  | Some f =>
      if Py.truthy f then
        emit (Stdout (FacetListing f));;
        lift (Py.items f ≫= for_each facet_entry)
      else mret tt
  end.

Definition table_row (m : json) : result unit :=
  ip_str ← Py.get m "ip_str" JNull;
  _ ← (if Py.truthy ip_str then Ret ip_str else Py.get m "ip" JNull);
  _ ← Py.get m "port" JNull;
  _ ← Py.get m "transport" JNull;
  product ← Py.get m "product" JNull;
  _ ← (if Py.truthy product then Ret product
       else sh ← Py.get m "_shodan" JNull; Py.get (Py.or sh (JObj [])) "module" JNull);
  _ ← Py.get m "hostnames" JNull;
  loc ← Py.get m "location" JNull;
  _ ← Py.get (Py.or loc (JObj [])) "city" JNull;
  _ ← Py.get m "org" JNull;
  _ ← Py.get m "timestamp" JNull;
  Ret tt.

Definition print_results (results : list json) : io unit :=
  emit (Stdout (Table results));;
  lift (for_each table_row results).

Definition summary_row (m : json) : result unit :=
  ip_str ← Py.get m "ip_str" JNull;
  _ ← (if Py.truthy ip_str then Ret ip_str else Py.get m "ip" JNull);
  _ ← Py.get m "port" JNull;
  Ret tt.

Definition print_summary (results : list json) : io unit :=
  lift (for_each summary_row results);;
  emit (Stdout (Summary results)).

(** ** Entry point *)

Definition main : io unit :=
  final_query ← lift (build_query cfg);
  print_banner final_query;;
  '(results, total_reported, facets_obj) ←
      fetch_all final_query (FACETS cfg) (MAX_RESULTS cfg) (SLEEP_SECONDS cfg);
  emit (Stdout (Totals total_reported (length results)));;
  print_facets facets_obj;;
  print_results results;;
  print_summary results.

End Program.

(** ** Notions used by the statements *)

Section Notions.
Context `{Py.Builtins} (cfg : Config) (net : Network).

(** The server answers the request for [page] with status 200 and a
    body that decodes to [data]. *)
Definition serves (query : string) (page : Z) (facets : string) (data : json) : Prop :=
  ∃ resp, net (full_url cfg query page facets) = inr resp
          ∧ status_code resp = 200 ∧ json_body resp = Ret data.

(** The first page is served, reports [total], carries the facets
    [facets_obj] (if any) and the match list [l]. *)
Definition first_page (query facets : string)
    (total : Z) (facets_obj : option json) (l : list json) : Prop :=
  ∃ first f,
    serves query 1 facets first
    ∧ Py.get first "total" (JInt 0) ≫= Py.int = Ret total
    ∧ Py.get first "facets" JNull = Ret f
    ∧ facets_obj = (if Py.truthy f then Some f else None)
    ∧ Py.get first "matches" (JArr []) = Ret (JArr l).

(** A later page is served and carries the match list [l]. *)
Definition later_page (query : string) (page : Z) (l : list json) : Prop :=
  ∃ data, serves query page EmptyString data
          ∧ Py.get data "matches" (JArr []) = Ret (JArr l).

(** The identity keys of a list of matches, in order. *)
Fixpoint keys_of (ms : list json) : result (list key) :=
  match ms with
  | [] => Ret []
  | m :: ms' => k ← match_key m; ks ← keys_of ms'; Ret (k :: ks)
  end.

(** The set of identity keys that occur in a list of matches. *)
Fixpoint key_set (ms : list json) : gset key :=
  match ms with
  | [] => ∅
  | m :: ms' =>
      match match_key m with
      | Ret k => {[k]} ∪ key_set ms'
      | Raise _ => key_set ms'
      end
  end.

(** The first match of every identity key not in [s], in list order.
    A match whose key cannot be computed is passed over: the
    accumulator raises on it, so no returning run meets one. *)
Fixpoint first_seen_from (s : gset key) (ms : list json) : list json :=
  match ms with
  | [] => []
  | m :: ms' =>
      match match_key m with
      | Ret k =>
          if decide (k ∈ s) then first_seen_from s ms'
          else m :: first_seen_from ({[k]} ∪ s) ms'
      | Raise _ => first_seen_from s ms'
      end
  end.

Definition first_seen (ms : list json) : list json := first_seen_from ∅ ms.

(** The match list carried by [page] as the accumulator requests it
    (facets on the first page only); empty when the page is not served
    or carries no list. *)
Definition page_matches (query facets : string) (page : Z) : list json :=
  match net (full_url cfg query page (if page =? 1 then facets else EmptyString)) with
  | inr resp =>
      if status_code resp =? 200 then
        match json_body resp ≫= λ data, Py.get data "matches" (JArr []) with
        | Ret (JArr l) => l
        | _ => []
        end
      else []
  | inl _ => []
  end.

(** The matches of pages 1..n, in page order. *)
Fixpoint pages_upto (query facets : string) (n : nat) : list json :=
  match n with
  | O => []
  | S n' => pages_upto query facets n' ++ page_matches query facets (Z.of_nat n)
  end.

(** The accumulated list has one match per identity key, and [seen]
    holds exactly these keys. *)
Definition well_keyed (a : acc) : Prop :=
  ∃ ks, keys_of (matches a) = Ret ks ∧ NoDup ks ∧ seen a = list_to_set ks.

(** The state holds what pages 1..n carry: the first match of every
    key, in the order of the pages. *)
Definition gathered (query facets : string) (n : nat) (a : acc) : Prop :=
  matches a = first_seen (pages_upto query facets n)
  ∧ seen a = key_set (pages_upto query facets n).

(** [n] turns of the loop in a row, each entered with the loop
    condition true and left through its end (no [break], no exception):
    the events of these turns and the state they lead to. *)
Fixpoint turns (n : nat) (query : string) (max_results total_reported : Z)
    (sleep_s : Q) (page : Z) (a : acc) : option (list event * acc) :=
  match n with
  | O => Some ([], a)
  | S n' =>
      if loop_condition max_results total_reported a then
        let r := loop_body cfg net query sleep_s (page + 1) a in
        match out r with
        | Returns (Continue a') =>
            match turns n' query max_results total_reported sleep_s (page + 1) a' with
            | Some (tr, a'') => Some (trace r ++ tr, a'')
            | None => None
            end
        | _ => None
        end
      else None
  end.

(** Every page the loop fetches within [n] turns is served, is not
    empty and adds a match (and the pause after it succeeds). *)
Fixpoint every_page_contributes (n : nat) (query : string)
    (max_results total_reported : Z) (sleep_s : Q) (page : Z) (a : acc) : bool :=
  match n with
  | O => true
  | S n' =>
      if loop_condition max_results total_reported a then
        match out (loop_body cfg net query sleep_s (page + 1) a) with
        | Returns (Continue a') =>
            every_page_contributes n' query max_results total_reported sleep_s (page + 1) a'
        | _ => false
        end
      else true
  end.

(** Room left below [max_results]: a bound on the turns still to come. *)
Definition room (max_results : Z) (a : acc) : nat :=
  Z.to_nat (max_results - Z.of_nat (length (matches a))).

(** What [main] does once the accumulator has returned. *)
Definition reporting (results : list json) (total_reported : Z)
    (facets_obj : option json) : io unit :=
  emit (Stdout (Totals total_reported (length results)));;
  print_facets facets_obj;;
  print_results results;;
  print_summary results.

(** The mandatory country constraint and, if a city is configured,
    its quoted constraint. *)
Definition base_query : string :=
  "country:GT"
  +:+ match city_configured cfg with
      | Some c => " city:" +:+ Text.dquote +:+ c +:+ Text.dquote
      | None => EmptyString
      end.

(** The query as the specification describes it: country, quoted city
    if configured, additional text verbatim, joined by single spaces. *)
Definition described_query : string :=
  base_query
  +:+ (if Text.nonempty (ADDITIONAL_FILTERS cfg)
       then " " +:+ ADDITIONAL_FILTERS cfg else EmptyString).

(** What the builder returns: as described, with the additional text
    losing its trailing whitespace, and left out together with its
    joining space when nothing else remains of it. *)
Definition built_query : string :=
  base_query
  +:+ match Text.rstrip (ADDITIONAL_FILTERS cfg) with
      | EmptyString => EmptyString
      | r => " " +:+ r
      end.

(** The additional text is free of prohibited terms. *)
Definition free_of_prohibited : Prop :=
  ∀ t, t ∈ PROHIBITED_KEYWORDS cfg → ¬ Text.occurs_ci t (ADDITIONAL_FILTERS cfg).

End Notions.

(** [x] occurs in [s]. *)
Definition occurs (x s : string) : Prop := ∃ pre post, s = pre +:+ x +:+ post.

(** ** Data for the examples *)

(** The examples use string addresses and integer ports only, so
    neither open conversion is ever called on them. *)
Definition example_builtins : Py.Builtins := {|
  Py.repr_container := λ _, "<container>";
  Py.int_of_str := λ _, None
|}.

Definition host (ip : string) (port : Z) : json :=
  JObj [("ip_str", JStr ip); ("port", JInt port)].

Definition page_body (total : Z) (ms : list json) : json :=
  JObj [("total", JInt total); ("matches", JArr ms)].

Definition ok (body : json) : string + Response :=
  inr {| status_code := 200; text := EmptyString; json_body := Ret body |}.

Definition http_failure (status : Z) (body : string) : string + Response :=
  inr {| status_code := status; text := body;
         json_body := Raise (Exception "JSONDecodeError") |}.

(** A server that answers the listed pages of one query and refuses
    every other connection. *)
Fixpoint serve (cfg : Config) (query facets : string)
    (pages : list (Z * (string + Response))) : Network :=
  λ url,
    match pages with
    | [] => inl "ConnectionError"
    | (p, r) :: rest =>
        if String.eqb (full_url cfg query p (if p =? 1 then facets else EmptyString)) url
        then r else serve cfg query facets rest url
    end.

Definition example_query : string := "country:GT".

Definition h1 : json := host "10.0.0.1" 80.
Definition h2 : json := host "10.0.0.2" 443.
Definition h3 : json := host "10.0.0.3" 80.
Definition h4 : json := host "10.0.0.1" 22.
Definition h5 : json := host "10.0.0.4" 8080.

(** The first page reports nothing. *)
Definition net_empty : Network :=
  serve source_config example_query EmptyString [(1, ok (page_body 0 []))].

(** The second page repeats the first. *)
Definition net_duplicates : Network :=
  serve source_config example_query EmptyString
    [(1, ok (page_body 4 [h1; h2])); (2, ok (page_body 4 [h2; h1]))].

(** Five matches on three pages. *)
Definition net_five : Network :=
  serve source_config example_query EmptyString
    [(1, ok (page_body 5 [h1; h2])); (2, ok (page_body 5 [h3; h4]));
     (3, ok (page_body 5 [h5]))].

(** The second page is answered with status 503. *)
Definition net_second_unavailable : Network :=
  serve source_config example_query EmptyString
    [(1, ok (page_body 5 [h1; h2])); (2, http_failure 503 "upstream")].

(** The connection for the second page is refused. *)
Definition net_second_refused : Network :=
  serve source_config example_query EmptyString [(1, ok (page_body 5 [h1; h2]))].

(** Two pages are served, the connection for the third is refused. *)
Definition net_third_refused : Network :=
  serve source_config example_query EmptyString
    [(1, ok (page_body 5 [h1; h2])); (2, ok (page_body 5 [h3; h4]))].

(** The first page is answered with status 401. *)
Definition net_unauthorized : Network :=
  serve source_config example_query EmptyString [(1, http_failure 401 "invalid key")].

(** ** Notions for the further properties *)

(** The URLs requested in a run, in order. *)
Fixpoint requests (tr : list event) : list string :=
  match tr with
  | [] => []
  | HttpGet url :: tr' => url :: requests tr'
  | _ :: tr' => requests tr'
  end.

(** The events of [j] turns in a row that go on after [page]: a
    request for the next page, then the pause. *)
Fixpoint turns_trace (cfg : Config) (query : string) (sleep_s : Q)
    (page : Z) (j : nat) : list event :=
  match j with
  | O => []
  | S j' =>
      HttpGet (full_url cfg query (page + 1) EmptyString) :: Sleep sleep_s
      :: turns_trace cfg query sleep_s (page + 1) j'
  end.

(** The URLs of pages 1..k as the accumulator requests them: facets on
    the first page only. *)
Definition page_urls (cfg : Config) (query facets : string) (k : nat) : list string :=
  (λ i, full_url cfg query (Z.of_nat i)
          (if Z.of_nat i =? 1 then facets else EmptyString)) <$> seq 1 k.

(** [isinstance(v, dict)] *)
Definition is_dict (v : json) : bool :=
  match v with JObj _ => true | _ => false end.

(** The record accesses of one table row succeed: the match is a dict;
    [_shodan] is looked into only without a product and must then be
    empty or a dict; [location] must be empty or a dict. *)
Definition table_row_ok (m : json) : bool :=
  match m with
  | JObj o =>
      let product := default JNull (Py.assoc "product" o) in
      let sh := default JNull (Py.assoc "_shodan" o) in
      let loc := default JNull (Py.assoc "location" o) in
      (Py.truthy product || negb (Py.truthy sh) || is_dict sh)
      && (negb (Py.truthy loc) || is_dict loc)
  | _ => false
  end.

(** The blocks of the report after the counters, when nothing raises. *)
Definition report_blocks (results : list json) (facets_obj : option json) : list event :=
  match facets_obj with
  | Some f => [Stdout (FacetListing f)]
  | None => []
  end ++ [Stdout (Table results); Stdout (Summary results)].

(** ** Reading a quoted text back

    The value of a hexadecimal digit, and the first character of a
    text quoted by [quote_plus] together with what follows it. *)

Definition hex_value (c : Ascii.ascii) : N :=
  let n := Text.code c in
  (if n <? 58 then n - 48 else n - 55)%N.

Definition unquote_first (s : string) : option (Ascii.ascii * string) :=
  match s with
  | EmptyString => None
  | String c r =>
      if (Text.code c =? 43)%N then Some (Ascii.ascii_of_N 32, r)
      else if (Text.code c =? 37)%N then
        match r with
        | String a (String b r1) =>
            let n := (16 * hex_value a + hex_value b)%N in
            if (n <? 128)%N then Some (Ascii.ascii_of_N n, r1)
            else
              match r1 with
              | String _ (String c (String d r2)) =>
                  let m := (16 * hex_value c + hex_value d)%N in
                  Some (Ascii.ascii_of_N ((n - 192) * 64 + (m - 128)), r2)
              | _ => None
              end
        | _ => None
        end
      else Some (c, r)
  end.

(** A configuration whose prohibited keyword has a capital letter. *)
Definition config_capital : Config := {|
  SHODAN_API_KEY := "XXXXXXX";
  CITY_FILTER := None;
  ADDITIONAL_FILTERS := "org:acme";
  FACETS := EmptyString;
  MAX_RESULTS := 1000;
  SLEEP_SECONDS := 1%Q;
  PROHIBITED_KEYWORDS := ["Org:"]
|}.

(** The separator of the parameters in a URL. *)
Definition amp : string := "&".

(** ** The text of the table and the figures of the summary

    What [print_results] puts on a line and what [print_summary]
    counts, computed from the list of matches. *)

Fixpoint spaces (n : nat) : string :=
  match n with
  | O => EmptyString
  | S n' => " " +:+ spaces n'
  end.

(** [f"{s:<w}"]: padded on the right, never cut. *)
Definition ljust (w : nat) (s : string) : string :=
  s +:+ spaces (w - String.length s).

(** [s[:n]] *)
Fixpoint cut (n : nat) (s : string) : string :=
  match n, s with
  | S n', String c s' => String c (cut n' s')
  | _, _ => EmptyString
  end.

Definition is_None (v : json) : bool :=
  match v with JNull => true | _ => false end.

Definition table_header : string :=
  ljust 18 "IP" +:+ " " +:+ ljust 7 "Puerto" +:+ " " +:+ ljust 6 "Proto" +:+ " "
  +:+ ljust 22 "Producto" +:+ " " +:+ ljust 30 "Hostnames" +:+ " "
  +:+ ljust 16 "Ciudad" +:+ " " +:+ ljust 18 "Org" +:+ " " +:+ ljust 20 "Fecha".

Record summary := MkSummary {
  unique_ips : gset string;            (* [unique_ips] *)
  port_to_ips : gmap Z (gset string)   (* [port_to_ips] *)
}.

(** Python compares the sort keys [(-len(ips), port)] as tuples. *)
Definition tuple_le (a b : Z * Z) : Prop :=
  a.1 < b.1 ∨ (a.1 = b.1 ∧ a.2 ≤ b.2).

Global Instance tuple_le_dec (a b : Z * Z) : Decision (tuple_le a b).
Proof. unfold tuple_le. apply _. Defined.

Definition sort_key (kv : Z * gset string) : Z * Z :=
  (- Z.of_nat (size kv.2), kv.1).

Definition items_le (a b : Z * gset string) : Prop :=
  tuple_le (sort_key a) (sort_key b).

Global Instance items_le_dec (a b : Z * gset string) : Decision (items_le a b).
Proof. unfold items_le. apply _. Defined.

Section Report.
Context `{Py.Builtins}.

Definition normalize (value : json) : string :=
  match value with
  | JNull => EmptyString
  | JArr l => String.concat "," (Py.str <$> List.filter (λ v, negb (is_None v)) l)
  | _ => Py.str value
  end.

(** The line [print_results] prints for the match [m]. *)
Definition table_line (m : json) : result string :=
  ip_str ← Py.get m "ip_str" JNull;
  ip ← (if Py.truthy ip_str then Ret ip_str else Py.get m "ip" JNull);
  port ← Py.get m "port" JNull;
  proto ← Py.get m "transport" JNull;
  product ← Py.get m "product" JNull;
  product ← (if Py.truthy product then Ret product
             else sh ← Py.get m "_shodan" JNull; Py.get (Py.or sh (JObj [])) "module" JNull);
  hostnames ← Py.get m "hostnames" JNull;
  loc ← Py.get m "location" JNull;
  city ← Py.get (Py.or loc (JObj [])) "city" JNull;
  org ← Py.get m "org" JNull;
  ts ← Py.get m "timestamp" JNull;
  Ret (ljust 18 (normalize ip) +:+ " "
       +:+ ljust 7 (normalize port) +:+ " "
       +:+ ljust 6 (normalize proto) +:+ " "
       +:+ ljust 22 (cut 21 (normalize product)) +:+ " "
       +:+ ljust 30 (cut 29 (normalize hostnames)) +:+ " "
       +:+ ljust 16 (cut 15 (normalize city)) +:+ " "
       +:+ ljust 18 (cut 17 (normalize org)) +:+ " "
       +:+ ljust 20 (cut 19 (normalize ts))).

(** The body of the counting loop of [print_summary].  A port that
    [int] refuses is passed over ([except Exception: pass]). *)
Definition summary_add (m : json) (s : summary) : result summary :=
  ip_str ← Py.get m "ip_str" JNull;
  ip ← (if Py.truthy ip_str then Ret ip_str else Py.get m "ip" JNull);
  let unique := if Py.truthy ip then {[Py.str ip]} ∪ unique_ips s else unique_ips s in
  port ← Py.get m "port" JNull;
  match port with
  | JNull => Ret (MkSummary unique (port_to_ips s))
  | _ =>
      match Py.int port with
      | Ret p =>
          Ret (MkSummary unique
                 (<[p := {[Py.str ip]} ∪ default ∅ (port_to_ips s !! p)]> (port_to_ips s)))
      | Raise (Exception _) => Ret (MkSummary unique (port_to_ips s))
      | Raise e => Raise e
      end
  end.

Fixpoint summarize (results : list json) (s : summary) : result summary :=
  match results with
  | [] => Ret s
  | m :: results' => s' ← summary_add m s; summarize results' s'
  end.

(** The port lines of the summary, as (port, number of addresses):
    [sorted(port_to_ips.items(), key=lambda kv: (-len(kv[1]), kv[0]))].
    The ports are distinct, so the sorted order is unique. *)
Definition port_rows (s : summary) : list (Z * nat) :=
  (λ kv, (kv.1, size kv.2))
  <$> merge_sort items_le (map_to_list (port_to_ips s)).

(** The address of a match as the reporter reads it,
    [m.get("ip_str") or m.get("ip")], its fields, and its port when it
    has one that [int] accepts. *)
Definition field (k : string) (m : json) : json :=
  match m with
  | JObj o => default JNull (Py.assoc k o)
  | _ => JNull
  end.

Definition address (m : json) : json := Py.or (field "ip_str" m) (field "ip" m).

Definition port_of (m : json) : option Z :=
  match field "port" m with
  | JNull => None
  | v => match Py.int v with Ret p => Some p | Raise _ => None end
  end.

End Report.

(** A line stands before another: more addresses, or as many and a
    port that is not greater. *)
Definition row_before (a b : Z * nat) : Prop :=
  (b.2 < a.2)%nat ∨ (a.2 = b.2 ∧ a.1 ≤ b.1).

Definition has_port (m : json) : bool := negb (is_None (field "port" m)).

Definition no_summary : summary := MkSummary ∅ ∅.

(** The identity key as the specification words it: the address as
    text and the port as an integer, -1 standing for a port that is
    absent.  Only a record has one. *)
Definition identity_key `{Py.Builtins} (m : json) : result key :=
  match m with
  | JObj _ =>
      match field "port" m with
      | JNull => Ret (Py.str (address m), -1)
      | port => p ← Py.int port; Ret (Py.str (address m), p)
      end
  | _ => Raise Py.AttributeError
  end.

(** * Properties *)

#[local] Arguments String.append !_ _ / : simpl nomatch.
#[local] Set Warnings "-clear-no-such-hyp".
#[local] Arguments full_url : simpl never.

(** ** The model on small inputs *)

Example lower_mixed : Text.lower "Port:80 ORG:Acme" = "port:80 org:acme".
Proof. reflexivity. Qed.

Example contains_mid : Text.contains "org:" "port:80 org:acme" = true.
Proof. reflexivity. Qed.

Example strip_both : Text.strip (" a b " +:+ Text.newline) = "a b".
Proof. reflexivity. Qed.

Example urlencode_query :
  Text.urlencode [("query", "country:GT city:" +:+ Text.dquote +:+ "Antigua" +:+ Text.dquote);
                  ("page", pretty 2)]
  = "query=country%3AGT+city%3A%22Antigua%22&page=2".
Proof. reflexivity. Qed.

Example slice_to_short : Py.slice_to [1; 2; 3; 4; 5] 3 = [1; 2; 3].
Proof. reflexivity. Qed.

Example slice_to_negative : Py.slice_to [1; 2; 3; 4; 5] (-1) = [1; 2; 3; 4].
Proof. reflexivity. Qed.

Example slice_to_long : Py.slice_to [1; 2] 1000 = [1; 2].
Proof. reflexivity. Qed.

Example build_query_source : build_query source_config = Ret "country:GT".
Proof. reflexivity. Qed.

Example build_query_city_port :
  build_query (with_filters source_config (Some "Antigua") "port:80")
  = Ret ("country:GT city:" +:+ Text.dquote +:+ "Antigua" +:+ Text.dquote +:+ " port:80").
Proof. reflexivity. Qed.

Example build_query_org :
  build_query (with_filters source_config None "port:80 Org:Acme")
  = Raise (SystemExit org_prohibited_msg).
Proof. reflexivity. Qed.

Example fetch_all_five :
  fetch_all (H := example_builtins) source_config net_five example_query EmptyString 10 1%Q
  = IO [HttpGet (full_url source_config example_query 1 EmptyString);
        HttpGet (full_url source_config example_query 2 EmptyString);
        Sleep 1%Q;
        HttpGet (full_url source_config example_query 3 EmptyString);
        Sleep 1%Q]
       (Returns ([h1; h2; h3; h4; h5], 5, None)).
Proof. reflexivity. Qed.

Example fetch_all_five_max_3 :
  fetch_all (H := example_builtins) source_config net_five example_query EmptyString 3 1%Q
  = IO [HttpGet (full_url source_config example_query 1 EmptyString);
        HttpGet (full_url source_config example_query 2 EmptyString);
        Sleep 1%Q]
       (Returns ([h1; h2; h3], 5, None)).
Proof. reflexivity. Qed.

Example match_key_no_port :
  match_key (H := example_builtins) (JObj [("ip", JInt 167772161)])
  = Ret ("167772161", -1).
Proof. reflexivity. Qed.

Example main_duplicates :
  main (H := example_builtins) source_config net_duplicates
  = IO [Stdout (Banner example_query);
        HttpGet (full_url source_config example_query 1 EmptyString);
        HttpGet (full_url source_config example_query 2 EmptyString);
        Stdout (Totals 4 2);
        Stdout (Table [h1; h2]);
        Stdout (Summary [h1; h2])]
       (Returns tt).
Proof. reflexivity. Qed.

(** ** Text *)

Module TextFacts.
Import Text.

Lemma app_empty_r (s : string) : s +:+ EmptyString = s.
Proof. induction s as [|c s IH]; simpl; [done | by rewrite IH]. Qed.

Lemma app_assoc (a b c : string) : (a +:+ b) +:+ c = a +:+ b +:+ c.
Proof. induction a as [|x a IH]; simpl; [done | by rewrite IH]. Qed.

Lemma lower_app (a b : string) : lower (a +:+ b) = lower a +:+ lower b.
Proof. induction a as [|x a IH]; simpl; [done | by rewrite IH]. Qed.

Lemma lower_char_idemp (c : Ascii.ascii) : lower_char (lower_char c) = lower_char c.
Proof. by destruct c as [[] [] [] [] [] [] [] []]. Qed.

Lemma lower_idemp (s : string) : lower (lower s) = lower s.
Proof.
  induction s as [|c s IH]; simpl; [done |].
  by rewrite lower_char_idemp, IH.
Qed.

(** A lower-cased text splits where the original does. *)
Lemma lower_split (s a b : string) :
  lower s = a +:+ b → ∃ a' b', s = a' +:+ b' ∧ lower a' = a ∧ lower b' = b.
Proof.
  revert s. induction a as [|x a IH]; intros s Hs.
  - by exists EmptyString, s.
  - destruct s as [|c s]; simpl in Hs; [done |].
    injection Hs as Hc Hs. destruct (IH _ Hs) as (a' & b' & -> & <- & <-).
    exists (String c a'), b'. simpl. by rewrite Hc.
Qed.

Lemma prefix_app (x post : string) : String.prefix x (x +:+ post) = true.
Proof.
  induction x as [|c x IH]; simpl; [by destruct post |].
  by destruct (Ascii.ascii_dec c c).
Qed.

Lemma prefix_split (x s : string) :
  String.prefix x s = true → ∃ post, s = x +:+ post.
Proof.
  revert s. induction x as [|c x IH]; intros s Hp.
  - by exists s.
  - destruct s as [|d s]; simpl in Hp; [done |].
    destruct (Ascii.ascii_dec c d) as [->|]; [|done].
    destruct (IH _ Hp) as [post ->]. by exists post.
Qed.

Lemma contains_prefix (x s : string) : String.prefix x s = true → contains x s = true.
Proof.
  intros Hp. destruct s as [|c s].
  - change (String.prefix x EmptyString || false = true). by rewrite Hp.
  - change (String.prefix x (String c s) || contains x s = true). by rewrite Hp.
Qed.

Lemma contains_app (x pre post : string) : contains x (pre +:+ x +:+ post) = true.
Proof.
  induction pre as [|c pre IH].
  - simpl. apply contains_prefix, prefix_app.
  - change (contains x (String c (pre +:+ x +:+ post)) = true).
    simpl. rewrite IH. apply orb_true_r.
Qed.

Lemma contains_split (x s : string) :
  contains x s = true → ∃ pre post, s = pre +:+ x +:+ post.
Proof.
  induction s as [|c s IH]; intros Hc.
  - change (String.prefix x EmptyString || false = true) in Hc.
    rewrite orb_false_r in Hc. destruct (prefix_split _ _ Hc) as [post ->].
    by exists EmptyString, post.
  - change (String.prefix x (String c s) || contains x s = true) in Hc.
    apply orb_true_iff in Hc as [Hp | Hc].
    + destruct (prefix_split _ _ Hp) as [post ->]. by exists EmptyString, post.
    + destruct (IH Hc) as (pre & post & ->). by exists (String c pre), post.
Qed.

(** The membership test on the lower-cased text finds exactly the
    occurrences in any letter case of a lower-case term. *)
Lemma contains_lower_occurs (t s : string) :
  lower t = t → occurs_ci t s → contains t (lower s) = true.
Proof.
  intros Ht (pre & mid & post & -> & Hmid).
  rewrite !lower_app, Hmid, Ht. apply contains_app.
Qed.

Lemma occurs_contains_lower (t s : string) :
  contains t (lower s) = true → occurs_ci t s.
Proof.
  intros Hc. destruct (contains_split _ _ Hc) as (pre & post & Hs).
  destruct (lower_split _ _ _ Hs) as (pre' & rest & -> & _ & Hrest).
  destruct (lower_split _ _ _ Hrest) as (mid & post' & -> & Hmid & _).
  exists pre', mid, post'. split; [done |].
  by rewrite <- Hmid, lower_idemp.
Qed.

Lemma nonempty_occurs (t s : string) :
  nonempty t = true → occurs_ci t s → nonempty s = true.
Proof.
  intros Ht (pre & mid & post & -> & Hmid).
  destruct pre; [|done]. destruct mid; [|done].
  by destruct t.
Qed.

(** *** Stripping *)

Lemma lstrip_id (c : Ascii.ascii) (s : string) :
  is_space c = false → lstrip (String c s) = String c s.
Proof. intros Hc. simpl. by rewrite Hc. Qed.

Lemma rstrip_app (a b : string) :
  rstrip (a +:+ b) =
  match rstrip b with EmptyString => rstrip a | _ => a +:+ rstrip b end.
Proof.
  induction a as [|c a IH]; simpl.
  - by destruct (rstrip b).
  - rewrite IH. destruct (rstrip b) as [|e r]; [done |].
    by destruct a.
Qed.

Lemma rstrip_last (s : string) (c : Ascii.ascii) :
  last_char (rstrip s) = Some c → is_space c = false.
Proof.
  induction s as [|d s IH]; simpl; [done |].
  destruct (rstrip s) as [|e r] eqn:E.
  - destruct (is_space d) eqn:Hd; simpl; [done |]. by intros [= <-].
  - exact IH.
Qed.

Lemma rstrip_keeps (s : string) (c : Ascii.ascii) :
  last_char s = Some c → is_space c = false → rstrip s = s.
Proof.
  induction s as [|d s IH]; [done |].
  destruct s as [|e s].
  - intros [= ->] Hc. simpl. by rewrite Hc.
  - intros Hl Hc. change (last_char (String e s) = Some c) in Hl.
    change (match rstrip (String e s) with
            | EmptyString => if is_space d then EmptyString else String d EmptyString
            | r => String d r end = String d (String e s)).
    by rewrite (IH Hl Hc).
Qed.

Lemma last_char_app (a b : string) :
  b ≠ EmptyString → last_char (a +:+ b) = last_char b.
Proof.
  intros Hb. induction a as [|c a IH]; simpl; [done |].
  rewrite IH. destruct (a +:+ b) eqn:E; [|done].
  destruct a; simpl in E; [done | discriminate].
Qed.

End TextFacts.

(** ** Runs *)

Lemma io_eta {A} (m : io A) : IO (trace m) (out m) = m.
Proof. by destruct m. Qed.

Lemma bind_returns {A B} (m : io A) (f : A → io B) (a : A) :
  out m = Returns a → m ≫= f = IO (trace m ++ trace (f a)) (out (f a)).
Proof. intros Hm. unfold mbind, io_bind. by rewrite Hm. Qed.

Lemma bind_raises {A B} (m : io A) (f : A → io B) (e : exn) :
  out m = Raises e → m ≫= f = IO (trace m) (Raises e).
Proof. intros Hm. unfold mbind, io_bind. by rewrite Hm. Qed.

Lemma bind_lift_ret {A B} (a : A) (f : A → io B) : lift (Ret a) ≫= f = f a.
Proof. unfold mbind, io_bind. simpl. apply io_eta. Qed.

Lemma bind_lift_raise {A B} (e : exn) (f : A → io B) :
  lift (Raise e) ≫= f = IO [] (Raises e).
Proof. done. Qed.

Lemma bind_emit {B} (e : event) (f : unit → io B) :
  emit e ≫= f = IO (e :: trace (f tt)) (out (f tt)).
Proof. done. Qed.

Lemma bind_mret {A B} (a : A) (f : A → io B) : mret a ≫= f = f a.
Proof. unfold mbind, io_bind, mret, io_ret. simpl. apply io_eta. Qed.

(** ** Query builder *)

Section QueryBuilder.
Context (cfg : Config).
Import Text TextFacts.

Lemma any_prohibited_occurs (low := lower (ADDITIONAL_FILTERS cfg)) :
  any_prohibited cfg low = true →
  ∃ t, t ∈ PROHIBITED_KEYWORDS cfg ∧ occurs_ci t (ADDITIONAL_FILTERS cfg).
Proof.
  unfold any_prohibited. intros Hany.
  apply existsb_exists in Hany as (t & Hin & Hc).
  exists t. split; [by apply list_elem_of_In | by apply occurs_contains_lower].
Qed.

Lemma occurs_any_prohibited (t : string) :
  t ∈ PROHIBITED_KEYWORDS cfg → lower t = t →
  occurs_ci t (ADDITIONAL_FILTERS cfg) →
  any_prohibited cfg (lower (ADDITIONAL_FILTERS cfg)) = true.
Proof.
  intros Hin Ht Hocc. unfold any_prohibited.
  apply existsb_exists. exists t.
  split; [by apply list_elem_of_In | by apply contains_lower_occurs].
Qed.

Lemma build_query_prohibited (t : string) :
  t ∈ PROHIBITED_KEYWORDS cfg → lower t = t → nonempty t = true →
  occurs_ci t (ADDITIONAL_FILTERS cfg) →
  build_query cfg = Raise (SystemExit org_prohibited_msg).
Proof.
  intros Hin Ht Hne Hocc. unfold build_query.
  rewrite (nonempty_occurs _ _ Hne Hocc).
  by rewrite (occurs_any_prohibited t).
Qed.

Lemma base_query_rstrip : rstrip (base_query cfg) = base_query cfg.
Proof.
  unfold base_query. destruct (city_configured cfg) as [c|].
  - apply (rstrip_keeps _ (Ascii.ascii_of_N 34)); [|reflexivity].
    rewrite <- !app_assoc. by rewrite last_char_app.
  - done.
Qed.

Lemma rstrip_join (b extra : string) :
  rstrip b = b →
  b +:+ match rstrip extra with EmptyString => EmptyString | r => " " +:+ r end
  = rstrip (b +:+ (if nonempty extra then " " +:+ extra else EmptyString)).
Proof.
  intros Hb. rewrite rstrip_app. destruct extra as [|x extra].
  - simpl. by rewrite Hb, app_empty_r.
  - change (rstrip (if nonempty (String x extra) then " " +:+ String x extra else EmptyString))
      with (match rstrip (String x extra) with
            | EmptyString => EmptyString
            | r => " " +:+ r end).
    destruct (rstrip (String x extra)); [by rewrite Hb, app_empty_r | done].
Qed.

Lemma built_query_rstrip : built_query cfg = rstrip (described_query cfg).
Proof. apply rstrip_join, base_query_rstrip. Qed.

Lemma strip_described : strip (described_query cfg) = rstrip (described_query cfg).
Proof. unfold strip, described_query, base_query. by rewrite !app_assoc. Qed.

Lemma build_query_free :
  free_of_prohibited cfg → build_query cfg = Ret (built_query cfg).
Proof.
  intros Hfree. rewrite built_query_rstrip, <- strip_described.
  unfold build_query, described_query.
  destruct (nonempty (ADDITIONAL_FILTERS cfg)) eqn:Hne.
  - destruct (any_prohibited cfg _) eqn:Hany.
    + apply any_prohibited_occurs in Hany as (t & Hin & Hocc).
      by destruct (Hfree t Hin).
    + unfold base_query. by destruct (city_configured cfg).
  - unfold base_query. destruct (city_configured cfg); by rewrite ?app_empty_r.
Qed.

Lemma built_query_trimmed : trimmed (built_query cfg).
Proof.
  split.
  - intros c. unfold built_query, base_query. rewrite !app_assoc. by intros [= <-].
  - intros c. rewrite built_query_rstrip. apply rstrip_last.
Qed.

Lemma built_query_verbatim :
  rstrip (ADDITIONAL_FILTERS cfg) = ADDITIONAL_FILTERS cfg →
  built_query cfg = described_query cfg.
Proof.
  intros Hr. unfold built_query, described_query. rewrite Hr.
  by destruct (ADDITIONAL_FILTERS cfg).
Qed.

End QueryBuilder.

Lemma bind_out_returns {A B} (m : io A) (f : A → io B) (b : B) :
  out (m ≫= f) = Returns b → ∃ a, out m = Returns a ∧ out (f a) = Returns b.
Proof.
  unfold mbind, io_bind. destruct (out m) as [a| |]; simpl; [|done..].
  intros Hb. by exists a.
Qed.

Lemma result_bind_ret {A B} (m : result A) (f : A → result B) (b : B) :
  m ≫= f = Ret b → ∃ a, m = Ret a ∧ f a = Ret b.
Proof. destruct m as [a|]; [|done]. intros Hb. by exists a. Qed.

Lemma lift_returns {A} (r : result A) (a : A) : out (lift r) = Returns a → r = Ret a.
Proof. destruct r; simpl; congruence. Qed.

Lemma lift_trace {A} (r : result A) : trace (lift r) = [].
Proof. by destruct r. Qed.

(** ** Page fetcher *)

Section Fetcher.
Context (cfg : Config) (net : Network).

Lemma http_get_trace query page facets :
  trace (http_get_shodan cfg net query page facets)
  = [HttpGet (full_url cfg query page facets)].
Proof.
  unfold http_get_shodan, requests_get, mbind, io_bind. simpl.
  destruct (net _) as [cls|resp]; simpl; [done |].
  destruct (status_code resp =? 200); simpl; [|done].
  by destruct (json_body resp).
Qed.

Lemma http_get_refused query page facets cls :
  net (full_url cfg query page facets) = inl cls →
  out (http_get_shodan cfg net query page facets) = Raises (Exception cls).
Proof.
  intros Hnet. unfold http_get_shodan, requests_get, mbind, io_bind. simpl.
  by rewrite Hnet.
Qed.

Lemma http_get_status query page facets resp :
  net (full_url cfg query page facets) = inr resp →
  status_code resp ≠ 200 →
  out (http_get_shodan cfg net query page facets)
  = Raises (SystemExit (http_error_msg (status_code resp)
                          (full_url cfg query page facets) (text resp))).
Proof.
  intros Hnet Hst. unfold http_get_shodan, requests_get, mbind, io_bind. simpl.
  rewrite Hnet. simpl. by apply Z.eqb_neq in Hst as ->.
Qed.

Lemma http_get_success query page facets resp :
  net (full_url cfg query page facets) = inr resp →
  status_code resp = 200 →
  out (http_get_shodan cfg net query page facets) = out (lift (json_body resp)).
Proof.
  intros Hnet Hst. unfold http_get_shodan, requests_get, mbind, io_bind. simpl.
  rewrite Hnet. simpl. rewrite Hst. simpl. by destruct (json_body resp).
Qed.

Lemma http_get_served query page facets data :
  serves cfg net query page facets data →
  http_get_shodan cfg net query page facets
  = IO [HttpGet (full_url cfg query page facets)] (Returns data).
Proof.
  intros (resp & Hnet & Hst & Hbody).
  rewrite <- (io_eta (http_get_shodan _ _ _ _ _)).
  by rewrite http_get_trace, (http_get_success _ _ _ resp), Hbody.
Qed.

Lemma http_get_returns query page facets data :
  out (http_get_shodan cfg net query page facets) = Returns data →
  serves cfg net query page facets data.
Proof.
  unfold http_get_shodan, requests_get, mbind, io_bind, serves. simpl.
  destruct (net _) as [cls|resp]; simpl; [done |].
  destruct (status_code resp =? 200) eqn:Hst; simpl; [|done].
  intros Hout%lift_returns. exists resp. by apply Z.eqb_eq in Hst.
Qed.

End Fetcher.

Lemma occurs_here (pre x post : string) : occurs x (pre +:+ x +:+ post).
Proof. by exists pre, post. Qed.

Lemma occurs_end (pre x : string) : occurs x (pre +:+ x).
Proof. exists pre, EmptyString. by rewrite TextFacts.app_empty_r. Qed.

Lemma occurs_app_r (x a b : string) : occurs x b → occurs x (a +:+ b).
Proof.
  intros (pre & post & ->). exists (a +:+ pre), post.
  by rewrite TextFacts.app_assoc.
Qed.

Lemma http_error_msg_mentions (status : Z) (url body : string) :
  occurs (pretty status) (http_error_msg status url body)
  ∧ occurs url (http_error_msg status url body)
  ∧ occurs body (http_error_msg status url body).
Proof.
  unfold http_error_msg. repeat split.
  - apply occurs_here.
  - do 4 apply occurs_app_r. apply occurs_here.
  - do 7 apply occurs_app_r. apply occurs_end.
Qed.

(** ** Deduplication *)

Section Dedup.
Context `{Py.Builtins}.

Lemma keys_of_cons m ms ks :
  keys_of (m :: ms) = Ret ks →
  ∃ k ks', match_key m = Ret k ∧ keys_of ms = Ret ks' ∧ ks = k :: ks'.
Proof.
  simpl. intros (k & Hk & Hks)%result_bind_ret.
  apply result_bind_ret in Hks as (ks' & Hks' & [= <-]). eauto.
Qed.

Lemma key_set_keys ms ks : keys_of ms = Ret ks → key_set ms = list_to_set ks.
Proof.
  revert ks. induction ms as [|m ms IH]; intros ks Hks.
  - by injection Hks as <-.
  - apply keys_of_cons in Hks as (k & ks' & Hk & Hks' & ->).
    simpl. rewrite Hk. by rewrite (IH ks').
Qed.

Lemma key_set_app l1 l2 : key_set (l1 ++ l2) = key_set l1 ∪ key_set l2.
Proof.
  induction l1 as [|m l1 IH]; simpl.
  - set_solver.
  - destruct (match_key m); rewrite IH; set_solver.
Qed.

Lemma first_seen_from_app s l1 l2 :
  first_seen_from s (l1 ++ l2)
  = first_seen_from s l1 ++ first_seen_from (key_set l1 ∪ s) l2.
Proof.
  revert s. induction l1 as [|m l1 IH]; intros s; simpl.
  - f_equal. set_solver.
  - destruct (match_key m) as [k|]; [|apply IH].
    destruct (decide (k ∈ s)).
    + rewrite IH. do 2 f_equal. set_solver.
    + simpl. rewrite IH. do 3 f_equal. set_solver.
Qed.

(** [add_each] appends the first match of every new key, in order. *)
Lemma add_each_spec ms a n a' n' :
  add_each ms a n = Ret (a', n') →
  matches a' = matches a ++ first_seen_from (seen a) ms
  ∧ seen a' = key_set ms ∪ seen a
  ∧ n' = n + Z.of_nat (length (first_seen_from (seen a) ms)).
Proof.
  revert a n. induction ms as [|m ms IH]; intros a n; simpl.
  - intros [= <- <-]. rewrite app_nil_r. split_and!; [done | set_solver | lia].
  - intros (k & Hk & Hrest)%result_bind_ret. rewrite Hk.
    destruct (decide (k ∈ seen a)) as [Hin|Hin].
    + apply IH in Hrest as (-> & -> & ->). split_and!; [done | set_solver | done].
    + apply IH in Hrest as (-> & -> & ->). simpl.
      rewrite <- app_assoc. simpl. split_and!; [done | set_solver | lia].
Qed.

Lemma add_each_keys ms ks a n :
  keys_of ms = Ret ks → ∃ a' n', add_each ms a n = Ret (a', n').
Proof.
  revert ks a n. induction ms as [|m ms IH]; intros ks a n Hks; simpl.
  - eauto.
  - apply keys_of_cons in Hks as (k & ks' & Hk & Hks' & ->). rewrite Hk. simpl.
    destruct (decide (k ∈ seen a)); eapply IH; eauto.
Qed.

Lemma first_seen_from_known s ms ks :
  keys_of ms = Ret ks → (∀ k, k ∈ ks → k ∈ s) → first_seen_from s ms = [].
Proof.
  revert ks. induction ms as [|m ms IH]; intros ks Hks Hsub; [done |].
  apply keys_of_cons in Hks as (k & ks' & Hk & Hks' & ->). simpl. rewrite Hk.
  rewrite decide_True by (apply Hsub; set_solver).
  apply (IH ks'); [done |]. intros k' Hk'. apply Hsub. set_solver.
Qed.

(** The matches kept are as many as there are new keys. *)
Lemma first_seen_from_length s ms ks :
  keys_of ms = Ret ks →
  length (first_seen_from s ms) = size (list_to_set ks ∖ s : gset key).
Proof.
  revert s ks. induction ms as [|m ms IH]; intros s ks Hks.
  - injection Hks as <-. simpl. by rewrite difference_disjoint_L, size_empty by set_solver.
  - apply keys_of_cons in Hks as (k & ks' & Hk & Hks' & ->). simpl. rewrite Hk.
    destruct (decide (k ∈ s)) as [Hin|Hin].
    + rewrite (IH s ks') by done. f_equal. set_solver.
    + simpl. rewrite (IH _ ks') by done.
      replace (({[k]} ∪ list_to_set ks') ∖ s : gset key)
        with ({[k]} ∪ (list_to_set ks' ∖ ({[k]} ∪ s)) : gset key).
      * rewrite (size_union (C:=gset (string * Z)) {[k]}) by set_solver. by rewrite size_singleton.
      * apply set_eq. intros x. rewrite !elem_of_union, !elem_of_difference,
          !elem_of_union, !elem_of_singleton.
        destruct (decide (x = k)) as [->|]; naive_solver.
Qed.

Lemma first_seen_length ms ks :
  keys_of ms = Ret ks → length (first_seen ms) = size (list_to_set ks : gset key).
Proof.
  intros Hks. unfold first_seen. rewrite (first_seen_from_length _ _ ks) by done.
  f_equal. set_solver.
Qed.

(** The matches kept have distinct keys, none of them in [s]. *)
Lemma first_seen_from_keys s ms :
  ∃ ks, keys_of (first_seen_from s ms) = Ret ks ∧ NoDup ks ∧ ∀ k, k ∈ ks → k ∉ s.
Proof.
  revert s. induction ms as [|m ms IH]; intros s; simpl.
  - exists []. split_and!; [done | constructor | set_solver].
  - destruct (match_key m) as [k|] eqn:Hk; [|apply IH].
    destruct (decide (k ∈ s)) as [Hin|Hin]; [apply IH |].
    destruct (IH ({[k]} ∪ s)) as (ks & Hks & Hnd & Hout).
    exists (k :: ks). simpl. rewrite Hk, Hks. simpl. split_and!; [done | |].
    + constructor; [|done]. intros Hin'. apply Hout in Hin'. set_solver.
    + intros k' [->|Hk']%elem_of_cons; [done |]. apply Hout in Hk'. set_solver.
Qed.

Lemma keys_of_take n ms ks :
  keys_of ms = Ret ks → keys_of (take n ms) = Ret (take n ks).
Proof.
  revert ms ks. induction n as [|n IH]; intros ms ks Hks; [done |].
  destruct ms as [|m ms].
  - by injection Hks as <-.
  - apply keys_of_cons in Hks as (k & ks' & Hk & Hks' & ->).
    simpl. rewrite Hk. simpl. by rewrite (IH ms ks').
Qed.

Lemma keys_of_slice ms ks n :
  keys_of ms = Ret ks →
  ∃ ks', keys_of (Py.slice_to ms n) = Ret ks' ∧ (NoDup ks → NoDup ks').
Proof.
  intros Hks. unfold Py.slice_to.
  destruct (0 <=? n); eexists; (split; [by apply keys_of_take |]);
    intros Hnd; (eapply sublist_NoDup; [done | apply sublist_take]).
Qed.

End Dedup.

(** ** One turn of the loop *)

Section Turn.
Context `{Py.Builtins} (cfg : Config) (net : Network).

Lemma add_batch_list l a : add_batch (JArr l) a = add_each l a 0.
Proof. by destruct l. Qed.

Lemma add_batch_falsy batch a :
  Py.truthy batch = false → add_batch batch a = Ret (a, 0).
Proof. intros Hb. unfold add_batch, Py.or. by rewrite Hb. Qed.

(** Only a list of matches can be merged. *)
Lemma add_batch_truthy batch a r :
  Py.truthy batch = true → add_batch batch a = Ret r → ∃ l, batch = JArr l.
Proof.
  intros Hb. unfold add_batch, Py.or. rewrite Hb.
  destruct batch as [| | |s|l|o]; try done.
  - by destruct s.
  - eauto.
  - by destruct o as [|[k v] o].
Qed.

Lemma add_each_grows ms a n a' n' :
  add_each ms a n = Ret (a', n') →
  Z.of_nat (length (matches a')) = Z.of_nat (length (matches a)) + (n' - n).
Proof.
  intros (-> & _ & ->)%add_each_spec. rewrite length_app. lia.
Qed.

Lemma http_get_failed query page facets resp :
  net (full_url cfg query page facets) = inr resp →
  status_code resp ≠ 200 →
  http_get_shodan cfg net query page facets
  = IO [HttpGet (full_url cfg query page facets)]
       (Raises (SystemExit (http_error_msg (status_code resp)
                              (full_url cfg query page facets) (text resp)))).
Proof.
  intros Hnet Hst. rewrite <- (io_eta (http_get_shodan _ _ _ _ _)).
  by rewrite http_get_trace, (http_get_status _ _ _ _ _ resp).
Qed.

Lemma http_get_raised query page facets cls :
  net (full_url cfg query page facets) = inl cls →
  http_get_shodan cfg net query page facets
  = IO [HttpGet (full_url cfg query page facets)] (Raises (Exception cls)).
Proof.
  intros Hnet. rewrite <- (io_eta (http_get_shodan _ _ _ _ _)).
  by rewrite http_get_trace, (http_get_refused _ _ _ _ _ cls).
Qed.

Lemma http_get_undecodable query page facets resp e :
  net (full_url cfg query page facets) = inr resp →
  status_code resp = 200 → json_body resp = Raise e →
  http_get_shodan cfg net query page facets
  = IO [HttpGet (full_url cfg query page facets)] (Raises e).
Proof.
  intros Hnet Hst Hbody. rewrite <- (io_eta (http_get_shodan _ _ _ _ _)).
  by rewrite http_get_trace, (http_get_success _ _ _ _ _ resp), Hbody.
Qed.

(** A page answered with a status other than 200: warning, [break]. *)
Lemma loop_body_failed query sleep_s page a resp
    (url := full_url cfg query page EmptyString) :
  net url = inr resp → status_code resp ≠ 200 →
  loop_body cfg net query sleep_s page a
  = IO [HttpGet url;
        Stderr (warning_msg page (http_error_msg (status_code resp) url (text resp)))]
       (Returns Break).
Proof.
  intros Hnet Hst. unfold loop_body.
  by rewrite (http_get_failed _ _ _ resp).
Qed.

(** The HTTP library raises: nothing catches it. *)
Lemma loop_body_refused query sleep_s page a cls
    (url := full_url cfg query page EmptyString) :
  net url = inl cls →
  loop_body cfg net query sleep_s page a = IO [HttpGet url] (Raises (Exception cls)).
Proof.
  intros Hnet. unfold loop_body.
  by rewrite (http_get_raised _ _ _ cls).
Qed.

(** A served page whose matches are merged. *)
Lemma loop_body_page query sleep_s page a l a' added
    (url := full_url cfg query page EmptyString) :
  later_page cfg net query page l →
  add_each l a 0 = Ret (a', added) →
  loop_body cfg net query sleep_s page a =
    if added =? 0 then IO [HttpGet url] (Returns Break)
    else if Qle_bool 0 sleep_s then IO [HttpGet url; Sleep sleep_s] (Returns (Continue a'))
    else IO [HttpGet url] (Raises Py.ValueError).
Proof.
  intros (data & Hdata & Hget) Hadd. unfold loop_body.
  rewrite (http_get_served _ _ _ _ _ data) by done.
  cbn -[Py.get add_batch]. rewrite Hget. cbn -[add_batch].
  destruct l as [|m l].
  - injection Hadd as <- <-. done.
  - cbn -[add_batch]. rewrite add_batch_list, Hadd. cbn.
    destruct (added =? 0); [done |].
    unfold time_sleep. by destruct (Qle_bool 0 sleep_s).
Qed.

(** A turn that goes on has fetched a served page with a match of a
    new key, and has paused. *)
Lemma loop_body_continue query sleep_s page a a' :
  out (loop_body cfg net query sleep_s page a) = Returns (Continue a') →
  ∃ l added,
    later_page cfg net query page l
    ∧ add_each l a 0 = Ret (a', added)
    ∧ added ≠ 0
    ∧ trace (loop_body cfg net query sleep_s page a)
      = [HttpGet (full_url cfg query page EmptyString); Sleep sleep_s].
Proof.
  intros Hout.
  destruct (net (full_url cfg query page EmptyString)) as [cls|resp] eqn:Hnet.
  { by rewrite (loop_body_refused _ _ _ _ cls) in Hout. }
  destruct (decide (status_code resp = 200)) as [Hst|Hst];
    [|by rewrite (loop_body_failed _ _ _ _ resp) in Hout].
  destruct (json_body resp) as [data|e] eqn:Hbody.
  2:{ revert Hout. unfold loop_body.
      rewrite (http_get_undecodable _ _ _ resp e) by done. by destruct e. }
  assert (serves cfg net query page EmptyString data) as Hserved by (by exists resp).
  revert Hout. unfold loop_body at 1.
  rewrite (http_get_served _ _ _ _ _ data) by done.
  cbn -[Py.get add_batch].
  destruct (Py.get data "matches" (JArr [])) as [batch|e] eqn:Hget; [|done].
  cbn -[add_batch]. destruct (Py.truthy batch) eqn:Hb; [|done].
  cbn -[add_batch].
  destruct (add_batch batch a) as [[a1 added]|e] eqn:Hadd; [|done].
  destruct (add_batch_truthy _ _ _ Hb Hadd) as [l ->].
  rewrite add_batch_list in Hadd.
  assert (later_page cfg net query page l) as Hpage by (by exists data).
  rewrite (loop_body_page _ _ _ _ l a1 added) by done.
  cbn. destruct (added =? 0) eqn:Hz; [done |].
  unfold time_sleep. destruct (Qle_bool 0 sleep_s); [|done].
  cbn. intros [= <-]. exists l, added. split_and!; try done. by apply Z.eqb_neq.
Qed.

Lemma loop_body_grows query sleep_s page a a' :
  out (loop_body cfg net query sleep_s page a) = Returns (Continue a') →
  (length (matches a) < length (matches a'))%nat.
Proof.
  intros (l & added & _ & Hadd & Hne & _)%loop_body_continue.
  pose proof (add_each_grows _ _ _ _ _ Hadd) as Hlen.
  apply add_each_spec in Hadd as (_ & _ & ->). lia.
Qed.

Lemma loop_body_terminates query sleep_s page a :
  out (loop_body cfg net query sleep_s page a) ≠ OutOfFuel.
Proof.
  unfold loop_body, http_get_shodan, requests_get. cbn -[Py.get add_batch].
  destruct (net _) as [cls|resp]; [done |]. cbn -[Py.get add_batch].
  destruct (status_code resp =? 200); [|done]. cbn -[Py.get add_batch].
  destruct (json_body resp) as [data|[]]; [|done..]. cbn -[Py.get add_batch].
  destruct (Py.get data _ _) as [batch|[]]; [|done..]. cbn -[add_batch].
  destruct (Py.truthy batch); [|done]. cbn -[add_batch].
  destruct (add_batch batch a) as [[a1 added]|[]]; [|done..]. cbn.
  destruct (added =? 0); [done |].
  unfold time_sleep. by destruct (Qle_bool 0 sleep_s).
Qed.

End Turn.

Lemma bind_terminates {A B} (m : io A) (f : A → io B) :
  out m ≠ OutOfFuel → (∀ a, out m = Returns a → out (f a) ≠ OutOfFuel) →
  out (m ≫= f) ≠ OutOfFuel.
Proof.
  intros Hm Hf. unfold mbind, io_bind.
  destruct (out m) as [a| |]; cbn; [by apply Hf | done | done].
Qed.

Lemma lift_terminates {A} (r : result A) : out (lift r) ≠ OutOfFuel.
Proof. by destruct r. Qed.

Lemma http_get_terminates cfg net query page facets :
  out (http_get_shodan cfg net query page facets) ≠ OutOfFuel.
Proof.
  unfold http_get_shodan. apply bind_terminates.
  - unfold requests_get. cbn. by destruct (net _).
  - intros resp _. destruct (negb _); [done | apply lift_terminates].
Qed.

(** ** The loop *)

Section Loop.
Context `{Py.Builtins} (cfg : Config) (net : Network).
Context (query : string) (max_results total_reported : Z) (sleep_s : Q).

Local Abbreviation condition := (loop_condition max_results total_reported).
Local Abbreviation body := (loop_body cfg net query sleep_s).
Local Abbreviation loop fuel :=
  (fetch_loop cfg net fuel query max_results total_reported sleep_s).
Local Abbreviation turns_of n :=
  (turns cfg net n query max_results total_reported sleep_s).

Lemma condition_room a : condition a = true → (0 < room max_results a)%nat.
Proof. unfold loop_condition, room. intros [Hm _]%andb_true_iff. lia. Qed.

Lemma loop_stops fuel page a : condition a = false → loop fuel page a = mret a.
Proof. intros Hc. destruct fuel; simpl; by rewrite Hc. Qed.

Lemma loop_turn fuel page a :
  condition a = true →
  loop (S fuel) page a =
    s ← body (page + 1) a;
    match s with Break => mret a | Continue a' => loop fuel (page + 1) a' end.
Proof. intros Hc. simpl. by rewrite Hc. Qed.

(** The loop never runs out of fuel when given the room left. *)
Lemma loop_terminates fuel page a :
  (room max_results a ≤ fuel)%nat → out (loop fuel page a) ≠ OutOfFuel.
Proof.
  revert page a. induction fuel as [|fuel IH]; intros page a Hroom.
  - destruct (condition a) eqn:Hc; [apply condition_room in Hc; lia |].
    by rewrite loop_stops.
  - destruct (condition a) eqn:Hc; [|by rewrite loop_stops].
    rewrite loop_turn by done. unfold mbind, io_bind.
    destruct (out (body (page + 1) a)) as [[a'|]| |] eqn:Hbody; simpl; try done.
    + apply IH. apply loop_body_grows in Hbody. apply condition_room in Hc.
      unfold room in *. lia.
    + by apply loop_body_terminates in Hbody.
Qed.

(** Turns that go on add a match each. *)
Lemma turns_grow n page a tr a' :
  turns_of n page a = Some (tr, a') →
  (length (matches a) + n ≤ length (matches a'))%nat.
Proof.
  revert page a tr. induction n as [|n IH]; intros page a tr; simpl.
  - intros [= _ <-]. lia.
  - destruct (condition a); [|done].
    destruct (out (body (page + 1) a)) as [[a1|]| |] eqn:Hbody; try done.
    destruct (turns_of n (page + 1) a1) as [[tr' a'']|] eqn:Hn; [|done].
    intros [= _ <-]. apply IH in Hn. apply loop_body_grows in Hbody. lia.
Qed.

(** After [n] turns that go on, the loop continues from where they
    arrive. *)
Lemma loop_after_turns n fuel page a tr a' :
  turns_of n page a = Some (tr, a') →
  loop (n + fuel) page a
  = IO (tr ++ trace (loop fuel (page + Z.of_nat n) a'))
       (out (loop fuel (page + Z.of_nat n) a')).
Proof.
  revert page a tr. induction n as [|n IH]; intros page a tr.
  - intros [= <- <-]. simpl. rewrite Z.add_0_r. symmetry. apply io_eta.
  - cbn [turns]. destruct (condition a) eqn:Hc; [|done].
    destruct (out (body (page + 1) a)) as [[a1|]| |] eqn:Hbody; try done.
    destruct (turns_of n (page + 1) a1) as [[tr' a'']|] eqn:Hn; [|done].
    intros [= <- <-].
    change (S n + fuel)%nat with (S (n + fuel)). rewrite loop_turn by done.
    rewrite (bind_returns _ _ _ Hbody). rewrite (IH _ _ _ Hn). cbn.
    rewrite <- app_assoc.
    by replace (page + Z.of_nat (S n)) with (page + 1 + Z.of_nat n) by lia.
Qed.

(** With another page due after [n] turns, the fuel of [fetch_all] has
    not run out. *)
Lemma turns_fuel n page a tr a' :
  turns_of n page a = Some (tr, a') → condition a' = true →
  ∃ fuel, Z.to_nat max_results = (n + S fuel)%nat.
Proof.
  intros Hn%turns_grow Hc%condition_room. unfold room in Hc.
  exists (Z.to_nat max_results - n - 1)%nat. lia.
Qed.

End Loop.

(** ** The accumulator as a whole *)

Section Accumulator.
Context `{Py.Builtins} (cfg : Config) (net : Network).
Context (query : string) (max_results : Z) (sleep_s : Q).

(** With the first page served, the accumulator is the loop started
    from that page's matches. *)
Lemma fetch_all_first facets total facets_obj l a1 n1 :
  first_page cfg net query facets total facets_obj l →
  add_each l empty_acc 0 = Ret (a1, n1) →
  fetch_all cfg net query facets max_results sleep_s =
    (emit (HttpGet (full_url cfg query 1 facets));;
     a ← fetch_loop cfg net (Z.to_nat max_results) query max_results total sleep_s 1 a1;
     mret (Py.slice_to (matches a) max_results, total, facets_obj)).
Proof.
  intros (first & f & Hserved & Htotal & Hfacets & -> & Hmatches) Hadd.
  unfold fetch_all. rewrite (http_get_served _ _ _ _ _ first) by done.
  unfold mbind at 1, io_bind at 1. cbn [out trace].
  rewrite Htotal, bind_lift_ret, Hfacets, bind_lift_ret, Hmatches, bind_lift_ret.
  rewrite add_batch_list, Hadd, bind_lift_ret.
  rewrite bind_emit. by destruct (_ ≫= _).
Qed.

(** What a returning run of the accumulator went through. *)
Lemma fetch_all_returns facets ms total facets_obj :
  out (fetch_all cfg net query facets max_results sleep_s)
  = Returns (ms, total, facets_obj) →
  ∃ first batch a1 n1 a,
    serves cfg net query 1 facets first
    ∧ Py.get first "matches" (JArr []) = Ret batch
    ∧ add_batch batch empty_acc = Ret (a1, n1)
    ∧ out (fetch_loop cfg net (Z.to_nat max_results) query max_results total sleep_s 1 a1)
      = Returns a
    ∧ ms = Py.slice_to (matches a) max_results.
Proof.
  unfold fetch_all.
  intros (first & Hfirst%http_get_returns & Hrest)%bind_out_returns.
  apply bind_out_returns in Hrest as (t & Ht%lift_returns & Hrest).
  apply bind_out_returns in Hrest as (f & Hf%lift_returns & Hrest).
  apply bind_out_returns in Hrest as (batch & Hbatch%lift_returns & Hrest).
  apply bind_out_returns in Hrest as ([a1 n1] & Hadd%lift_returns & Hrest).
  apply bind_out_returns in Hrest as (a & Hloop & Hret).
  injection Hret as <- <- <-.
  exists first, batch, a1, n1, a. done.
Qed.

(** The accumulator always comes to an end. *)
Lemma fetch_all_terminates facets :
  out (fetch_all cfg net query facets max_results sleep_s) ≠ OutOfFuel.
Proof.
  unfold fetch_all.
  apply bind_terminates; [apply http_get_terminates | intros first _].
  apply bind_terminates; [apply lift_terminates | intros total _].
  apply bind_terminates; [apply lift_terminates | intros f _].
  apply bind_terminates; [apply lift_terminates | intros batch _].
  apply bind_terminates; [apply lift_terminates | intros [a1 n1] _].
  apply bind_terminates; [|done].
  apply loop_terminates. unfold room. lia.
Qed.

End Accumulator.

Lemma bind_trace_mono {A B} (m : io A) (f : A → io B) (e : event) :
  e ∈ trace m → e ∈ trace (m ≫= f).
Proof.
  intros He. unfold mbind, io_bind. destruct (out m); cbn; [|done..].
  apply elem_of_app. by left.
Qed.

(** ** The entry point *)

Section Main.
Context `{Py.Builtins} (cfg : Config) (net : Network).

Lemma main_query_refused e : build_query cfg = Raise e → main cfg net = IO [] (Raises e).
Proof. intros Hq. unfold main. by rewrite Hq. Qed.

(** Once the query is built, the banner is printed and the accumulator
    runs; the report follows if it returns. *)
Lemma main_built q :
  build_query cfg = Ret q →
  main cfg net =
    (emit (Stdout (Banner q));;
     '(results, total_reported, facets_obj) ←
        fetch_all cfg net q (FACETS cfg) (MAX_RESULTS cfg) (SLEEP_SECONDS cfg);
     reporting results total_reported facets_obj).
Proof. intros Hq. unfold main. by rewrite Hq, bind_lift_ret. Qed.

Lemma main_accumulator_raises q e :
  build_query cfg = Ret q →
  out (fetch_all cfg net q (FACETS cfg) (MAX_RESULTS cfg) (SLEEP_SECONDS cfg)) = Raises e →
  main cfg net
  = IO (Stdout (Banner q)
        :: trace (fetch_all cfg net q (FACETS cfg) (MAX_RESULTS cfg) (SLEEP_SECONDS cfg)))
       (Raises e).
Proof.
  intros Hq He. rewrite (main_built q) by done.
  rewrite bind_emit. by rewrite (bind_raises _ _ e).
Qed.

Lemma main_accumulator_returns q results total_reported facets_obj :
  build_query cfg = Ret q →
  out (fetch_all cfg net q (FACETS cfg) (MAX_RESULTS cfg) (SLEEP_SECONDS cfg))
  = Returns (results, total_reported, facets_obj) →
  main cfg net
  = IO (Stdout (Banner q)
        :: trace (fetch_all cfg net q (FACETS cfg) (MAX_RESULTS cfg) (SLEEP_SECONDS cfg))
        ++ trace (reporting results total_reported facets_obj))
       (out (reporting results total_reported facets_obj)).
Proof.
  intros Hq Hr. rewrite (main_built q) by done.
  rewrite bind_emit. by rewrite (bind_returns _ _ _ Hr).
Qed.

Lemma reporting_table results total_reported facets_obj :
  out (print_facets facets_obj) = Returns tt →
  Stdout (Table results) ∈ trace (reporting results total_reported facets_obj).
Proof.
  intros Hf. unfold reporting. rewrite bind_emit. cbn [trace].
  rewrite (bind_returns _ _ _ Hf). cbn [trace].
  apply list_elem_of_further, elem_of_app. right.
  apply bind_trace_mono. unfold print_results. rewrite bind_emit. apply list_elem_of_here.
Qed.

End Main.

(** ** Requests for different pages *)

Lemma urlencode_three (a b c : string * string) (rest : list (string * string)) :
  ∃ suf, Text.urlencode (a :: b :: c :: rest)
         = (Text.quote_plus a.1 +:+ "=" +:+ Text.quote_plus a.2 +:+ "&"
            +:+ Text.quote_plus b.1 +:+ "=" +:+ Text.quote_plus b.2 +:+ "&"
            +:+ Text.quote_plus c.1 +:+ "=") +:+ Text.quote_plus c.2 +:+ suf.
Proof.
  unfold Text.urlencode. cbn [fmap list_fmap String.concat].
  generalize (Text.quote_plus a.1) (Text.quote_plus a.2) (Text.quote_plus b.1)
    (Text.quote_plus b.2) (Text.quote_plus c.1) (Text.quote_plus c.2).
  intros s1 s2 s3 s4 s5 s6.
  destruct rest as [|d rest].
  - exists EmptyString. cbn [fmap list_fmap String.concat].
    rewrite TextFacts.app_empty_r.
    rewrite !TextFacts.app_assoc. reflexivity.
  - exists ("&" +:+ String.concat "&"
              ((λ kv, Text.quote_plus kv.1 +:+ "=" +:+ Text.quote_plus kv.2) <$> d :: rest)).
    cbn [fmap list_fmap String.concat].
    generalize (String.concat "&"
      (list_fmap _ _ (λ kv, Text.quote_plus kv.1 +:+ "=" +:+ Text.quote_plus kv.2) rest)).
    intros tail. rewrite !TextFacts.app_assoc. reflexivity.
Qed.

Lemma full_url_split (cfg : Config) (query : string) :
  ∃ pre, ∀ page facets, ∃ suf,
    full_url cfg query page facets = pre +:+ Text.quote_plus (pretty page) +:+ suf.
Proof.
  exists (endpoint +:+ "?"
          +:+ Text.quote_plus "key" +:+ "=" +:+ Text.quote_plus (SHODAN_API_KEY cfg) +:+ "&"
          +:+ Text.quote_plus "query" +:+ "=" +:+ Text.quote_plus query +:+ "&"
          +:+ Text.quote_plus "page" +:+ "=").
  intros page facets. unfold full_url, request_params.
  cbn [app].
  destruct (urlencode_three ("key", SHODAN_API_KEY cfg) ("query", query)
              ("page", pretty page)
              (if Text.nonempty facets then [("facets", facets)] else []))
    as [suf ->].
  exists suf. cbn [fst snd].
  generalize (Text.quote_plus (pretty page) +:+ suf). intros tail.
  generalize (Text.quote_plus "key" +:+ "=" +:+ Text.quote_plus (SHODAN_API_KEY cfg) +:+ "&"
          +:+ Text.quote_plus "query" +:+ "=" +:+ Text.quote_plus query +:+ "&"
          +:+ Text.quote_plus "page" +:+ "="). intros p.
  generalize endpoint. intros e.
  by rewrite !TextFacts.app_assoc.
Qed.

(** The request for page 3 is neither that for page 1 nor that for
    page 2, whatever the facets. *)
Lemma full_url_page_3 (cfg : Config) (query facets facets' : string) :
  full_url cfg query 3 facets ≠ full_url cfg query 1 facets'
  ∧ full_url cfg query 3 facets ≠ full_url cfg query 2 facets'.
Proof.
  destruct (full_url_split cfg query) as [pre Hsplit].
  destruct (Hsplit 3 facets) as [s3 ->].
  destruct (Hsplit 1 facets') as [s1 ->].
  destruct (Hsplit 2 facets') as [s2 ->].
  split; intros Heq%String.app_inj; vm_compute in Heq; discriminate.
Qed.

Lemma bind_io {A B} (t : list event) (a : A) (f : A → io B) :
  IO t (Returns a) ≫= f = IO (t ++ trace (f a)) (out (f a)).
Proof. done. Qed.

(** ** Pages that add nothing, pages that add something *)

Section Pages.
Context `{Py.Builtins} (cfg : Config) (net : Network).
Context (query : string) (max_results total_reported : Z) (sleep_s : Q).

(** A served page whose keys are all known ends the loop. *)
Lemma loop_body_known page a l ks :
  later_page cfg net query page l → keys_of l = Ret ks →
  (∀ k, k ∈ ks → k ∈ seen a) →
  loop_body cfg net query sleep_s page a
  = IO [HttpGet (full_url cfg query page EmptyString)] (Returns Break).
Proof.
  intros Hpage Hks Hknown.
  destruct (add_each_keys l ks a 0 Hks) as (a' & added & Hadd).
  rewrite (loop_body_page _ _ _ _ _ _ l a' added) by done.
  apply add_each_spec in Hadd as (_ & _ & ->).
  by rewrite (first_seen_from_known _ _ ks).
Qed.

(** While every fetched page contributes, the loop runs until its
    condition fails. *)
Lemma loop_contributing fuel page a :
  every_page_contributes cfg net fuel query max_results total_reported sleep_s page a = true →
  (room max_results a ≤ fuel)%nat →
  ∃ tr a',
    fetch_loop cfg net fuel query max_results total_reported sleep_s page a
    = IO tr (Returns a')
    ∧ loop_condition max_results total_reported a' = false.
Proof.
  revert page a. induction fuel as [|fuel IH]; intros page a Hall Hroom.
  - destruct (loop_condition max_results total_reported a) eqn:Hc.
    + apply condition_room in Hc. lia.
    + exists [], a. by rewrite loop_stops.
  - destruct (loop_condition max_results total_reported a) eqn:Hc.
    + cbn [every_page_contributes] in Hall. rewrite Hc in Hall.
      destruct (out (loop_body cfg net query sleep_s (page + 1) a))
        as [[a1|]| |] eqn:Hbody; try done.
      destruct (IH (page + 1) a1 Hall) as (tr & a' & Hloop & Hc').
      { apply loop_body_grows in Hbody. apply condition_room in Hc.
        unfold room in *. lia. }
      exists (trace (loop_body cfg net query sleep_s (page + 1) a) ++ tr), a'.
      split; [|done]. rewrite loop_turn by done.
      rewrite (bind_returns _ _ _ Hbody). by rewrite Hloop.
    + exists [], a. by rewrite loop_stops.
Qed.

End Pages.

(** ** A later page that fails *)

Lemma bind_prefix {A B} (t : list event) (m : io A) (g : A → io B) :
  IO (t ++ trace m) (out m) ≫= g = IO (t ++ trace (m ≫= g)) (out (m ≫= g)).
Proof.
  unfold mbind, io_bind. cbn. destruct (out m); cbn; [|done..].
  by rewrite app_assoc.
Qed.

Lemma bind_assoc {A B C} (m : io A) (f : A → io B) (g : B → io C) :
  (m ≫= f) ≫= g = m ≫= λ a, f a ≫= g.
Proof.
  unfold mbind, io_bind. destruct (out m) as [a| |]; cbn; [|done..].
  destruct (out (f a)); cbn; [|done..]. by rewrite app_assoc.
Qed.

Lemma slice_to_all {A} (l : list A) (n : Z) :
  Z.of_nat (length l) ≤ n → Py.slice_to l n = l.
Proof.
  intros Hn. unfold Py.slice_to. destruct (0 <=? n) eqn:H0; [|lia].
  apply take_ge. lia.
Qed.

Section LaterPage.
Context `{Py.Builtins} (cfg : Config) (net : Network).
Context (query facets : string) (max_results : Z) (sleep_s : Q).

(** After the first page and [n] turns that go on, with another page
    due, the accumulator is at the turn for page [2 + n]. *)
Lemma fetch_all_turns total facets_obj l a1 n1 n tr a :
  first_page cfg net query facets total facets_obj l →
  add_each l empty_acc 0 = Ret (a1, n1) →
  turns cfg net n query max_results total sleep_s 1 a1 = Some (tr, a) →
  loop_condition max_results total a = true →
  ∃ fuel,
    let rest :=
      s ← loop_body cfg net query sleep_s (2 + Z.of_nat n) a;
      a' ← match s with
           | Break => mret a
           | Continue a' =>
               fetch_loop cfg net fuel query max_results total sleep_s (2 + Z.of_nat n) a'
           end;
      mret (Py.slice_to (matches a') max_results, total, facets_obj) in
    fetch_all cfg net query facets max_results sleep_s
    = IO (HttpGet (full_url cfg query 1 facets) :: tr ++ trace rest) (out rest).
Proof.
  intros Hfirst Hadd Hturns Hc.
  destruct (turns_fuel _ _ _ _ _ _ _ _ _ _ _ Hturns Hc) as [fuel Hfuel].
  exists fuel. intros rest.
  rewrite (fetch_all_first _ _ _ _ _ _ total facets_obj l a1 n1) by done.
  rewrite Hfuel, (loop_after_turns _ _ _ _ _ _ _ _ _ _ _ _ Hturns).
  rewrite bind_emit, bind_prefix. rewrite loop_turn by done.
  replace (1 + Z.of_nat n + 1) with (2 + Z.of_nat n) by lia.
  by rewrite bind_assoc.
Qed.

(** A status other than 200 on that page: the warning is printed and
    the matches gathered so far are returned. *)
Lemma fetch_all_later_failure total facets_obj l a1 n1 n tr a resp
    (page := 2 + Z.of_nat n) (url := full_url cfg query page EmptyString) :
  first_page cfg net query facets total facets_obj l →
  add_each l empty_acc 0 = Ret (a1, n1) →
  turns cfg net n query max_results total sleep_s 1 a1 = Some (tr, a) →
  loop_condition max_results total a = true →
  net url = inr resp → status_code resp ≠ 200 →
  fetch_all cfg net query facets max_results sleep_s
  = IO (HttpGet (full_url cfg query 1 facets)
        :: tr ++ [HttpGet url;
                  Stderr (warning_msg page
                            (http_error_msg (status_code resp) url (text resp)))])
       (Returns (matches a, total, facets_obj)).
Proof.
  intros Hfirst Hadd Hturns Hc Hnet Hst.
  destruct (fetch_all_turns _ _ _ _ _ _ _ _ Hfirst Hadd Hturns Hc) as [fuel ->].
  rewrite (loop_body_failed _ _ _ _ _ _ resp) by done.
  cbn. rewrite slice_to_all; [done |].
  unfold loop_condition in Hc. apply andb_true_iff in Hc. lia.
Qed.

(** An exception of the HTTP library on that page: it leaves the
    accumulator. *)
Lemma fetch_all_later_exception total facets_obj l a1 n1 n tr a cls
    (page := 2 + Z.of_nat n) (url := full_url cfg query page EmptyString) :
  first_page cfg net query facets total facets_obj l →
  add_each l empty_acc 0 = Ret (a1, n1) →
  turns cfg net n query max_results total sleep_s 1 a1 = Some (tr, a) →
  loop_condition max_results total a = true →
  net url = inl cls →
  fetch_all cfg net query facets max_results sleep_s
  = IO (HttpGet (full_url cfg query 1 facets) :: tr ++ [HttpGet url])
       (Raises (Exception cls)).
Proof.
  intros Hfirst Hadd Hturns Hc Hnet.
  destruct (fetch_all_turns _ _ _ _ _ _ _ _ Hfirst Hadd Hturns Hc) as [fuel ->].
  by rewrite (loop_body_refused _ _ _ _ _ _ cls).
Qed.

End LaterPage.

Lemma warning_msg_names_page (page : Z) (exc : string) :
  occurs (pretty page) (warning_msg page exc).
Proof. unfold warning_msg. do 2 apply occurs_app_r. apply occurs_here. Qed.

(** ** The invariant of the accumulator *)

Section Invariant.
Context `{Py.Builtins} (cfg : Config) (net : Network) (query facets : string).

Lemma keys_of_snoc ms ks m k :
  keys_of ms = Ret ks → match_key m = Ret k → keys_of (ms ++ [m]) = Ret (ks ++ [k]).
Proof.
  revert ks. induction ms as [|m' ms IH]; intros ks Hks Hk.
  - injection Hks as <-. simpl. by rewrite Hk.
  - apply keys_of_cons in Hks as (k' & ks' & Hk' & Hks' & ->).
    simpl. rewrite Hk'. simpl. by rewrite (IH ks').
Qed.

Lemma add_each_well_keyed ms a n a' n' :
  well_keyed a → add_each ms a n = Ret (a', n') → well_keyed a'.
Proof.
  revert a n. induction ms as [|m ms IH]; intros a n Hwk; simpl.
  - by intros [= <- <-].
  - intros (k & Hk & Hrest)%result_bind_ret.
    destruct (decide (k ∈ seen a)) as [Hin|Hin]; [by eapply IH |].
    eapply IH; [|done]. destruct Hwk as (ks & Hks & Hnd & Hseen).
    exists (ks ++ [k]). cbn [matches seen]. split_and!.
    + by apply keys_of_snoc.
    + apply NoDup_app. split_and!; [done | | apply NoDup_singleton].
      intros x Hx ->%list_elem_of_singleton. apply Hin. rewrite Hseen.
      by apply elem_of_list_to_set.
    + rewrite Hseen, list_to_set_app_L. simpl. set_solver.
Qed.

Lemma add_batch_well_keyed batch a a' added :
  well_keyed a → add_batch batch a = Ret (a', added) → well_keyed a'.
Proof.
  intros Hwk. unfold add_batch.
  intros (ms & _ & Hadd)%result_bind_ret. by eapply add_each_well_keyed.
Qed.

Lemma empty_acc_well_keyed : well_keyed empty_acc.
Proof. exists []. split_and!; [done | constructor | done]. Qed.

Lemma page_matches_later page l :
  page ≠ 1 → later_page cfg net query page l →
  page_matches cfg net query facets page = l.
Proof.
  intros Hp (data & (resp & Hnet & Hst & Hbody) & Hget). unfold page_matches.
  apply Z.eqb_neq in Hp. rewrite Hp, Hnet, Hst, Hbody. simpl. by rewrite Hget.
Qed.

Lemma page_matches_first first batch :
  serves cfg net query 1 facets first →
  Py.get first "matches" (JArr []) = Ret batch →
  page_matches cfg net query facets 1 = match batch with JArr l => l | _ => [] end.
Proof.
  intros (resp & Hnet & Hst & Hbody) Hget. unfold page_matches.
  change (1 =? 1) with true. cbv iota. rewrite Hnet, Hst, Hbody. simpl.
  by rewrite Hget.
Qed.

Lemma gathered_next n a l a' added :
  gathered cfg net query facets n a →
  page_matches cfg net query facets (Z.of_nat (S n)) = l →
  add_each l a 0 = Ret (a', added) →
  gathered cfg net query facets (S n) a'.
Proof.
  intros [Hm Hs] Hl (Hm' & Hs' & _)%add_each_spec. unfold gathered.
  cbn [pages_upto]. rewrite Hl. split.
  - rewrite Hm', Hm, Hs. unfold first_seen. rewrite first_seen_from_app.
    by rewrite union_empty_r_L.
  - rewrite Hs', Hs, key_set_app. set_solver.
Qed.

Lemma gathered_first first batch a1 n1 :
  serves cfg net query 1 facets first →
  Py.get first "matches" (JArr []) = Ret batch →
  add_batch batch empty_acc = Ret (a1, n1) →
  gathered cfg net query facets 1 a1.
Proof.
  intros Hserved Hget Hadd.
  pose proof (page_matches_first _ _ Hserved Hget) as Hpage.
  assert (gathered cfg net query facets 0 empty_acc) as H0 by done.
  destruct (Py.truthy batch) eqn:Hb.
  - destruct (add_batch_truthy _ _ _ Hb Hadd) as [l ->].
    rewrite add_batch_list in Hadd. by eapply gathered_next.
  - rewrite add_batch_falsy in Hadd by done. injection Hadd as <- <-.
    eapply (gathered_next 0 empty_acc []); [done | | done].
    change (Z.of_nat 1) with 1. rewrite Hpage. destruct batch as [| | | |[|]|]; done.
Qed.

Lemma loop_gathered fuel max_results total_reported sleep_s n a a' :
  (1 ≤ n)%nat → gathered cfg net query facets n a →
  out (fetch_loop cfg net fuel query max_results total_reported sleep_s (Z.of_nat n) a)
  = Returns a' →
  ∃ n', (n ≤ n')%nat ∧ gathered cfg net query facets n' a'.
Proof.
  revert n a. induction fuel as [|fuel IH]; intros n a Hn Hg; cbn [fetch_loop].
  - destruct (loop_condition _ _ a); [done |]. intros [= <-]. by exists n.
  - destruct (loop_condition _ _ a); [|intros [= <-]; by exists n].
    intros ([a2|] & Hbody & Hrest)%bind_out_returns.
    + apply loop_body_continue in Hbody as (l & added & Hpage & Hadd & _).
      replace (Z.of_nat n + 1) with (Z.of_nat (S n)) in Hpage, Hrest by lia.
      apply (page_matches_later (Z.of_nat (S n))) in Hpage; [|lia].
      destruct (IH (S n) a2) as (n' & Hn' & Hg'); [lia | by eapply gathered_next | done |].
      exists n'. split; [lia | done].
    + injection Hrest as <-. by exists n.
Qed.

End Invariant.

(** ** Every run ends *)

Lemma reporting_terminates `{Py.Builtins} results total_reported facets_obj :
  out (reporting results total_reported facets_obj) ≠ OutOfFuel.
Proof.
  unfold reporting.
  apply bind_terminates; [done | intros _ _].
  apply bind_terminates.
  { unfold print_facets. destruct facets_obj as [f|]; [|done].
    destruct (Py.truthy f); [|done].
    apply bind_terminates; [done | intros _ _; apply lift_terminates]. }
  intros _ _. apply bind_terminates.
  { unfold print_results.
    apply bind_terminates; [done | intros _ _; apply lift_terminates]. }
  intros _ _. unfold print_summary.
  apply bind_terminates; [apply lift_terminates | done].
Qed.

(** The fuel of the model is never the reason a run stops. *)
Lemma main_terminates `{Py.Builtins} (cfg : Config) (net : Network) :
  out (main cfg net) ≠ OutOfFuel.
Proof.
  destruct (build_query cfg) as [q|e] eqn:Hq.
  - rewrite (main_built cfg net q Hq).
    apply bind_terminates; [done | intros _ _].
    apply bind_terminates; [apply fetch_all_terminates |].
    intros [[results total] facets_obj] _. apply reporting_terminates.
  - by rewrite (main_query_refused cfg net e Hq).
Qed.

(** ** Events and results of composed runs *)

Lemma bind_trace {A B} (m : io A) (f : A → io B) :
  trace (m ≫= f)
  = trace m ++ match out m with Returns a => trace (f a) | _ => [] end.
Proof.
  unfold mbind, io_bind. destruct (out m); cbn; by rewrite ?app_nil_r.
Qed.

Lemma bind_out {A B} (m : io A) (f : A → io B) :
  out (m ≫= f)
  = match out m with
    | Returns a => out (f a)
    | Raises e => Raises e
    | OutOfFuel => OutOfFuel
    end.
Proof. unfold mbind, io_bind. by destruct (out m). Qed.

Lemma bind_lift {A B} (r : result A) (f : A → io B) :
  lift r ≫= f = match r with Ret a => f a | Raise e => IO [] (Raises e) end.
Proof. destruct r; [apply bind_lift_ret | done]. Qed.

Lemma requests_app (t1 t2 : list event) : requests (t1 ++ t2) = requests t1 ++ requests t2.
Proof.
  induction t1 as [|e t1 IH]; [done |]. destruct e; cbn; by rewrite IH.
Qed.

Lemma page_urls_later cfg query facets (p k : nat) :
  (2 ≤ p)%nat →
  (λ i, full_url cfg query (Z.of_nat i)
          (if Z.of_nat i =? 1 then facets else EmptyString)) <$> seq p k
  = (λ i, full_url cfg query (Z.of_nat i) EmptyString) <$> seq p k.
Proof.
  revert p. induction k as [|k IH]; intros p Hp; [done |].
  cbn [seq fmap list_fmap]. rewrite IH by lia.
  destruct (Z.of_nat p =? 1) eqn:E; [lia | done].
Qed.

Lemma get_dict (o : list (string * json)) (k : string) (d : json) :
  Py.get (JObj o) k d = Ret (default d (Py.assoc k o)).
Proof. done. Qed.

Lemma result_bind_Ret {A B} (a : A) (f : A → result B) : (Ret a ≫= f) = f a.
Proof. done. Qed.

(** ** The pages a run requests *)

Section Requested.
Context `{Py.Builtins} (cfg : Config) (net : Network).
Context (query facets : string) (sleep_s : Q).

(** The key of the accumulator is the identity key. *)
Lemma match_key_identity (m : json) : match_key m = identity_key m.
Proof.
  destruct m as [| | | | |o]; try done.
  unfold match_key, identity_key, address, field, Py.or.
  rewrite !get_dict, !result_bind_Ret.
  destruct (Py.truthy (default JNull (Py.assoc "ip_str" o))); cbv match;
    rewrite ?get_dict, ?result_bind_Ret;
    by destruct (default JNull (Py.assoc "port" o)).
Qed.

(** A turn left by [break] has made one request, for a page that
    holds no match with a new key. *)
Lemma loop_body_break page a :
  page ≠ 1 →
  out (loop_body cfg net query sleep_s page a) = Returns Break →
  first_seen_from (seen a) (page_matches cfg net query facets page) = []
  ∧ requests (trace (loop_body cfg net query sleep_s page a))
    = [full_url cfg query page EmptyString].
Proof.
  intros Hpage%Z.eqb_neq. unfold page_matches. rewrite Hpage.
  destruct (net (full_url cfg query page EmptyString)) as [cls|resp] eqn:Hnet.
  { by rewrite (loop_body_refused _ _ _ _ _ _ cls). }
  destruct (decide (status_code resp = 200)) as [Hst|Hst].
  2:{ rewrite (loop_body_failed _ _ _ _ _ _ resp) by done.
      apply Z.eqb_neq in Hst. by rewrite Hst. }
  rewrite Hst. change (200 =? 200) with true. cbv match.
  destruct (json_body resp) as [data|e] eqn:Hbody.
  2:{ unfold loop_body. rewrite (http_get_undecodable _ _ _ _ _ resp e) by done.
      by destruct e as [msg|cls]. }
  unfold loop_body.
  rewrite (http_get_served _ _ _ _ _ data) by (by exists resp).
  cbn -[Py.get add_batch]. rewrite ?result_bind_Ret.
  destruct (Py.get data "matches" (JArr [])) as [batch|e]; cbn -[add_batch]; [|done].
  destruct (Py.truthy batch) eqn:Hb; cbn -[add_batch].
  { destruct (add_batch batch a) as [[a' added]|e] eqn:Hadd; cbn; [|done].
    destruct (add_batch_truthy _ _ _ Hb Hadd) as [l ->].
    rewrite add_batch_list in Hadd. apply add_each_spec in Hadd as (_ & _ & Hadded).
    destruct (added =? 0) eqn:H0; cbn.
    - intros _. split; [|done]. apply Z.eqb_eq in H0.
      apply length_zero_iff_nil. lia.
    - unfold time_sleep. by destruct (Qle_bool 0 sleep_s). }
  intros _. split; [|done]. by destruct batch as [| | | |[|]|].
Qed.

Lemma loop_requested fuel max_results total_reported n a a' :
  (1 ≤ n)%nat → gathered cfg net query facets n a →
  out (fetch_loop cfg net fuel query max_results total_reported sleep_s (Z.of_nat n) a)
  = Returns a' →
  ∃ k, (n ≤ k)%nat
       ∧ matches a' = first_seen (pages_upto cfg net query facets k)
       ∧ requests (trace (fetch_loop cfg net fuel query max_results total_reported
                            sleep_s (Z.of_nat n) a))
         = (λ i, full_url cfg query (Z.of_nat i) EmptyString) <$> seq (S n) (k - n).
Proof.
  revert n a. induction fuel as [|fuel IH]; intros n a Hn Hg; cbn [fetch_loop].
  - destruct (loop_condition _ _ a); [done |]. intros [= <-].
    exists n. split_and!; [done | apply Hg | by rewrite Nat.sub_diag].
  - destruct (loop_condition _ _ a).
    2:{ intros [= <-]. exists n. split_and!; [done | apply Hg | by rewrite Nat.sub_diag]. }
    rewrite bind_trace, requests_app.
    intros ([a2|] & Hbody & Hrest)%bind_out_returns; rewrite Hbody.
    + apply loop_body_continue in Hbody as (l & added & Hpage & Hadd & _ & ->).
      replace (Z.of_nat n + 1) with (Z.of_nat (S n)) in * by lia.
      apply (page_matches_later _ _ _ facets (Z.of_nat (S n))) in Hpage; [|lia].
      destruct (IH (S n) a2) as (k & Hk & Hm & Htr);
        [lia | by eapply gathered_next | done |].
      exists k. split_and!; [lia | done |].
      rewrite Htr. replace (k - n)%nat with (S (k - S n)) by lia. done.
    + injection Hrest as <-.
      replace (Z.of_nat n + 1) with (Z.of_nat (S n)) in * by lia.
      destruct (loop_body_break (Z.of_nat (S n)) a) as [Hnone ->]; [lia | done |].
      exists (S n). split_and!; [lia | |].
      * destruct Hg as [Hm Hs]. cbn [pages_upto]. unfold first_seen.
        rewrite first_seen_from_app, union_empty_r_L, <- Hs, Hnone, app_nil_r.
        exact Hm.
      * replace (S n - n)%nat with 1%nat by lia. by rewrite app_nil_r.
Qed.

(** A returning run has requested pages 1..k and returns the first
    match of every key over exactly these pages, cut to the maximum. *)
Lemma fetch_all_requested max_results ms total facets_obj :
  out (fetch_all cfg net query facets max_results sleep_s)
  = Returns (ms, total, facets_obj) →
  ∃ k, (1 ≤ k)%nat
       ∧ requests (trace (fetch_all cfg net query facets max_results sleep_s))
         = page_urls cfg query facets k
       ∧ ms = Py.slice_to (first_seen (pages_upto cfg net query facets k)) max_results.
Proof.
  intros Hout.
  destruct (fetch_all_returns _ _ _ _ _ _ _ _ _ Hout)
    as (first & batch & a1 & n1 & a & Hserved & Hget & Hadd & Hloop & ->).
  pose proof (gathered_first _ _ _ _ _ _ _ _ Hserved Hget Hadd) as Hg1.
  change 1 with (Z.of_nat 1) in Hloop.
  destruct (loop_requested _ _ _ _ _ _ (le_n 1) Hg1 Hloop) as (k & Hk & Hm & Htr).
  exists k. split_and!; [done | | by rewrite Hm].
  revert Hout. unfold fetch_all.
  rewrite (http_get_served _ _ _ _ _ first) by done. rewrite bind_io.
  cbn [out trace app requests].
  intros (t & Ht%lift_returns & Hrest)%bind_out_returns. rewrite Ht, bind_lift_ret.
  apply bind_out_returns in Hrest as (f & Hf%lift_returns & Hrest).
  rewrite Hf, bind_lift_ret. rewrite Hget, bind_lift_ret, Hadd, bind_lift_ret.
  rewrite Hget, bind_lift_ret, Hadd, bind_lift_ret in Hrest.
  apply bind_out_returns in Hrest as (a0 & Hloop' & Hret).
  injection Hret as _ <-.
  rewrite bind_trace, Hloop'. cbn [trace]. rewrite app_nil_r.
  change (Z.of_nat 1) with 1 in Htr. rewrite Htr.
  unfold page_urls. replace k with (1 + (k - 1))%nat at 2 by lia.
  rewrite seq_app. cbn [seq fmap list_fmap app].
  change (Z.of_nat 1 =? 1) with true. cbv iota. f_equal.
  by rewrite page_urls_later by lia.
Qed.

End Requested.

(** * The claims *)

(** ** A second page of duplicates *)

(** C1 as stated fails: with a maximum of 1, a first page of two
    distinct pairs and a second page that repeats them, one match is
    returned, not two, and the second page is not requested. *)
Lemma duplicate_second_page_truncated :
  first_page (H := example_builtins) source_config net_duplicates
    example_query EmptyString 4 None [h1; h2]
  ∧ later_page source_config net_duplicates example_query 2 [h2; h1]
  ∧ keys_of (H := example_builtins) [h1; h2] = Ret [("10.0.0.1", 80); ("10.0.0.2", 443)]
  ∧ keys_of (H := example_builtins) [h2; h1] = Ret [("10.0.0.2", 443); ("10.0.0.1", 80)]
  ∧ (∀ k : string * Z, k ∈ [("10.0.0.2", 443); ("10.0.0.1", 80)] →
                       k ∈ [("10.0.0.1", 80); ("10.0.0.2", 443)])
  ∧ fetch_all (H := example_builtins) source_config net_duplicates
      example_query EmptyString 1 1%Q
    = IO [HttpGet (full_url source_config example_query 1 EmptyString)]
         (Returns ([h1], 4, None))
  ∧ length [h1]
    ≠ size (list_to_set [("10.0.0.1", 80); ("10.0.0.2", 443)] : gset (string * Z)).
Proof.
  split_and!; try reflexivity.
  - exists (page_body 4 [h1; h2]), JNull. split_and!; try reflexivity.
    eexists. split_and!; reflexivity.
  - exists (page_body 4 [h2; h1]). split; [|reflexivity].
    eexists. split_and!; reflexivity.
  - intros k Hk. apply list_elem_of_In. apply list_elem_of_In in Hk.
    simpl in *. tauto.
  - vm_compute. discriminate.
Qed.

(** C1, amended.  When page 2 repeats only pairs already seen on page 1,
    the accumulator returns the first match of every pair of page 1,
    cut to the maximum: as many entries as page 1 has distinct pairs
    whenever that number does not exceed the maximum.  It requests
    page 1; it requests page 2 exactly when page 1 left the count
    below both the maximum and the reported total; after that it
    stops: the run makes no other request, none for page 3, and does
    not pause. *)
Theorem duplicate_second_page_stops `{Py.Builtins} (cfg : Config) (net : Network)
    (query facets : string) (max_results : Z) (sleep_s : Q)
    (total : Z) (facets_obj : option json) (l1 l2 : list json) (ks1 ks2 : list key)
    (r := fetch_all cfg net query facets max_results sleep_s) :
  first_page cfg net query facets total facets_obj l1 →
  keys_of l1 = Ret ks1 →
  later_page cfg net query 2 l2 →
  keys_of l2 = Ret ks2 →
  (∀ k, k ∈ ks2 → k ∈ ks1) →
  out r = Returns (Py.slice_to (first_seen l1) max_results, total, facets_obj)
  ∧ length (first_seen l1) = size (list_to_set ks1 : gset key)
  ∧ (Z.of_nat (length (first_seen l1)) ≤ max_results →
     Py.slice_to (first_seen l1) max_results = first_seen l1)
  ∧ trace r
    = HttpGet (full_url cfg query 1 facets)
      :: (if (Z.of_nat (length (first_seen l1)) <? max_results)
             && (Z.of_nat (length (first_seen l1)) <? total)
          then [HttpGet (full_url cfg query 2 EmptyString)]
          else [])
  ∧ ∀ facets', HttpGet (full_url cfg query 3 facets') ∉ trace r.
Proof.
  intros Hfirst Hks1 Hsecond Hks2 Hsub.
  destruct (add_each_keys l1 ks1 empty_acc 0 Hks1) as (a1 & n1 & Hadd).
  pose proof (add_each_spec _ _ _ _ _ Hadd) as (Hm & Hs & _).
  cbn [matches seen empty_acc app] in Hm, Hs.
  rewrite (key_set_keys _ ks1), union_empty_r_L in Hs by done.
  fold (first_seen l1) in Hm.
  assert (r = IO (trace r) (Returns (Py.slice_to (first_seen l1) max_results,
                                      total, facets_obj))
          ∧ trace r
            = HttpGet (full_url cfg query 1 facets)
              :: (if (Z.of_nat (length (first_seen l1)) <? max_results)
                     && (Z.of_nat (length (first_seen l1)) <? total)
                  then [HttpGet (full_url cfg query 2 EmptyString)]
                  else []))
    as [Hr Htr].
  { subst r. rewrite (fetch_all_first _ _ _ _ _ _ total facets_obj l1 a1 n1) by done.
    rewrite bind_emit. rewrite <- Hm.
    change ((Z.of_nat (length (matches a1)) <? max_results)
            && (Z.of_nat (length (matches a1)) <? total))
      with (loop_condition max_results total a1).
    destruct (loop_condition max_results total a1) eqn:Hc.
    - destruct (Z.to_nat max_results) as [|fuel] eqn:Hfuel.
      { apply condition_room in Hc. unfold room in Hc. lia. }
      rewrite loop_turn by done. change (1 + 1) with 2.
      rewrite (loop_body_known _ _ _ _ _ _ l2 ks2);
        [|done..|by intros k Hk; rewrite Hs; apply elem_of_list_to_set, Hsub].
      rewrite bind_io. cbn. done.
    - rewrite loop_stops by done. rewrite bind_mret. cbn. done. }
  split_and!.
  - by rewrite Hr.
  - by apply first_seen_length.
  - intros Hle. unfold Py.slice_to. destruct (0 <=? max_results) eqn:H0; [|lia].
    apply take_ge. lia.
  - done.
  - intros facets' Hin.
    destruct (full_url_page_3 cfg query facets' facets) as [N1 _].
    destruct (full_url_page_3 cfg query facets' EmptyString) as [_ N2].
    rewrite Htr in Hin.
    destruct ((Z.of_nat (length (first_seen l1)) <? max_results)
              && (Z.of_nat (length (first_seen l1)) <? total));
      repeat (apply elem_of_cons in Hin as [Heq|Hin]; [congruence |]);
      by apply elem_of_nil in Hin.
Qed.

Lemma duplicate_second_page_stops_witness :
  out (fetch_all (H := example_builtins) source_config net_duplicates
         example_query EmptyString 1000 1%Q)
  = Returns ([h1; h2], 4, None)
  ∧ trace (fetch_all (H := example_builtins) source_config net_duplicates
             example_query EmptyString 1000 1%Q)
    = [HttpGet (full_url source_config example_query 1 EmptyString);
       HttpGet (full_url source_config example_query 2 EmptyString)].
Proof.
  destruct (duplicate_second_page_stops (H := example_builtins) source_config
              net_duplicates example_query EmptyString 1000 1%Q 4 None
              [h1; h2] [h2; h1]
              [("10.0.0.1", 80); ("10.0.0.2", 443)] [("10.0.0.2", 443); ("10.0.0.1", 80)])
    as (Hout & _ & _ & Htr & _).
  - exists (page_body 4 [h1; h2]), JNull. split_and!; try reflexivity.
    eexists. split_and!; reflexivity.
  - reflexivity.
  - exists (page_body 4 [h2; h1]). split; [|reflexivity].
    eexists. split_and!; reflexivity.
  - reflexivity.
  - intros k Hk. apply list_elem_of_In. apply list_elem_of_In in Hk.
    simpl in *. tauto.
  - split; [exact Hout | exact Htr].
Defined.

(** ** Prohibited filter terms *)

(** C2.  With the prohibited terms of the source, an additional filter
    that contains one of them at any position and in any letter case
    makes the query builder exit with its error message, and the run
    ends there: no request is issued and nothing is printed. *)
Theorem prohibited_filter_fails_before_network `{Py.Builtins}
    (cfg : Config) (net : Network) (t : string) :
  PROHIBITED_KEYWORDS cfg = PROHIBITED_KEYWORDS source_config →
  t ∈ PROHIBITED_KEYWORDS cfg →
  Text.occurs_ci t (ADDITIONAL_FILTERS cfg) →
  build_query cfg = Raise (SystemExit org_prohibited_msg)
  ∧ main cfg net = IO [] (Raises (SystemExit org_prohibited_msg)).
Proof.
  intros Hsrc Hin Hocc.
  assert (build_query cfg = Raise (SystemExit org_prohibited_msg)) as Hq.
  { apply (build_query_prohibited cfg t); try done.
    all: rewrite Hsrc in Hin; apply list_elem_of_singleton in Hin as ->; done. }
  split; [done | by apply main_query_refused].
Qed.

Lemma prohibited_filter_fails_before_network_witness :
  main (H := example_builtins)
    (with_filters source_config None "port:80 ORG:Acme") net_five
  = IO [] (Raises (SystemExit org_prohibited_msg)).
Proof.
  apply (prohibited_filter_fails_before_network (H := example_builtins)
           (with_filters source_config None "port:80 ORG:Acme") net_five "org:").
  - reflexivity.
  - simpl. apply list_elem_of_here.
  - exists "port:80 ", "ORG:", "Acme". split; reflexivity.
Defined.

(** ** The shape of the query *)

(** C3 as stated fails: an additional filter that ends in whitespace is
    not appended verbatim. *)
Lemma build_query_not_verbatim :
  free_of_prohibited (with_filters source_config None "port:80 ")
  ∧ described_query (with_filters source_config None "port:80 ") = "country:GT port:80 "
  ∧ build_query (with_filters source_config None "port:80 ") = Ret "country:GT port:80"
  ∧ build_query (with_filters source_config None "port:80 ")
    ≠ Ret (described_query (with_filters source_config None "port:80 ")).
Proof.
  split_and!; [|reflexivity..|discriminate].
  intros t Hin%list_elem_of_singleton Hocc. subst t.
  eapply (TextFacts.contains_lower_occurs "org:") in Hocc; [|done]. done.
Qed.

(** C3, amended.  For an additional filter free of prohibited terms the
    builder returns: the country constraint, then the quoted city
    constraint if a city is configured, then, unless nothing remains
    of it, a single space and the additional filter without its
    trailing whitespace.  The result has no leading or trailing
    whitespace, and it is the described query whenever the additional
    filter does not end in whitespace; with no city and no additional
    filter it is [country:GT]. *)
Theorem build_query_shape (cfg : Config) :
  free_of_prohibited cfg →
  build_query cfg = Ret (built_query cfg)
  ∧ built_query cfg = Text.rstrip (described_query cfg)
  ∧ Text.trimmed (built_query cfg)
  ∧ (Text.rstrip (ADDITIONAL_FILTERS cfg) = ADDITIONAL_FILTERS cfg →
     built_query cfg = described_query cfg)
  ∧ (city_configured cfg = None → ADDITIONAL_FILTERS cfg = EmptyString →
     built_query cfg = "country:GT").
Proof.
  intros Hfree. split_and!.
  - by apply build_query_free.
  - apply built_query_rstrip.
  - apply built_query_trimmed.
  - apply built_query_verbatim.
  - intros Hc He. unfold built_query, base_query. by rewrite Hc, He.
Qed.

Lemma build_query_shape_witness :
  build_query (with_filters source_config (Some "Antigua") "port:80  ")
  = Ret ("country:GT city:" +:+ Text.dquote +:+ "Antigua" +:+ Text.dquote +:+ " port:80").
Proof.
  apply (build_query_shape (with_filters source_config (Some "Antigua") "port:80  ")).
  intros t Hin%list_elem_of_singleton Hocc. subst t.
  eapply (TextFacts.contains_lower_occurs "org:") in Hocc; [|reflexivity].
  vm_compute in Hocc. discriminate.
Defined.

(** ** The maximum *)

(** C4.  With a reported total of 5 and a maximum of 3, when every page
    the loop fetches contributes a new match, the accumulator returns
    exactly 3 matches. *)
Theorem maximum_three_of_five `{Py.Builtins} (cfg : Config) (net : Network)
    (query facets : string) (sleep_s : Q)
    (facets_obj : option json) (l : list json) (a1 : acc) (n1 : Z) :
  first_page cfg net query facets 5 facets_obj l →
  add_each l empty_acc 0 = Ret (a1, n1) →
  every_page_contributes cfg net 3 query 3 5 sleep_s 1 a1 = true →
  ∃ tr ms,
    fetch_all cfg net query facets 3 sleep_s = IO tr (Returns (ms, 5, facets_obj))
    ∧ length ms = 3%nat.
Proof.
  intros Hfirst Hadd Hall.
  destruct (loop_contributing cfg net query 3 5 sleep_s 3 1 a1 Hall)
    as (tr & a & Hloop & Hc).
  { unfold room. lia. }
  rewrite (fetch_all_first _ _ _ _ _ _ 5 facets_obj l a1 n1) by done.
  change (Z.to_nat 3) with 3%nat. rewrite Hloop, bind_emit.
  eexists _, _. split; [reflexivity |].
  unfold Py.slice_to. cbn. rewrite length_take.
  unfold loop_condition in Hc. apply andb_false_iff in Hc. lia.
Qed.

Lemma maximum_three_of_five_witness :
  ∃ tr ms,
    fetch_all (H := example_builtins) source_config net_five example_query EmptyString 3 1%Q
    = IO tr (Returns (ms, 5, None))
    ∧ length ms = 3%nat.
Proof.
  eapply (maximum_three_of_five (H := example_builtins) source_config net_five
            example_query EmptyString 1%Q None [h1; h2]).
  - exists (page_body 5 [h1; h2]), JNull. split_and!; try reflexivity.
    eexists. split_and!; reflexivity.
  - reflexivity.
  - reflexivity.
Defined.

(** ** An empty first page *)

(** C5.  When the first page reports a total of 0 and carries an empty
    match list, the accumulator returns an empty result set after the
    single request for page 1: the loop body never runs. *)
Theorem empty_first_page `{Py.Builtins} (cfg : Config) (net : Network)
    (query facets : string) (max_results : Z) (sleep_s : Q) (facets_obj : option json) :
  first_page cfg net query facets 0 facets_obj [] →
  fetch_all cfg net query facets max_results sleep_s
  = IO [HttpGet (full_url cfg query 1 facets)] (Returns ([], 0, facets_obj)).
Proof.
  intros Hfirst.
  rewrite (fetch_all_first _ _ _ _ _ _ 0 facets_obj [] empty_acc 0) by done.
  rewrite loop_stops.
  - rewrite bind_emit, bind_mret. cbn. unfold Py.slice_to.
    destruct (0 <=? max_results); by rewrite take_nil.
  - unfold loop_condition. cbn. apply andb_false_r.
Qed.

Lemma empty_first_page_witness :
  fetch_all (H := example_builtins) source_config net_empty example_query EmptyString 1000 1%Q
  = IO [HttpGet (full_url source_config example_query 1 EmptyString)] (Returns ([], 0, None)).
Proof.
  apply (empty_first_page (H := example_builtins)).
  exists (page_body 0 []), JNull. split_and!; try reflexivity.
  eexists. split_and!; reflexivity.
Defined.

(** ** A later page that fails with an HTTP status *)

(** C6 as stated fails: when the connection for the second page is
    refused, the exception of the HTTP library ends the run; nothing
    but the banner is printed. *)
Lemma later_page_transport_failure_aborts :
  first_page (H := example_builtins) source_config net_second_refused
    example_query EmptyString 5 None [h1; h2]
  ∧ net_second_refused (full_url source_config example_query 2 EmptyString)
    = inl "ConnectionError"
  ∧ main (H := example_builtins) source_config net_second_refused
    = IO [Stdout (Banner example_query);
          HttpGet (full_url source_config example_query 1 EmptyString);
          HttpGet (full_url source_config example_query 2 EmptyString)]
         (Raises (Exception "ConnectionError")).
Proof.
  split_and!; try reflexivity.
  exists (page_body 5 [h1; h2]), JNull. split_and!; try reflexivity.
  eexists. split_and!; reflexivity.
Qed.

(** C6, amended.  When the request for a page after the first is
    answered with a status other than 200, the accumulator still
    returns: it writes a warning that names the page to the error
    stream, stops, and returns the matches gathered from the earlier
    pages.  The run goes on to the report with these matches, and ends
    as the report ends. *)
Theorem later_page_http_failure_recovered `{Py.Builtins} (cfg : Config) (net : Network)
    (q : string) (total : Z) (facets_obj : option json) (l : list json)
    (a1 : acc) (n1 : Z) (n : nat) (tr : list event) (a : acc) (resp : Response)
    (page := 2 + Z.of_nat n)
    (url := full_url cfg q page EmptyString)
    (warning := warning_msg page (http_error_msg (status_code resp) url (text resp)))
    (fetched := HttpGet (full_url cfg q 1 (FACETS cfg))
                :: tr ++ [HttpGet url; Stderr warning]) :
  build_query cfg = Ret q →
  first_page cfg net q (FACETS cfg) total facets_obj l →
  add_each l empty_acc 0 = Ret (a1, n1) →
  turns cfg net n q (MAX_RESULTS cfg) total (SLEEP_SECONDS cfg) 1 a1 = Some (tr, a) →
  loop_condition (MAX_RESULTS cfg) total a = true →
  net url = inr resp →
  status_code resp ≠ 200 →
  fetch_all cfg net q (FACETS cfg) (MAX_RESULTS cfg) (SLEEP_SECONDS cfg)
  = IO fetched (Returns (matches a, total, facets_obj))
  ∧ occurs (pretty page) warning
  ∧ main cfg net
    = IO (Stdout (Banner q) :: fetched ++ trace (reporting (matches a) total facets_obj))
         (out (reporting (matches a) total facets_obj))
  ∧ (out (print_facets facets_obj) = Returns tt →
     Stdout (Table (matches a)) ∈ trace (main cfg net)).
Proof.
  intros Hq Hfirst Hadd Hturns Hc Hnet Hst.
  pose proof (fetch_all_later_failure cfg net q (FACETS cfg) (MAX_RESULTS cfg)
                (SLEEP_SECONDS cfg) total facets_obj l a1 n1 n tr a resp
                Hfirst Hadd Hturns Hc Hnet Hst) as Hfetch.
  fold page url warning fetched in Hfetch.
  assert (main cfg net
          = IO (Stdout (Banner q)
                :: fetched ++ trace (reporting (matches a) total facets_obj))
               (out (reporting (matches a) total facets_obj))) as Hmain.
  { rewrite (main_accumulator_returns cfg net q (matches a) total facets_obj Hq)
      by (by rewrite Hfetch).
    by rewrite Hfetch. }
  split_and!; [done | apply warning_msg_names_page | done |].
  intros Hfacets. rewrite Hmain. cbn [trace].
  apply list_elem_of_further, elem_of_app. right. by apply reporting_table.
Qed.

Lemma later_page_http_failure_recovered_witness :
  main (H := example_builtins) source_config net_second_unavailable
  = IO [Stdout (Banner example_query);
        HttpGet (full_url source_config example_query 1 EmptyString);
        HttpGet (full_url source_config example_query 2 EmptyString);
        Stderr (warning_msg 2
                  (http_error_msg 503 (full_url source_config example_query 2 EmptyString)
                     "upstream"));
        Stdout (Totals 5 2);
        Stdout (Table [h1; h2]);
        Stdout (Summary [h1; h2])]
       (Returns tt).
Proof.
  apply (later_page_http_failure_recovered (H := example_builtins)
           source_config net_second_unavailable example_query 5 None [h1; h2]
           (Acc [h1; h2] {[("10.0.0.2", 443); ("10.0.0.1", 80)]}) 2 0 []
           (Acc [h1; h2] {[("10.0.0.2", 443); ("10.0.0.1", 80)]})
           {| status_code := 503; text := "upstream";
              json_body := Raise (Exception "JSONDecodeError") |}).
  - reflexivity.
  - exists (page_body 5 [h1; h2]), JNull. split_and!; try reflexivity.
    eexists. split_and!; reflexivity.
  - reflexivity.
  - reflexivity.
  - reflexivity.
  - reflexivity.
  - simpl. lia.
Defined.

(** ** A first page that fails *)

(** The banner is printed before the first page is requested: when
    that request fails, the error ends a run that has already written
    to standard output. *)
Lemma first_page_failure `{Py.Builtins} (cfg : Config) (net : Network) (q : string) (e : exn) :
  build_query cfg = Ret q →
  out (http_get_shodan cfg net q 1 (FACETS cfg)) = Raises e →
  main cfg net
  = IO [Stdout (Banner q); HttpGet (full_url cfg q 1 (FACETS cfg))] (Raises e).
Proof.
  intros Hq He.
  assert (fetch_all cfg net q (FACETS cfg) (MAX_RESULTS cfg) (SLEEP_SECONDS cfg)
          = IO [HttpGet (full_url cfg q 1 (FACETS cfg))] (Raises e)) as Hfetch.
  { unfold fetch_all. rewrite (bind_raises _ _ e) by done. by rewrite http_get_trace. }
  rewrite (main_accumulator_raises cfg net q e Hq) by (by rewrite Hfetch).
  by rewrite Hfetch.
Qed.

(** C7, at the failing input: the first page is answered with status
    401.  The error ends the run and neither facets, table nor summary
    are printed, but the banner is already on standard output. *)
Theorem banner_precedes_first_page_failure :
  main (H := example_builtins) source_config net_unauthorized
  = IO [Stdout (Banner example_query);
        HttpGet (full_url source_config example_query 1 EmptyString)]
       (Raises (SystemExit
                  (http_error_msg 401 (full_url source_config example_query 1 EmptyString)
                     "invalid key"))).
Proof.
  apply (first_page_failure (H := example_builtins) source_config net_unauthorized
           example_query).
  - reflexivity.
  - reflexivity.
Qed.

(** ** The page fetcher *)

(** C8.  Every call of the page fetcher issues exactly one GET request,
    for the constructed URL.  An exception of the HTTP library
    propagates.  On a status other than 200 the fetcher exits with a
    message that contains the status code, the full URL and the
    response body.  On status 200 it returns whatever the body decodes
    to, without looking at its shape (and raises what the decoder
    raises). *)
Theorem http_get_shodan_contract (cfg : Config) (net : Network)
    (query : string) (page : Z) (facets : string)
    (url := full_url cfg query page facets)
    (r := http_get_shodan cfg net query page facets) :
  trace r = [HttpGet url]
  ∧ match net url with
    | inl cls => out r = Raises (Exception cls)
    | inr resp =>
        if status_code resp =? 200 then
          match json_body resp with
          | Ret data => out r = Returns data
          | Raise e => out r = Raises e
          end
        else
          ∃ msg, out r = Raises (SystemExit msg)
                 ∧ occurs (pretty (status_code resp)) msg
                 ∧ occurs url msg
                 ∧ occurs (text resp) msg
    end.
Proof.
  split; [apply http_get_trace |].
  destruct (net url) as [cls|resp] eqn:Hnet.
  - by apply http_get_refused.
  - destruct (status_code resp =? 200) eqn:Hst.
    + apply Z.eqb_eq in Hst. subst r.
      rewrite (http_get_success _ _ _ _ _ resp) by done.
      by destruct (json_body resp).
    + apply Z.eqb_neq in Hst. eexists. split.
      * by apply http_get_status.
      * apply http_error_msg_mentions.
Qed.

(** ** One match per identity key *)

(** C9.  The identity key of a match is its address as text with its
    port as an integer, -1 when the port is absent.  The accumulated
    list never holds two matches with the same identity key: this is
    so at the start and every merge keeps it.  Every run ends; when
    it returns after requesting pages 1..k, the returned matches have
    distinct keys and are, cut to the maximum, the first match of
    every key over these k pages, in the order of the pages. *)
Theorem accumulator_keys_unique_in_order `{Py.Builtins} (cfg : Config) (net : Network)
    (query facets : string) (max_results : Z) (sleep_s : Q)
    (r := fetch_all cfg net query facets max_results sleep_s) :
  (∀ m, match_key m = identity_key m)
  ∧ well_keyed empty_acc
  ∧ (∀ batch a a' added,
       well_keyed a → add_batch batch a = Ret (a', added) → well_keyed a')
  ∧ match out r with
    | Returns (ms, _, _) =>
        (∃ ks, keys_of ms = Ret ks ∧ NoDup ks)
        ∧ ∃ k, (1 ≤ k)%nat
               ∧ requests (trace r) = page_urls cfg query facets k
               ∧ ms = Py.slice_to (first_seen (pages_upto cfg net query facets k))
                        max_results
    | Raises _ => True
    | OutOfFuel => False
    end.
Proof.
  split_and!;
    [apply match_key_identity | apply empty_acc_well_keyed | apply add_batch_well_keyed |].
  subst r.
  destruct (out (fetch_all cfg net query facets max_results sleep_s))
    as [[[ms total] facets_obj]| |] eqn:Hout; [|done|].
  - destruct (fetch_all_requested _ _ _ _ _ _ _ _ _ Hout) as (k & Hk & Hreq & Hms).
    split; [|by exists k].
    rewrite Hms.
    destruct (first_seen_from_keys ∅ (pages_upto cfg net query facets k))
      as (ks & Hks & Hnd & _).
    destruct (keys_of_slice _ ks max_results Hks) as (ks' & Hks' & Hnd').
    exists ks'. split; [done | by apply Hnd'].
  - by apply fetch_all_terminates in Hout.
Qed.

Lemma accumulator_keys_unique_in_order_witness :
  (∃ ks, keys_of (H := example_builtins) [h1; h2; h3] = Ret ks ∧ NoDup ks)
  ∧ ∃ k, (1 ≤ k)%nat
         ∧ requests (trace (fetch_all (H := example_builtins) source_config net_five
                              example_query EmptyString 3 1%Q))
           = page_urls source_config example_query EmptyString k
         ∧ [h1; h2; h3]
           = Py.slice_to
               (first_seen (H := example_builtins)
                  (pages_upto source_config net_five example_query EmptyString k)) 3.
Proof.
  exact (proj2 (proj2 (proj2 (accumulator_keys_unique_in_order (H := example_builtins)
                                source_config net_five example_query EmptyString 3 1%Q)))).
Defined.

(** ** A later page on which the HTTP library raises *)

(** C10.  An exception raised by the HTTP library on a page after the
    first is not caught by the recovery path, which handles SystemExit
    only: it leaves the accumulator and ends the run, with the banner
    as the only output. *)
Theorem later_page_library_exception_propagates `{Py.Builtins}
    (cfg : Config) (net : Network)
    (q : string) (total : Z) (facets_obj : option json) (l : list json)
    (a1 : acc) (n1 : Z) (n : nat) (tr : list event) (a : acc) (cls : string)
    (url := full_url cfg q (2 + Z.of_nat n) EmptyString)
    (fetched := HttpGet (full_url cfg q 1 (FACETS cfg)) :: tr ++ [HttpGet url]) :
  build_query cfg = Ret q →
  first_page cfg net q (FACETS cfg) total facets_obj l →
  add_each l empty_acc 0 = Ret (a1, n1) →
  turns cfg net n q (MAX_RESULTS cfg) total (SLEEP_SECONDS cfg) 1 a1 = Some (tr, a) →
  loop_condition (MAX_RESULTS cfg) total a = true →
  net url = inl cls →
  fetch_all cfg net q (FACETS cfg) (MAX_RESULTS cfg) (SLEEP_SECONDS cfg)
  = IO fetched (Raises (Exception cls))
  ∧ main cfg net = IO (Stdout (Banner q) :: fetched) (Raises (Exception cls)).
Proof.
  intros Hq Hfirst Hadd Hturns Hc Hnet.
  pose proof (fetch_all_later_exception cfg net q (FACETS cfg) (MAX_RESULTS cfg)
                (SLEEP_SECONDS cfg) total facets_obj l a1 n1 n tr a cls
                Hfirst Hadd Hturns Hc Hnet) as Hfetch.
  fold url fetched in Hfetch. split; [done |].
  rewrite (main_accumulator_raises cfg net q (Exception cls) Hq) by (by rewrite Hfetch).
  by rewrite Hfetch.
Qed.

Lemma later_page_library_exception_propagates_witness :
  main (H := example_builtins) source_config net_third_refused
  = IO [Stdout (Banner example_query);
        HttpGet (full_url source_config example_query 1 EmptyString);
        HttpGet (full_url source_config example_query 2 EmptyString);
        Sleep 1%Q;
        HttpGet (full_url source_config example_query 3 EmptyString)]
       (Raises (Exception "ConnectionError")).
Proof.
  apply (later_page_library_exception_propagates (H := example_builtins)
           source_config net_third_refused example_query 5 None [h1; h2]
           (Acc [h1; h2] {[("10.0.0.2", 443); ("10.0.0.1", 80)]}) 2 1
           [HttpGet (full_url source_config example_query 2 EmptyString); Sleep 1%Q]
           (Acc [h1; h2; h3; h4]
              ({[("10.0.0.1", 22)]} ∪ ({[("10.0.0.3", 80)]}
               ∪ {[("10.0.0.2", 443); ("10.0.0.1", 80)]})))
           "ConnectionError").
  - reflexivity.
  - exists (page_body 5 [h1; h2]), JNull. split_and!; try reflexivity.
    eexists. split_and!; reflexivity.
  - reflexivity.
  - reflexivity.
  - reflexivity.
  - reflexivity.
Defined.


(** * Further properties *)

(** ** The shape of a run of the accumulator *)

Section Shape.
Context `{Py.Builtins} (cfg : Config) (net : Network).
Context (query : string) (sleep_s : Q).

(** The four ways a turn can go. *)
Lemma loop_body_shape page a
    (r := loop_body cfg net query sleep_s page a)
    (url := full_url cfg query page EmptyString) :
  (trace r = [HttpGet url] ∧ out r = Returns Break)
  ∨ (∃ e, trace r = [HttpGet url] ∧ out r = Raises e)
  ∨ (∃ msg, trace r = [HttpGet url; Stderr (warning_msg page msg)]
            ∧ out r = Returns Break)
  ∨ (∃ a', trace r = [HttpGet url; Sleep sleep_s] ∧ out r = Returns (Continue a')).
Proof.
  subst r url.
  destruct (net (full_url cfg query page EmptyString)) as [cls|resp] eqn:Hnet.
  { rewrite (loop_body_refused _ _ _ _ _ _ cls) by done. right; left. by eexists. }
  destruct (decide (status_code resp = 200)) as [Hst|Hst].
  2:{ rewrite (loop_body_failed _ _ _ _ _ _ resp) by done.
      right; right; left. by eexists. }
  destruct (json_body resp) as [data|e] eqn:Hbody.
  2:{ unfold loop_body. rewrite (http_get_undecodable _ _ _ _ _ resp e) by done.
      destruct e as [msg|cls]; cbn.
      - right; right; left. by eexists.
      - right; left. by eexists. }
  unfold loop_body.
  rewrite (http_get_served _ _ _ _ _ data) by (by exists resp).
  cbn -[Py.get add_batch].
  destruct (Py.get data "matches" (JArr [])) as [batch|e]; cbn -[add_batch].
  2:{ right; left. by eexists. }
  destruct (Py.truthy batch); cbn -[add_batch]; [|by left].
  destruct (add_batch batch a) as [[a' added]|e]; cbn.
  2:{ right; left. by eexists. }
  destruct (added =? 0); cbn; [by left |].
  unfold time_sleep. destruct (Qle_bool 0 sleep_s); cbn.
  - right; right; right. by eexists.
  - right; left. by eexists.
Qed.

(** A run of the loop: turns that go on, then at most one more
    request; a warning, if any, is the last event and the loop
    returns. *)
Lemma fetch_loop_shape fuel max_results total_reported page a
    (r := fetch_loop cfg net fuel query max_results total_reported sleep_s page a) :
  ∃ j ending,
    trace r = turns_trace cfg query sleep_s page j ++ ending
    ∧ (j + length (requests ending) ≤ fuel)%nat
    ∧ (ending = []
       ∨ ending = [HttpGet (full_url cfg query (page + Z.of_nat j + 1) EmptyString)]
       ∨ ∃ msg a',
           ending = [HttpGet (full_url cfg query (page + Z.of_nat j + 1) EmptyString);
                     Stderr (warning_msg (page + Z.of_nat j + 1) msg)]
           ∧ out r = Returns a').
Proof.
  subst r. revert page a. induction fuel as [|fuel IH]; intros page a; cbn [fetch_loop].
  - exists 0%nat, []. split_and!; [by destruct (loop_condition _ _ _) | done | by left].
  - destruct (loop_condition _ _ _).
    2:{ exists 0%nat, []. split_and!; [done | cbn; lia | by left]. }
    rewrite bind_trace, bind_out.
    destruct (loop_body_shape (page + 1) a)
      as [[Ht Ho]|[(e & Ht & Ho)|[(msg & Ht & Ho)|(a' & Ht & Ho)]]];
      rewrite Ht, Ho.
    + exists 0%nat, [HttpGet (full_url cfg query (page + 1) EmptyString)].
      split_and!; [done | cbn; lia |]. right; left. do 3 f_equal. lia.
    + exists 0%nat, [HttpGet (full_url cfg query (page + 1) EmptyString)].
      split_and!; [done | cbn; lia |]. right; left. do 3 f_equal. lia.
    + exists 0%nat, [HttpGet (full_url cfg query (page + 1) EmptyString);
                     Stderr (warning_msg (page + 1) msg)].
      split_and!; [done | cbn; lia |]. right; right. exists msg, a.
      split; [|done]. replace (page + Z.of_nat 0 + 1) with (page + 1) by lia. done.
    + destruct (IH (page + 1) a') as (j & ending & Htr & Hlen & Hend).
      exists (S j), ending. rewrite Htr. split_and!; [done | lia |].
      replace (page + Z.of_nat (S j) + 1) with (page + 1 + Z.of_nat j + 1) by lia.
      done.
Qed.

End Shape.

Lemma requests_turns_trace cfg query sleep_s (p j : nat) :
  requests (turns_trace cfg query sleep_s (Z.of_nat p) j)
  = (λ i, full_url cfg query (Z.of_nat i) EmptyString) <$> seq (S p) j.
Proof.
  revert p. induction j as [|j IH]; intros p; [done |].
  cbn [turns_trace requests seq fmap list_fmap].
  replace (Z.of_nat p + 1) with (Z.of_nat (S p)) by lia. by rewrite IH.
Qed.

Lemma stderr_not_in_turns_trace cfg query sleep_s page j line :
  Stderr line ∉ turns_trace cfg query sleep_s page j.
Proof.
  revert page. induction j as [|j IH]; intros page; cbn [turns_trace].
  - apply not_elem_of_nil.
  - intros [?|[?|Hin]%elem_of_cons]%elem_of_cons; [done | done |]. by eapply IH.
Qed.

Lemma fetch_all_course `{Py.Builtins} (cfg : Config) (net : Network)
    (query facets : string) (max_results : Z) (sleep_s : Q)
    (r := fetch_all cfg net query facets max_results sleep_s) :
  ∃ j ending,
    trace r = HttpGet (full_url cfg query 1 facets)
              :: turns_trace cfg query sleep_s 1 j ++ ending
    ∧ (j + length (requests ending) ≤ Z.to_nat max_results)%nat
    ∧ (ending = []
       ∨ ending = [HttpGet (full_url cfg query (Z.of_nat j + 2) EmptyString)]
       ∨ ∃ msg res,
           ending = [HttpGet (full_url cfg query (Z.of_nat j + 2) EmptyString);
                     Stderr (warning_msg (Z.of_nat j + 2) msg)]
           ∧ out r = Returns res).
Proof.
  subst r. unfold fetch_all.
  rewrite bind_trace, bind_out, http_get_trace.
  assert (∃ j ending,
    [] = turns_trace cfg query sleep_s 1 j ++ ending
    ∧ (j + length (requests ending) ≤ Z.to_nat max_results)%nat
    ∧ ending = []) as Hstop.
  { exists 0%nat, []. split_and!; [done | cbn; lia | done]. }
  destruct (out (http_get_shodan cfg net query 1 facets)) as [first| |];
    [|destruct Hstop as (j & ending & ? & ? & ?); exists j, ending;
      split_and!; [by f_equal | done | by left]..].
  rewrite bind_lift.
  destruct (Py.get first "total" (JInt 0) ≫= Py.int) as [total|e];
    [|destruct Hstop as (j & ending & ? & ? & ?); exists j, ending;
      split_and!; [by f_equal | done | by left]].
  rewrite bind_lift.
  destruct (Py.get first "facets" JNull) as [f|e];
    [|destruct Hstop as (j & ending & ? & ? & ?); exists j, ending;
      split_and!; [by f_equal | done | by left]].
  rewrite bind_lift.
  destruct (Py.get first "matches" (JArr [])) as [batch|e];
    [|destruct Hstop as (j & ending & ? & ? & ?); exists j, ending;
      split_and!; [by f_equal | done | by left]].
  rewrite bind_lift.
  destruct (add_batch batch empty_acc) as [[a1 n1]|e];
    [|destruct Hstop as (j & ending & ? & ? & ?); exists j, ending;
      split_and!; [by f_equal | done | by left]].
  rewrite bind_trace, bind_out.
  destruct (fetch_loop_shape cfg net query sleep_s (Z.to_nat max_results)
              max_results total 1 a1) as (j & ending & Htr & Hlen & Hend).
  exists j, ending. rewrite Htr. split_and!.
  - f_equal. by destruct (out (fetch_loop _ _ _ _ _ _ _ _ _)); rewrite app_nil_r.
  - done.
  - replace (Z.of_nat j + 2) with (1 + Z.of_nat j + 1) by lia.
    destruct Hend as [?|[?|(msg & a' & ? & Hout)]]; [by left | by right; left |].
    right; right. exists msg. rewrite Hout. by eexists.
Qed.

(** X1.  Every run of the accumulator has this course: the request for
    page 1; then turns that go on, each a request for the next page
    followed by the pause; then at most one more request, followed by a
    warning when that request was answered with an error status.  The
    turns and the last request together are at most [max_results]. *)
Theorem fetch_all_trace_shape `{Py.Builtins} (cfg : Config) (net : Network)
    (query facets : string) (max_results : Z) (sleep_s : Q)
    (r := fetch_all cfg net query facets max_results sleep_s) :
  ∃ j ending,
    trace r = HttpGet (full_url cfg query 1 facets)
              :: turns_trace cfg query sleep_s 1 j ++ ending
    ∧ (j + length (requests ending) ≤ Z.to_nat max_results)%nat
    ∧ (ending = []
       ∨ ending = [HttpGet (full_url cfg query (Z.of_nat j + 2) EmptyString)]
       ∨ ∃ msg res,
           ending = [HttpGet (full_url cfg query (Z.of_nat j + 2) EmptyString);
                     Stderr (warning_msg (Z.of_nat j + 2) msg)]
           ∧ out r = Returns res).
Proof. apply fetch_all_course. Qed.

Lemma fetch_all_page_urls `{Py.Builtins} (cfg : Config) (net : Network)
    (query facets : string) (max_results : Z) (sleep_s : Q) :
  ∃ k, (1 ≤ k ≤ 1 + Z.to_nat max_results)%nat
       ∧ requests (trace (fetch_all cfg net query facets max_results sleep_s))
         = page_urls cfg query facets k.
Proof.
  destruct (fetch_all_course cfg net query facets max_results sleep_s)
    as (j & ending & -> & Hlen & Hend).
  assert (∃ e, (e ≤ 1)%nat ∧ length (requests ending) = e
               ∧ requests ending
                 = (λ i, full_url cfg query (Z.of_nat i) EmptyString) <$> seq (2 + j) e)
    as (e & He & Hle & Hreq).
  { destruct Hend as [->|[->|(msg & res & -> & _)]].
    - exists 0%nat. split_and!; [lia | done | done].
    - exists 1%nat. split_and!; [lia | done |]. cbn. do 2 f_equal. lia.
    - exists 1%nat. split_and!; [lia | done |]. cbn. do 2 f_equal. lia. }
  exists (1 + (j + e))%nat. split; [lia |].
  cbn [requests]. rewrite requests_app, (requests_turns_trace _ _ _ 1), Hreq.
  unfold page_urls. rewrite seq_app. cbn [seq fmap list_fmap app].
  change (Z.of_nat 1 =? 1) with true. cbv iota. f_equal.
  rewrite page_urls_later by lia. by rewrite seq_app, fmap_app.
Qed.

(** X2.  The accumulator requests the pages in order, each once: the
    URLs it requests are those of pages 1..k, with the facets on page 1
    only, and k is at most [max_results] + 1. *)
Theorem fetch_all_requests_in_order `{Py.Builtins} (cfg : Config) (net : Network)
    (query facets : string) (max_results : Z) (sleep_s : Q) :
  ∃ k, (1 ≤ k ≤ 1 + Z.to_nat max_results)%nat
       ∧ requests (trace (fetch_all cfg net query facets max_results sleep_s))
         = page_urls cfg query facets k.
Proof. apply fetch_all_page_urls. Qed.

(** X3.  A warning on the error stream is the last event of the
    accumulator and directly follows the request it is about: the run
    ends with the request for a page and the warning that names this
    page.  It is the only line on the error stream, and the
    accumulator returns. *)
Theorem fetch_all_warning_last `{Py.Builtins} (cfg : Config) (net : Network)
    (query facets : string) (max_results : Z) (sleep_s : Q) (line : string)
    (r := fetch_all cfg net query facets max_results sleep_s) :
  Stderr line ∈ trace r →
  (∃ tr page msg,
     line = warning_msg page msg
     ∧ trace r = tr ++ [HttpGet (full_url cfg query page EmptyString); Stderr line]
     ∧ ∀ line', Stderr line' ∉ tr)
  ∧ ∃ res, out r = Returns res.
Proof.
  destruct (fetch_all_course cfg net query facets max_results sleep_s)
    as (j & ending & Htr & _ & Hend).
  fold r in Htr, Hend. rewrite Htr. intros Hin.
  apply elem_of_cons in Hin as [?|Hin]; [done |].
  apply elem_of_app in Hin as [Hin|Hin]; [by apply stderr_not_in_turns_trace in Hin |].
  destruct Hend as [->|[->|(msg & res & -> & Hout)]].
  - by apply elem_of_nil in Hin.
  - apply list_elem_of_singleton in Hin. done.
  - apply elem_of_cons in Hin as [?|Hin]; [done |].
    apply list_elem_of_singleton in Hin. injection Hin as ->.
    split; [|by exists res].
    exists (HttpGet (full_url cfg query 1 facets) :: turns_trace cfg query sleep_s 1 j),
      (Z.of_nat j + 2), msg.
    split_and!; [done | by rewrite <- app_comm_cons |].
    intros line' [?|Hin']%elem_of_cons; [done |].
    by apply stderr_not_in_turns_trace in Hin'.
Qed.

Lemma fetch_all_warning_last_witness :
  (∃ tr page msg,
     warning_msg 2
       (http_error_msg 503 (full_url source_config example_query 2 EmptyString) "upstream")
     = warning_msg page msg
     ∧ trace (fetch_all (H := example_builtins) source_config net_second_unavailable
                example_query EmptyString 1000 1%Q)
       = tr ++ [HttpGet (full_url source_config example_query page EmptyString);
                Stderr (warning_msg 2
                          (http_error_msg 503
                             (full_url source_config example_query 2 EmptyString)
                             "upstream"))]
     ∧ ∀ line', Stderr line' ∉ tr)
  ∧ ∃ res, out (fetch_all (H := example_builtins) source_config net_second_unavailable
                  example_query EmptyString 1000 1%Q) = Returns res.
Proof.
  apply (fetch_all_warning_last (H := example_builtins) source_config
           net_second_unavailable example_query EmptyString 1000 1%Q
           (warning_msg 2
              (http_error_msg 503 (full_url source_config example_query 2 EmptyString)
                 "upstream"))).
  vm_compute. apply list_elem_of_further, list_elem_of_further, list_elem_of_here.
Defined.

(** X4.  With a maximum of zero or less the loop never runs: page 1 is
    the only request, whatever the server answers. *)
Theorem fetch_all_no_room `{Py.Builtins} (cfg : Config) (net : Network)
    (query facets : string) (max_results : Z) (sleep_s : Q) :
  max_results ≤ 0 →
  trace (fetch_all cfg net query facets max_results sleep_s)
  = [HttpGet (full_url cfg query 1 facets)].
Proof.
  intros Hmax.
  destruct (fetch_all_course cfg net query facets max_results sleep_s)
    as (j & ending & -> & Hlen & Hend).
  replace (Z.to_nat max_results) with 0%nat in Hlen by lia.
  destruct j; [|lia].
  destruct Hend as [->|[->|(msg & res & -> & _)]]; [done | cbn in Hlen; lia..].
Qed.

Lemma fetch_all_no_room_witness :
  trace (fetch_all (H := example_builtins) source_config net_five
           example_query EmptyString 0 1%Q)
  = [HttpGet (full_url source_config example_query 1 EmptyString)].
Proof.
  apply (fetch_all_no_room (H := example_builtins)). lia.
Defined.

(** ** What the accumulator returns *)

Section Returned.
Context `{Py.Builtins} (cfg : Config) (net : Network).
Context (query facets : string) (max_results : Z) (sleep_s : Q).

(** A returning run has gathered the pages up to some page. *)
Lemma fetch_all_gathered ms total facets_obj :
  out (fetch_all cfg net query facets max_results sleep_s)
  = Returns (ms, total, facets_obj) →
  ∃ n, (1 ≤ n)%nat
       ∧ ms = Py.slice_to (first_seen (pages_upto cfg net query facets n)) max_results.
Proof.
  intros (first & batch & a1 & n1 & a & Hserved & Hget & Hadd & Hloop & ->)%fetch_all_returns.
  pose proof (gathered_first _ _ _ _ _ _ _ _ Hserved Hget Hadd) as Hg1.
  change 1 with (Z.of_nat 1) in Hloop.
  destruct (loop_gathered _ _ _ _ _ _ _ _ _ _ _ (le_n 1) Hg1 Hloop) as (n & Hn & [Hm _]).
  exists n. by rewrite Hm.
Qed.

Lemma fetch_all_returns_keys ms total facets_obj :
  out (fetch_all cfg net query facets max_results sleep_s)
  = Returns (ms, total, facets_obj) →
  ∃ ks, keys_of ms = Ret ks.
Proof.
  intros (n & _ & ->)%fetch_all_gathered.
  destruct (first_seen_from_keys ∅ (pages_upto cfg net query facets n))
    as (ks & Hks & _).
  destruct (keys_of_slice _ ks max_results Hks) as (ks' & Hks' & _). by exists ks'.
Qed.

Lemma first_seen_from_sublist s l : first_seen_from s l `sublist_of` l.
Proof.
  revert s. induction l as [|m l IH]; intros s; cbn [first_seen_from]; [done |].
  destruct (match_key m) as [k|]; [|by apply sublist_cons].
  destruct (decide (k ∈ s)); [by apply sublist_cons | by apply sublist_skip].
Qed.

Lemma slice_to_sublist {A} (l : list A) n : Py.slice_to l n `sublist_of` l.
Proof. unfold Py.slice_to. destruct (0 <=? n); apply sublist_take. Qed.

End Returned.

(** X5.  With a maximum that is not negative, the accumulator never
    returns more matches than the maximum. *)
Theorem fetch_all_at_most_maximum `{Py.Builtins} (cfg : Config) (net : Network)
    (query facets : string) (max_results : Z) (sleep_s : Q)
    (ms : list json) (total : Z) (facets_obj : option json) :
  0 ≤ max_results →
  out (fetch_all cfg net query facets max_results sleep_s)
  = Returns (ms, total, facets_obj) →
  Z.of_nat (length ms) ≤ max_results.
Proof.
  intros Hmax (first & batch & a1 & n1 & a & _ & _ & _ & _ & ->)%fetch_all_returns.
  unfold Py.slice_to. destruct (0 <=? max_results) eqn:E; [|lia].
  rewrite length_take. lia.
Qed.

Lemma fetch_all_at_most_maximum_witness :
  Z.of_nat (length [h1; h2; h3]) ≤ 3.
Proof.
  apply (fetch_all_at_most_maximum (H := example_builtins) source_config net_five
           example_query EmptyString 3 1%Q [h1; h2; h3] 5 None).
  - lia.
  - reflexivity.
Defined.

(** X6.  The accumulator returns matches as the server sent them on
    the pages it requested, in the order it sent them: when the run
    has requested pages 1..k, the returned list is a subsequence of
    the match lists of these k pages, one after the other. *)
Theorem fetch_all_returns_served `{Py.Builtins} (cfg : Config) (net : Network)
    (query facets : string) (max_results : Z) (sleep_s : Q)
    (ms : list json) (total : Z) (facets_obj : option json)
    (r := fetch_all cfg net query facets max_results sleep_s) :
  out r = Returns (ms, total, facets_obj) →
  ∃ k, (1 ≤ k)%nat
       ∧ requests (trace r) = page_urls cfg query facets k
       ∧ ms `sublist_of` pages_upto cfg net query facets k.
Proof.
  intros (k & Hk & Hreq & ->)%fetch_all_requested. exists k. split_and!; [done..|].
  etransitivity; [apply slice_to_sublist | apply first_seen_from_sublist].
Qed.

Lemma fetch_all_returns_served_witness :
  ∃ k, (1 ≤ k)%nat
       ∧ requests (trace (fetch_all (H := example_builtins) source_config net_five
                            example_query EmptyString 3 1%Q))
         = page_urls source_config example_query EmptyString k
       ∧ [h1; h2; h3] `sublist_of`
           pages_upto source_config net_five example_query EmptyString k.
Proof.
  apply (fetch_all_returns_served (H := example_builtins) source_config net_five
           example_query EmptyString 3 1%Q [h1; h2; h3] 5 None).
  reflexivity.
Defined.

Lemma fetch_all_returns_first `{Py.Builtins} (cfg : Config) (net : Network)
    (query facets : string) (max_results : Z) (sleep_s : Q)
    (ms : list json) (total : Z) (facets_obj : option json) :
  out (fetch_all cfg net query facets max_results sleep_s)
  = Returns (ms, total, facets_obj) →
  ∃ first f,
    serves cfg net query 1 facets first
    ∧ Py.get first "total" (JInt 0) ≫= Py.int = Ret total
    ∧ Py.get first "facets" JNull = Ret f
    ∧ facets_obj = (if Py.truthy f then Some f else None).
Proof.
  unfold fetch_all.
  intros (first & Hfirst%http_get_returns & Hrest)%bind_out_returns.
  apply bind_out_returns in Hrest as (t & Ht%lift_returns & Hrest).
  apply bind_out_returns in Hrest as (f & Hf%lift_returns & Hrest).
  apply bind_out_returns in Hrest as (batch & Hbatch%lift_returns & Hrest).
  apply bind_out_returns in Hrest as ([a1 n1] & Hadd%lift_returns & Hrest).
  apply bind_out_returns in Hrest as (a & Hloop & Hret).
  injection Hret as <- <- <-. by exists first, f.
Qed.

(** X7.  The reported total and the facets come from the first page
    alone: the total is [int] of its [total] field (0 when absent),
    the facets are its [facets] field when that is not empty.  No
    later page changes them. *)
Theorem fetch_all_total_and_facets `{Py.Builtins} (cfg : Config) (net : Network)
    (query facets : string) (max_results : Z) (sleep_s : Q)
    (ms : list json) (total : Z) (facets_obj : option json) :
  out (fetch_all cfg net query facets max_results sleep_s)
  = Returns (ms, total, facets_obj) →
  ∃ first f,
    serves cfg net query 1 facets first
    ∧ Py.get first "total" (JInt 0) ≫= Py.int = Ret total
    ∧ Py.get first "facets" JNull = Ret f
    ∧ facets_obj = (if Py.truthy f then Some f else None).
Proof. apply fetch_all_returns_first. Qed.

Lemma fetch_all_total_and_facets_witness :
  ∃ first f,
    serves source_config net_five example_query 1 EmptyString first
    ∧ Py.get first "total" (JInt 0) ≫= Py.int (H := example_builtins) = Ret 5
    ∧ Py.get first "facets" JNull = Ret f
    ∧ None = (if Py.truthy f then Some f else None).
Proof.
  apply (fetch_all_total_and_facets (H := example_builtins) source_config net_five
           example_query EmptyString 3 1%Q [h1; h2; h3] 5 None).
  reflexivity.
Defined.

(** ** Merging twice *)

Lemma add_each_keys_of `{Py.Builtins} ms a n r :
  add_each ms a n = Ret r → ∃ ks, keys_of ms = Ret ks.
Proof.
  revert a n. induction ms as [|m ms IH]; intros a n; cbn; [by eexists |].
  intros (k & Hk & Hrest)%result_bind_ret. rewrite Hk. cbn.
  destruct (decide (k ∈ seen a)); apply IH in Hrest as [ks ->]; by eexists.
Qed.

Lemma add_each_again `{Py.Builtins} ms a n a' n' :
  add_each ms a n = Ret (a', n') → add_each ms a' 0 = Ret (a', 0).
Proof.
  intros Hadd. destruct (add_each_keys_of _ _ _ _ Hadd) as [ks Hks].
  pose proof (add_each_spec _ _ _ _ _ Hadd) as (_ & Hseen & _).
  destruct (add_each_keys ms ks a' 0 Hks) as (a2 & n2 & Hadd2).
  pose proof (add_each_spec _ _ _ _ _ Hadd2) as (Hm2 & Hs2 & Hn2).
  assert (first_seen_from (seen a') ms = []) as Hknown.
  { apply (first_seen_from_known _ _ ks); [done |].
    intros k Hk. rewrite Hseen, (key_set_keys _ ks) by done.
    apply elem_of_union_l. by apply elem_of_list_to_set. }
  rewrite Hknown in Hm2, Hn2. rewrite app_nil_r in Hm2. rewrite Hadd2. do 2 f_equal; [|cbn in Hn2; lia].
  destruct a2 as [m2 s2], a' as [m' s']. cbn in *. f_equal; [done |].
  rewrite Hs2, Hseen. set_solver.
Qed.

(** X8.  Merging is idempotent: a batch that has just been merged adds
    nothing when it is merged again, and leaves the state as it is. *)
Theorem add_batch_twice `{Py.Builtins} (batch : json) (a a' : acc) (added : Z) :
  add_batch batch a = Ret (a', added) → add_batch batch a' = Ret (a', 0).
Proof.
  intros Hadd. destruct (Py.truthy batch) eqn:Hb.
  - destruct (add_batch_truthy _ _ _ Hb Hadd) as [l ->].
    rewrite add_batch_list in *. by eapply add_each_again.
  - rewrite add_batch_falsy in Hadd by done. injection Hadd as <- <-.
    by apply add_batch_falsy.
Qed.

Lemma add_batch_twice_witness :
  add_batch (H := example_builtins) (JArr [h1; h2; h1])
    (Acc [h1; h2] ({[("10.0.0.2", 443)]} ∪ ({[("10.0.0.1", 80)]} ∪ ∅)))
  = Ret (Acc [h1; h2] ({[("10.0.0.2", 443)]} ∪ ({[("10.0.0.1", 80)]} ∪ ∅)), 0).
Proof.
  apply (add_batch_twice (H := example_builtins) (JArr [h1; h2; h1]) empty_acc _ 2).
  reflexivity.
Defined.

(** ** The report *)

Lemma for_each_forall {A} (f : A → result unit) (l : list A) :
  Forall (λ x, f x = Ret tt) l → for_each f l = Ret tt.
Proof. induction 1 as [|x l Hx _ IH]; cbn; [done |]. by rewrite Hx. Qed.

Lemma match_key_dict `{Py.Builtins} m k : match_key m = Ret k → ∃ o, m = JObj o.
Proof. destruct m; try done. by eexists. Qed.

Lemma keys_of_dicts `{Py.Builtins} ms ks :
  keys_of ms = Ret ks → Forall (λ m, ∃ o, m = JObj o) ms.
Proof.
  revert ks. induction ms as [|m ms IH]; intros ks Hks; [constructor |].
  apply keys_of_cons in Hks as (k & ks' & Hk & Hks' & ->).
  constructor; [by eapply match_key_dict | by eapply IH].
Qed.

Lemma summary_row_dict o : summary_row (JObj o) = Ret tt.
Proof. unfold summary_row. cbn. by destruct (Py.truthy _). Qed.

(** X9.  The summary never fails on what the accumulator returns: its
    record accesses succeed on every returned match. *)
Theorem print_summary_of_fetched `{Py.Builtins} (cfg : Config) (net : Network)
    (query facets : string) (max_results : Z) (sleep_s : Q)
    (ms : list json) (total : Z) (facets_obj : option json) :
  out (fetch_all cfg net query facets max_results sleep_s)
  = Returns (ms, total, facets_obj) →
  print_summary ms = IO [Stdout (Summary ms)] (Returns tt).
Proof.
  intros (ks & Hks%keys_of_dicts)%fetch_all_returns_keys.
  unfold print_summary. rewrite for_each_forall; [done |].
  eapply Forall_impl; [done |]. intros m [o ->]. apply summary_row_dict.
Qed.

Lemma print_summary_of_fetched_witness :
  print_summary [h1; h2; h3] = IO [Stdout (Summary [h1; h2; h3])] (Returns tt).
Proof.
  apply (print_summary_of_fetched (H := example_builtins) source_config net_five
           example_query EmptyString 3 1%Q [h1; h2; h3] 5 None).
  reflexivity.
Defined.

Lemma get_or_dict v k :
  Py.get (Py.or v (JObj [])) k JNull
  = if negb (Py.truthy v) || is_dict v
    then Ret (match v with JObj o => default JNull (Py.assoc k o) | _ => JNull end)
    else Raise Py.AttributeError.
Proof.
  unfold Py.or. destruct v as [|[]|z|s|[|x l]|[|x o]]; cbn; try done.
  - by destruct (z =? 0).
  - by destruct s.
Qed.

Lemma table_row_spec m :
  table_row m = if table_row_ok m then Ret tt else Raise Py.AttributeError.
Proof.
  destruct m as [| | | | |o]; try done.
  unfold table_row, table_row_ok.
  change (Py.get (JObj o)) with (λ k d, Ret (default d (Py.assoc k o))). cbv beta.
  cbn [mbind result_bind]. rewrite !get_or_dict.
  destruct (Py.truthy (default JNull (Py.assoc "ip_str" o)));
    destruct (Py.truthy (default JNull (Py.assoc "product" o)));
    destruct (Py.truthy (default JNull (Py.assoc "_shodan" o)));
    destruct (is_dict (default JNull (Py.assoc "_shodan" o)));
    destruct (Py.truthy (default JNull (Py.assoc "location" o)));
    destruct (is_dict (default JNull (Py.assoc "location" o))); done.
Qed.

Lemma for_each_table_row rs :
  for_each table_row rs
  = if forallb table_row_ok rs then Ret tt else Raise Py.AttributeError.
Proof.
  induction rs as [|m rs IH]; [done |]. cbn [for_each forallb].
  rewrite table_row_spec. destruct (table_row_ok m); cbn; [apply IH | done].
Qed.

Lemma print_results_spec (results : list json) :
  print_results results
  = IO [Stdout (Table results)]
       (if forallb table_row_ok results then Returns tt else Raises Py.AttributeError).
Proof.
  unfold print_results. rewrite bind_emit, for_each_table_row.
  by destruct (forallb table_row_ok results).
Qed.

(** X10.  Printing the table fails exactly on a match that is not a
    dict, whose location is neither empty nor a dict, or that has no
    product and a module holder ([_shodan]) neither empty nor a dict;
    the exception is then AttributeError, raised after the table has
    begun. *)
Theorem print_results_outcome (results : list json) :
  print_results results
  = IO [Stdout (Table results)]
       (if forallb table_row_ok results then Returns tt else Raises Py.AttributeError).
Proof. apply print_results_spec. Qed.

(** ** A run that succeeds *)

Lemma print_facets_returns (facets_obj : option json) :
  out (print_facets facets_obj) = Returns tt →
  trace (print_facets facets_obj)
  = match facets_obj with
    | Some f => if Py.truthy f then [Stdout (FacetListing f)] else []
    | None => []
    end.
Proof.
  unfold print_facets. destruct facets_obj as [f|]; [|done].
  destruct (Py.truthy f); [|done]. rewrite bind_emit. cbn.
  by destruct (Py.items f ≫= for_each facet_entry).
Qed.

Lemma reporting_returns `{Py.Builtins} results total facets_obj :
  out (reporting results total facets_obj) = Returns tt →
  trace (reporting results total facets_obj)
  = Stdout (Totals total (length results))
    :: match facets_obj with
       | Some f => if Py.truthy f then [Stdout (FacetListing f)] else []
       | None => []
       end
    ++ [Stdout (Table results); Stdout (Summary results)].
Proof.
  unfold reporting. rewrite bind_emit. cbn [out trace].
  intros (u1 & Hfacets & Hrest)%bind_out_returns. destruct u1.
  apply bind_out_returns in Hrest as (u2 & Hresults & Hsummary). destruct u2.
  rewrite (bind_returns _ _ _ Hfacets). cbn [trace].
  rewrite (print_facets_returns _ Hfacets).
  rewrite (bind_returns _ _ _ Hresults). cbn [trace].
  rewrite print_results_spec in Hresults |- *. cbn [trace].
  unfold print_summary in *.
  destruct (for_each summary_row results) as [[]|e]; [|done]. cbn.
  done.
Qed.

(** X11.  A run that succeeds has printed, in this order: the banner,
    then, after all requests, the counters, the facets if the first
    page carried any, the table and the summary, each once.  The
    downloaded count it prints is the number of matches in the table. *)
Theorem main_success_order `{Py.Builtins} (cfg : Config) (net : Network) :
  out (main cfg net) = Returns tt →
  ∃ q ms total facets_obj,
    build_query cfg = Ret q
    ∧ out (fetch_all cfg net q (FACETS cfg) (MAX_RESULTS cfg) (SLEEP_SECONDS cfg))
      = Returns (ms, total, facets_obj)
    ∧ trace (main cfg net)
      = Stdout (Banner q)
        :: trace (fetch_all cfg net q (FACETS cfg) (MAX_RESULTS cfg) (SLEEP_SECONDS cfg))
        ++ Stdout (Totals total (length ms)) :: report_blocks ms facets_obj.
Proof.
  destruct (build_query cfg) as [q|e] eqn:Hq.
  2:{ by rewrite (main_query_refused cfg net e Hq). }
  rewrite (main_built cfg net q Hq). rewrite bind_emit. cbn [out trace].
  intros ([[ms total] facets_obj] & Hfetch & Hreport)%bind_out_returns.
  exists q, ms, total, facets_obj. split_and!; [done..|].
  rewrite (bind_returns _ _ _ Hfetch). cbn [trace].
  rewrite (reporting_returns _ _ _ Hreport). do 3 f_equal.
  unfold report_blocks.
  destruct (fetch_all_returns_first _ _ _ _ _ _ _ _ _ Hfetch) as (first & f & _ & _ & _ & ->).
  by destruct (Py.truthy f) eqn:Hf; [rewrite Hf |].
Qed.

Lemma main_success_order_witness :
  ∃ q ms total facets_obj,
    build_query source_config = Ret q
    ∧ out (fetch_all (H := example_builtins) source_config net_duplicates q
             (FACETS source_config) (MAX_RESULTS source_config)
             (SLEEP_SECONDS source_config))
      = Returns (ms, total, facets_obj)
    ∧ trace (main (H := example_builtins) source_config net_duplicates)
      = Stdout (Banner q)
        :: trace (fetch_all (H := example_builtins) source_config net_duplicates q
                    (FACETS source_config) (MAX_RESULTS source_config)
                    (SLEEP_SECONDS source_config))
        ++ Stdout (Totals total (length ms)) :: report_blocks ms facets_obj.
Proof.
  apply (main_success_order (H := example_builtins) source_config net_duplicates).
  reflexivity.
Defined.

(** ** The query builder and the city *)

Lemma contains_lower_fixed (t s : string) :
  Text.contains t (Text.lower s) = true → Text.lower t = t.
Proof.
  intros Hc. destruct (TextFacts.contains_split _ _ Hc) as (pre & post & Hs).
  destruct (TextFacts.lower_split _ _ _ Hs) as (pre' & rest & -> & _ & Hrest).
  destruct (TextFacts.lower_split _ _ _ Hrest) as (mid & post' & -> & <- & _).
  apply TextFacts.lower_idemp.
Qed.

(** X12.  The city is never checked: with additional filters free of
    prohibited terms the builder returns a query that begins with the
    country and the city text between double quotes, unchanged,
    whatever the city text holds -- a double quote, a prohibited term. *)
Theorem city_filter_unchecked (cfg : Config) (c : string) :
  city_configured cfg = Some c →
  free_of_prohibited cfg →
  ∃ rest, build_query cfg
          = Ret ("country:GT city:" +:+ Text.dquote +:+ c +:+ Text.dquote +:+ rest).
Proof.
  intros Hc Hfree. rewrite (build_query_free cfg Hfree).
  unfold built_query, base_query. rewrite Hc.
  exists (match Text.rstrip (ADDITIONAL_FILTERS cfg) with
          | EmptyString => EmptyString
          | r => " " +:+ r
          end).
  f_equal. generalize (match Text.rstrip (ADDITIONAL_FILTERS cfg) with
          | EmptyString => EmptyString
          | r => " " +:+ r
          end). intros rest. by rewrite <- !TextFacts.app_assoc.
Qed.

Lemma city_filter_unchecked_witness :
  ∃ rest, build_query (with_filters source_config
                         (Some ("x" +:+ Text.dquote +:+ " org:" +:+ Text.dquote +:+ "acme"))
                         "port:80")
          = Ret ("country:GT city:" +:+ Text.dquote
                 +:+ ("x" +:+ Text.dquote +:+ " org:" +:+ Text.dquote +:+ "acme")
                 +:+ Text.dquote +:+ rest).
Proof.
  apply (city_filter_unchecked
           (with_filters source_config
              (Some ("x" +:+ Text.dquote +:+ " org:" +:+ Text.dquote +:+ "acme"))
              "port:80")).
  - reflexivity.
  - intros t [->|[]%elem_of_nil]%elem_of_cons (pre & mid & post & Hs & Hmid).
    assert (Text.contains "org:" (Text.lower "port:80") = true) as Hcontra; [|done].
    apply TextFacts.contains_lower_occurs; [done |].
    by exists pre, mid, post.
Defined.

(** X13.  A prohibited keyword written with a capital letter prohibits
    nothing: the additional text is lowered before the search, the
    keyword is not.  When every configured keyword has such a letter,
    the builder refuses no query. *)
Theorem capital_keyword_never_matches (cfg : Config) :
  (∀ t, t ∈ PROHIBITED_KEYWORDS cfg → Text.lower t ≠ t) →
  ∃ q, build_query cfg = Ret q.
Proof.
  intros Hcap. unfold build_query.
  destruct (Text.nonempty (ADDITIONAL_FILTERS cfg)); [|by eexists].
  destruct (any_prohibited cfg _) eqn:Hany; [|by eexists].
  unfold any_prohibited in Hany.
  apply existsb_exists in Hany as (t & Hin%list_elem_of_In & Hc).
  destruct (Hcap t Hin). by eapply contains_lower_fixed.
Qed.

Lemma capital_keyword_never_matches_witness :
  ∃ q, build_query config_capital = Ret q.
Proof.
  apply (capital_keyword_never_matches config_capital).
  intros t [->|[]%elem_of_nil]%elem_of_cons. done.
Defined.

(** ** One URL, one request *)

Lemma unquote_first_quote_char (c : Ascii.ascii) (r : string) :
  unquote_first (Text.quote_char c +:+ r) = Some (c, r).
Proof. by destruct c as [[] [] [] [] [] [] [] []]. Qed.

Lemma quote_plus_inj (s t : string) :
  Text.quote_plus s = Text.quote_plus t → s = t.
Proof.
  revert t. induction s as [|c s IH]; intros [|d t] Heq.
  - done.
  - apply (f_equal unquote_first) in Heq. cbn [Text.quote_plus] in Heq.
    by rewrite unquote_first_quote_char in Heq.
  - apply (f_equal unquote_first) in Heq. cbn [Text.quote_plus] in Heq.
    by rewrite unquote_first_quote_char in Heq.
  - apply (f_equal unquote_first) in Heq. cbn [Text.quote_plus] in Heq.
    rewrite !unquote_first_quote_char in Heq. injection Heq as -> Heq.
    f_equal. by apply IH.
Qed.

Lemma contains_amp_cons (c : Ascii.ascii) (s : string) :
  Text.contains amp (String c s)
  = (Text.code c =? 38)%N || Text.contains amp s.
Proof.
  change (Text.contains amp (String c s))
    with (String.prefix amp (String c s) || Text.contains amp s).
  f_equal. unfold amp. cbn [String.prefix].
  destruct (Ascii.ascii_dec _ c) as [<-|Hne].
  - by destruct s.
  - symmetry. apply N.eqb_neq. intros Hc. apply Hne.
    rewrite <- (Ascii.ascii_N_embedding c). unfold Text.code in Hc. by rewrite Hc.
Qed.

Lemma contains_amp_app (a b : string) :
  Text.contains amp (a +:+ b) = Text.contains amp a || Text.contains amp b.
Proof.
  induction a as [|c a IH].
  - by destruct b.
  - cbn [String.append]. rewrite !contains_amp_cons, IH. by rewrite orb_assoc.
Qed.

Lemma quote_char_no_amp (c : Ascii.ascii) : Text.contains amp (Text.quote_char c) = false.
Proof. by destruct c as [[] [] [] [] [] [] [] []]. Qed.

Lemma quote_plus_no_amp (s : string) : Text.contains amp (Text.quote_plus s) = false.
Proof.
  induction s as [|c s IH]; [done |].
  cbn [Text.quote_plus]. by rewrite contains_amp_app, quote_char_no_amp, IH.
Qed.

(** A text without [&] ends where the first [&] stands. *)
Lemma split_at_amp (a a' b b' : string) :
  Text.contains amp a = false → Text.contains amp a' = false →
  a +:+ amp +:+ b = a' +:+ amp +:+ b' → a = a' ∧ b = b'.
Proof.
  revert a'. induction a as [|c a IH]; intros [|c' a'] Ha Ha' Heq.
  - by injection Heq.
  - rewrite contains_amp_cons in Ha'. apply orb_false_iff in Ha' as [Hc _].
    injection Heq as <- _. done.
  - rewrite contains_amp_cons in Ha. apply orb_false_iff in Ha as [Hc _].
    injection Heq as -> _. done.
  - rewrite contains_amp_cons in Ha, Ha'.
    apply orb_false_iff in Ha as [_ Ha]. apply orb_false_iff in Ha' as [_ Ha'].
    injection Heq as -> Heq. destruct (IH _ Ha Ha' Heq) as [-> ->]. done.
Qed.

Lemma no_amp_end (a a' b' : string) :
  Text.contains amp a = false → a ≠ a' +:+ amp +:+ b'.
Proof.
  intros Ha ->. rewrite !contains_amp_app in Ha.
  apply orb_false_iff in Ha as [_ Ha]. apply orb_false_iff in Ha as [Ha _]. done.
Qed.

Lemma text_app_inv_head (p a b : string) : p +:+ a = p +:+ b → a = b.
Proof. induction p as [|c p IH]; [done |]. intros [= Heq]. by apply IH. Qed.

Lemma full_url_unfold (cfg : Config) (query : string) (page : Z) (facets : string) :
  full_url cfg query page facets
  = (endpoint +:+ "?" +:+ Text.quote_plus "key" +:+ "="
     +:+ Text.quote_plus (SHODAN_API_KEY cfg) +:+ "&" +:+ Text.quote_plus "query" +:+ "=")
    +:+ Text.quote_plus query +:+ amp
    +:+ (Text.quote_plus "page" +:+ "=")
    +:+ Text.quote_plus (pretty page)
    +:+ (if Text.nonempty facets
         then amp +:+ (Text.quote_plus "facets" +:+ "=") +:+ Text.quote_plus facets
         else EmptyString).
Proof.
  unfold full_url, request_params, Text.urlencode.
  destruct (Text.nonempty facets); cbn [app fmap list_fmap String.concat fst snd].
  - generalize (Text.quote_plus "key") (Text.quote_plus (SHODAN_API_KEY cfg))
      (Text.quote_plus "query") (Text.quote_plus query) (Text.quote_plus "page")
      (Text.quote_plus (pretty page)) (Text.quote_plus "facets") (Text.quote_plus facets).
    intros s1 s2 s3 s4 s5 s6 s7 s8. unfold amp.
    by rewrite !TextFacts.app_assoc.
  - generalize (Text.quote_plus "key") (Text.quote_plus (SHODAN_API_KEY cfg))
      (Text.quote_plus "query") (Text.quote_plus query) (Text.quote_plus "page")
      (Text.quote_plus (pretty page)).
    intros s1 s2 s3 s4 s5 s6. unfold amp.
    by rewrite !TextFacts.app_assoc, ?TextFacts.app_empty_r.
Qed.

Lemma full_url_determines (cfg : Config) (query query' : string) (page page' : Z)
    (facets facets' : string) :
  full_url cfg query page facets = full_url cfg query' page' facets' →
  query = query' ∧ page = page' ∧ facets = facets'.
Proof.
  rewrite !full_url_unfold. intros Heq%text_app_inv_head.
  apply split_at_amp in Heq as [Hq%quote_plus_inj Heq]; [|apply quote_plus_no_amp..].
  split; [done |]. apply text_app_inv_head in Heq.
  assert (Text.contains amp (Text.quote_plus (pretty page)) = false) as Hp
    by apply quote_plus_no_amp.
  assert (Text.contains amp (Text.quote_plus (pretty page')) = false) as Hp'
    by apply quote_plus_no_amp.
  destruct facets as [|x f], facets' as [|x' f']; cbn [Text.nonempty] in Heq.
  - rewrite !TextFacts.app_empty_r in Heq.
    apply quote_plus_inj in Heq. split; [|done]. by apply (inj pretty).
  - rewrite TextFacts.app_empty_r in Heq. by apply no_amp_end in Heq.
  - rewrite TextFacts.app_empty_r in Heq. symmetry in Heq. by apply no_amp_end in Heq.
  - apply split_at_amp in Heq as [Hpage%quote_plus_inj Heq]; [|done..].
    apply text_app_inv_head in Heq. apply quote_plus_inj in Heq.
    split; [by apply (inj pretty) | done].
Qed.

(** X14.  Nothing is lost in the URL: two requests with the same URL
    are for the same query, the same page and the same facets.  The
    server can tell any two requests of the program apart. *)
Theorem full_url_inj (cfg : Config) (query query' : string) (page page' : Z)
    (facets facets' : string) :
  full_url cfg query page facets = full_url cfg query' page' facets' →
  query = query' ∧ page = page' ∧ facets = facets'.
Proof. apply full_url_determines. Qed.

Lemma full_url_inj_witness :
  example_query = example_query ∧ 2 = 2 ∧ EmptyString = EmptyString.
Proof.
  apply (full_url_inj source_config example_query example_query 2 2
           EmptyString EmptyString).
  reflexivity.
Defined.

Lemma page_urls_NoDup (cfg : Config) (query facets : string) (k : nat) :
  NoDup (page_urls cfg query facets k).
Proof.
  unfold page_urls. apply NoDup_fmap_2_strong; [|apply NoDup_seq].
  intros i i' _ _ Heq. apply full_url_determines in Heq as (_ & Hpage & _). lia.
Qed.

(** X15.  The accumulator never requests the same URL twice. *)
Theorem fetch_all_requests_distinct `{Py.Builtins} (cfg : Config) (net : Network)
    (query facets : string) (max_results : Z) (sleep_s : Q) :
  NoDup (requests (trace (fetch_all cfg net query facets max_results sleep_s))).
Proof.
  destruct (fetch_all_page_urls cfg net query facets max_results sleep_s)
    as (k & _ & ->).
  apply page_urls_NoDup.
Qed.

(** ** The table *)

Lemma text_length_app (a b : string) :
  String.length (a +:+ b) = (String.length a + String.length b)%nat.
Proof. induction a as [|c a IH]; cbn; [done | by rewrite IH]. Qed.

Lemma length_spaces (n : nat) : String.length (spaces n) = n.
Proof. induction n as [|n IH]; cbn; [done | by rewrite IH]. Qed.

Lemma length_ljust (w : nat) (s : string) :
  String.length (ljust w s) = (w + (String.length s - w))%nat.
Proof. unfold ljust. rewrite text_length_app, length_spaces. lia. Qed.

Lemma length_cut (n : nat) (s : string) : (String.length (cut n s) ≤ n)%nat.
Proof.
  revert s. induction n as [|n IH]; intros [|c s]; cbn; try lia.
  specialize (IH s). lia.
Qed.

Lemma length_ljust_cut (w n : nat) (s : string) :
  (n ≤ w)%nat → String.length (ljust w (cut n s)) = w.
Proof. intros Hn. rewrite length_ljust. pose proof (length_cut n s). lia. Qed.

Lemma table_line_dict `{Py.Builtins} (m : json) (line : string) :
  table_line m = Ret line → ∃ o, m = JObj o.
Proof. destruct m; try done. by eexists. Qed.

Lemma Ret_inj {A} (a b : A) : Ret a = Ret b → a = b.
Proof. congruence. Qed.

(** The line is printed where the record accesses of [print_results]
    succeed, and only there. *)
Lemma table_line_row `{Py.Builtins} (m : json) :
  (table_line m ≫= λ _, Ret tt) = table_row m.
Proof.
  destruct m as [| | | | |o]; try done.
  unfold table_line, table_row. rewrite !get_dict, !result_bind_Ret.
  do 3 (match goal with |- _ = (?r ≫= _) => destruct r; [|done] end;
        rewrite !result_bind_Ret).
  done.
Qed.

Lemma table_line_length `{Py.Builtins} (m : json) (line : string) :
  table_line m = Ret line →
  String.length line
  = (String.length table_header
     + (String.length (normalize (address m)) - 18)
     + (String.length (normalize (field "port" m)) - 7)
     + (String.length (normalize (field "transport" m)) - 6))%nat.
Proof.
  intros Hline. destruct (table_line_dict _ _ Hline) as [o ->].
  unfold table_line in Hline. rewrite !get_dict, !result_bind_Ret in Hline.
  unfold address, field, Py.or in *.
  destruct (Py.truthy (default JNull (Py.assoc "ip_str" o)));
    cbv match in Hline |- *; rewrite !result_bind_Ret in Hline;
    (match type of Hline with (?r ≫= _) = _ => destruct r as [product|e]; [|done] end);
    rewrite !result_bind_Ret in Hline;
    (match type of Hline with (?r ≫= _) = _ => destruct r as [city|e]; [|done] end);
    rewrite !result_bind_Ret in Hline; apply Ret_inj in Hline as <-;
    rewrite !text_length_app, !length_ljust_cut by lia; rewrite !length_ljust;
    change (String.length table_header) with 144%nat;
    change (String.length " ") with 1%nat; lia.
Qed.

(** X16.  A line of the table is as wide as the header, 144
    characters, plus what the address, the port and the protocol
    exceed their columns of 18, 7 and 6: these three are never cut,
    the other five columns are cut to fit.  So the columns line up
    whenever the first three fit. *)
Theorem table_line_width `{Py.Builtins} (m : json) :
  table_row_ok m = true →
  ∃ line,
    table_line m = Ret line
    ∧ String.length table_header = 144%nat
    ∧ String.length line
      = (144
         + (String.length (normalize (address m)) - 18)
         + (String.length (normalize (field "port" m)) - 7)
         + (String.length (normalize (field "transport" m)) - 6))%nat.
Proof.
  intros Hok. pose proof (table_line_row m) as Hrow.
  rewrite table_row_spec, Hok in Hrow.
  destruct (table_line m) as [line|e] eqn:Hline; [|done].
  exists line. split_and!; [done..|].
  by rewrite (table_line_length m line Hline).
Qed.

Lemma table_line_width_witness :
  ∃ line,
    table_line (H := example_builtins) h5 = Ret line
    ∧ String.length table_header = 144%nat
    ∧ String.length line
      = (144
         + (String.length (normalize (H := example_builtins)
                             (address h5)) - 18)
         + (String.length (normalize (H := example_builtins) (field "port" h5)) - 7)
         + (String.length (normalize (H := example_builtins) (field "transport" h5)) - 6))%nat.
Proof.
  apply (table_line_width (H := example_builtins) h5). reflexivity.
Defined.

(** ** The summary *)

Section Summary.
Context `{Py.Builtins}.

Lemma int_raises (v : json) (e : exn) : Py.int v = Raise e → ∃ cls, e = Exception cls.
Proof.
  destruct v; cbn; try (intros [= <-]; by eexists); try done.
  destruct (Py.int_of_str s); [done |]. intros [= <-]. by eexists.
Qed.

(** What one match adds to the figures. *)
Lemma summary_add_spec (m : json) (s0 s : summary) :
  summary_add m s0 = Ret s →
  (∃ o, m = JObj o)
  ∧ unique_ips s
    = (if Py.truthy (address m) then {[Py.str (address m)]} ∪ unique_ips s0
       else unique_ips s0)
  ∧ port_to_ips s
    = match port_of m with
      | Some p =>
          <[p := {[Py.str (address m)]} ∪ default ∅ (port_to_ips s0 !! p)]> (port_to_ips s0)
      | None => port_to_ips s0
      end.
Proof.
  destruct m as [| | | | |o]; try done.
  intros Hadd. split; [by eexists |]. revert Hadd.
  unfold summary_add, address, port_of, field, Py.or.
  rewrite !get_dict, !result_bind_Ret.
  destruct (Py.truthy (default JNull (Py.assoc "ip_str" o))); cbv match;
    rewrite ?get_dict, ?result_bind_Ret;
    (destruct (default JNull (Py.assoc "port" o)) as [|b|z|t|l|o'] eqn:Hport;
      [by intros <-%Ret_inj|..]);
    (match goal with
     | |- context [Py.int ?v] =>
         destruct (Py.int v) as [p|e] eqn:Hint;
           [by intros <-%Ret_inj
           |destruct (int_raises _ _ Hint) as [cls ->]; by intros <-%Ret_inj]
     end).
Qed.

Lemma summary_add_dict (o : list (string * json)) (s0 : summary) :
  ∃ s, summary_add (JObj o) s0 = Ret s.
Proof.
  unfold summary_add. rewrite !get_dict, !result_bind_Ret.
  destruct (Py.truthy (default JNull (Py.assoc "ip_str" o))); cbv match;
    rewrite ?get_dict, ?result_bind_Ret;
    (destruct (default JNull (Py.assoc "port" o)) as [|b|z|t|l|o'] eqn:Hport;
      [by eexists|..]);
    (match goal with
     | |- context [Py.int ?v] =>
         destruct (Py.int v) as [p|e] eqn:Hint;
           [by eexists | destruct (int_raises _ _ Hint) as [cls ->]; by eexists]
     end).
Qed.

(** The counting loop fails where the record accesses of
    [print_summary] fail, and only there. *)
Lemma summarize_rows (results : list json) (s0 : summary) :
  (summarize results s0 ≫= λ _, Ret tt) = for_each summary_row results.
Proof.
  revert s0. induction results as [|m results IH]; intros s0; [done |].
  cbn [summarize for_each]. destruct m as [| | | | |o]; try done.
  destruct (summary_add_dict o s0) as [s ->]. rewrite result_bind_Ret.
  rewrite summary_row_dict, result_bind_Ret. apply IH.
Qed.

Lemma summarize_spec (results : list json) (s0 s : summary) :
  summarize results s0 = Ret s →
  (∀ x, x ∈ unique_ips s ↔
        x ∈ unique_ips s0
        ∨ ∃ m, m ∈ results ∧ Py.truthy (address m) = true ∧ Py.str (address m) = x)
  ∧ (∀ p x, x ∈ default ∅ (port_to_ips s !! p) ↔
            x ∈ default ∅ (port_to_ips s0 !! p)
            ∨ ∃ m, m ∈ results ∧ port_of m = Some p ∧ Py.str (address m) = x)
  ∧ (∀ p, is_Some (port_to_ips s !! p) ↔
          is_Some (port_to_ips s0 !! p) ∨ ∃ m, m ∈ results ∧ port_of m = Some p).
Proof.
  revert s0. induction results as [|m results IH]; intros s0.
  - intros <-%Ret_inj. split_and!.
    + intros x. split; [by left |]. intros [?|(m & []%elem_of_nil & _)]. done.
    + intros p x. split; [by left |]. intros [?|(m & []%elem_of_nil & _)]. done.
    + intros p. split; [by left |]. intros [?|(m & []%elem_of_nil & _)]. done.
  - cbn [summarize]. destruct (summary_add m s0) as [s1|e] eqn:Hadd; [|done].
    rewrite result_bind_Ret. intros Hrest.
    destruct (summary_add_spec _ _ _ Hadd) as (_ & Hu & Hp).
    destruct (IH _ Hrest) as (IHu & IHp & IHd). split_and!.
    + intros x. rewrite IHu, Hu. split.
      * intros [Hx|(m' & Hin & Ht & Hs)].
        -- destruct (Py.truthy (address m)) eqn:Ht; [|by left].
           apply elem_of_union in Hx as [->%elem_of_singleton|Hx]; [|by left].
           right. exists m. split_and!; [apply list_elem_of_here | done..].
        -- right. exists m'. split_and!; [by apply list_elem_of_further | done..].
      * intros [Hx|(m' & [->|Hin]%elem_of_cons & Ht & Hs)].
        -- left. destruct (Py.truthy (address m)); [|done].
           apply elem_of_union. by right.
        -- left. rewrite Ht. apply elem_of_union. left. by apply elem_of_singleton.
        -- right. by exists m'.
    + intros p x. rewrite IHp, Hp. split.
      * intros [Hx|(m' & Hin & Hport & Hs)].
        -- destruct (port_of m) as [q|] eqn:Hq; [|by left].
           destruct (decide (p = q)) as [->|Hne].
           ++ rewrite lookup_insert_eq in Hx. cbn in Hx.
              apply elem_of_union in Hx as [->%elem_of_singleton|Hx]; [|by left].
              right. exists m. split_and!; [apply list_elem_of_here | done..].
           ++ rewrite lookup_insert_ne in Hx by done. by left.
        -- right. exists m'. split_and!; [by apply list_elem_of_further | done..].
      * intros [Hx|(m' & [->|Hin]%elem_of_cons & Hport & Hs)].
        -- left. destruct (port_of m) as [q|] eqn:Hq; [|done].
           destruct (decide (p = q)) as [->|Hne].
           ++ rewrite lookup_insert_eq. cbn. apply elem_of_union. by right.
           ++ by rewrite lookup_insert_ne.
        -- left. rewrite Hport, lookup_insert_eq. cbn.
           apply elem_of_union. left. by apply elem_of_singleton.
        -- right. by exists m'.
    + intros p. rewrite IHd, Hp. split.
      * intros [Hx|(m' & Hin & Hport)].
        -- destruct (port_of m) as [q|] eqn:Hq; [|by left].
           destruct (decide (p = q)) as [->|Hne].
           ++ right. exists m. split; [apply list_elem_of_here | done].
           ++ rewrite lookup_insert_ne in Hx by done. by left.
        -- right. exists m'. split; [by apply list_elem_of_further | done].
      * intros [Hx|(m' & [->|Hin]%elem_of_cons & Hport)].
        -- left. destruct (port_of m) as [q|] eqn:Hq; [|done].
           destruct (decide (p = q)) as [->|Hne].
           ++ by rewrite lookup_insert_eq.
           ++ by rewrite lookup_insert_ne.
        -- left. by rewrite Hport, lookup_insert_eq.
        -- right. by exists m'.
Qed.

End Summary.

(** X17.  What the summary counts.  The unique addresses are the text
    forms of the addresses that are not empty.  Under a port stand the
    text forms of the addresses of all matches with that port -- of an
    empty address too, so that a match without address is counted
    under its port as the address [None] -- and a port has a line when
    some match has it.  A port that [int] refuses gives no line. *)
Theorem summary_counts `{Py.Builtins} (results : list json) (s : summary) :
  summarize results no_summary = Ret s →
  (∀ x, x ∈ unique_ips s ↔
        ∃ m, m ∈ results ∧ Py.truthy (address m) = true ∧ Py.str (address m) = x)
  ∧ (∀ p x, x ∈ default ∅ (port_to_ips s !! p) ↔
            ∃ m, m ∈ results ∧ port_of m = Some p ∧ Py.str (address m) = x)
  ∧ (∀ p, is_Some (port_to_ips s !! p) ↔ ∃ m, m ∈ results ∧ port_of m = Some p).
Proof.
  intros (Hu & Hp & Hd)%summarize_spec. split_and!.
  - intros x. rewrite Hu. split; [|by right]. intros [Hx|?]; [|done].
    by apply not_elem_of_empty in Hx.
  - intros p x. rewrite Hp. split; [|by right]. intros [Hx|?]; [|done].
    cbn in Hx. rewrite lookup_empty in Hx. by apply not_elem_of_empty in Hx.
  - intros p. rewrite Hd. split; [|by right]. intros [Hx|?]; [|done].
    cbn in Hx. rewrite lookup_empty in Hx. by destruct Hx.
Qed.

Lemma summary_counts_witness :
  let results := [host "190.0.0.1" 80; JObj [("port", JInt 80)]; host "190.0.0.2" 443] in
  ∃ s, summarize (H := example_builtins) results no_summary = Ret s
       ∧ size (unique_ips s) = 2%nat
       ∧ "None" ∈ default ∅ (port_to_ips s !! 80).
Proof.
  intros results.
  destruct (summarize (H := example_builtins) results no_summary) as [s|e] eqn:Hs;
    [|done].
  exists s. split; [done |].
  destruct (summary_counts (H := example_builtins) results s Hs) as (Hu & Hp & _).
  split.
  - apply Ret_inj in Hs as <-. by vm_compute.
  - apply Hp. exists (JObj [("port", JInt 80)]). split_and!; [|done..].
    apply list_elem_of_further, list_elem_of_here.
Defined.

(** ** The port lines *)

#[local] Instance items_le_total : Total items_le.
Proof. intros a b. unfold items_le, tuple_le. lia. Qed.

#[local] Instance items_le_trans : Transitive items_le.
Proof. intros a b c. unfold items_le, tuple_le. lia. Qed.

Lemma port_rows_elem (s : summary) (p : Z) (n : nat) :
  (p, n) ∈ port_rows s ↔ ∃ ips, port_to_ips s !! p = Some ips ∧ n = size ips.
Proof.
  unfold port_rows. rewrite list_elem_of_fmap. split.
  - intros ([q ips] & [= -> ->] & Hin). rewrite merge_sort_Permutation in Hin.
    apply elem_of_map_to_list in Hin. by exists ips.
  - intros (ips & Hp & ->). exists (p, ips). split; [done |].
    rewrite merge_sort_Permutation. by apply elem_of_map_to_list.
Qed.

Lemma port_rows_ports (s : summary) : (port_rows s).*1 ≡ₚ (map_to_list (port_to_ips s)).*1.
Proof.
  unfold port_rows. rewrite <- (merge_sort_Permutation items_le (map_to_list _)) at 2.
  generalize (merge_sort items_le (map_to_list (port_to_ips s))).
  intros l. induction l as [|kv l IH]; [done |]. cbn. by rewrite IH.
Qed.

Lemma port_rows_total (s : summary) :
  sum_list_with snd (port_rows s)
  = sum_list_with (λ kv, size kv.2) (map_to_list (port_to_ips s)).
Proof.
  unfold port_rows. rewrite <- (merge_sort_Permutation items_le (map_to_list _)) at 2.
  generalize (merge_sort items_le (map_to_list (port_to_ips s))).
  intros l. induction l as [|kv l IH]; [done |]. cbn. by rewrite IH.
Qed.

(** X18.  The port lines of the summary: one line for every port of
    the table of ports, with the number of addresses under it; no port
    twice; lines with more addresses first, and among lines with as
    many addresses the lower port first. *)
Theorem port_rows_sorted (s : summary) :
  (∀ p n, (p, n) ∈ port_rows s ↔ ∃ ips, port_to_ips s !! p = Some ips ∧ n = size ips)
  ∧ NoDup (port_rows s).*1
  ∧ StronglySorted row_before (port_rows s).
Proof.
  split_and!.
  - apply port_rows_elem.
  - rewrite port_rows_ports. apply NoDup_fst_map_to_list.
  - unfold port_rows.
    apply (StronglySorted_fmap _ items_le); [|apply StronglySorted_merge_sort; apply _].
    intros [p ips] [q ips']. unfold items_le, tuple_le, row_before, sort_key. cbn. lia.
Qed.

(** ** The summary of what was downloaded *)

Section Counted.
Context `{Py.Builtins}.

(** The identity key of the accumulator is the address and the port
    as the summary reads them. *)
Lemma match_key_summary (m : json) (k : key) :
  match_key m = Ret k →
  k.1 = Py.str (address m)
  ∧ port_of m = (if has_port m then Some k.2 else None).
Proof.
  destruct m as [| | | | |o]; try done.
  unfold match_key, address, port_of, has_port, field, Py.or.
  rewrite !get_dict, !result_bind_Ret.
  destruct (Py.truthy (default JNull (Py.assoc "ip_str" o))); cbv match;
    rewrite ?get_dict, ?result_bind_Ret;
    (destruct (default JNull (Py.assoc "port" o)) as [|b|z|t|l|o'] eqn:Hport;
      [by intros <-%Ret_inj|..]);
    (match goal with
     | |- context [Py.int ?v] => destruct (Py.int v) as [p|e] eqn:Hint; [|done]
     end);
    by intros <-%Ret_inj.
Qed.

Lemma total_insert (pm : gmap Z (gset string)) (p : Z) (x : string) :
  x ∉ default ∅ (pm !! p) →
  sum_list_with (λ kv, size kv.2) (map_to_list (<[p := {[x]} ∪ default ∅ (pm !! p)]> pm))
  = S (sum_list_with (λ kv : Z * gset string, size kv.2) (map_to_list pm)).
Proof.
  intros Hx. destruct (pm !! p) as [ips|] eqn:Hp; cbn [default] in *.
  - rewrite <- insert_delete_eq.
    rewrite map_to_list_insert by apply lookup_delete_eq.
    rewrite <- (map_to_list_delete pm p ips Hp). cbn.
    rewrite (size_union (C:=gset string)) by set_solver.
    by rewrite size_singleton.
  - rewrite map_to_list_insert by done. cbn.
    by rewrite (right_id_L ∅ (∪)), size_singleton.
Qed.

Lemma summarize_total (ms : list json) (ks : list key) (s0 s : summary) :
  keys_of ms = Ret ks → NoDup ks →
  (∀ k, k ∈ ks → k.1 ∉ default ∅ (port_to_ips s0 !! k.2)) →
  summarize ms s0 = Ret s →
  sum_list_with (λ kv, size kv.2) (map_to_list (port_to_ips s))
  = (sum_list_with (λ kv : Z * gset string, size kv.2) (map_to_list (port_to_ips s0))
     + length (List.filter has_port ms))%nat.
Proof.
  revert ks s0. induction ms as [|m ms IH]; intros ks s0 Hks Hnd Hfresh.
  - intros <-%Ret_inj. cbn. lia.
  - apply keys_of_cons in Hks as (k & ks' & Hk & Hks' & ->).
    apply NoDup_cons in Hnd as [Hk' Hnd].
    cbn [summarize]. destruct (summary_add m s0) as [s1|e] eqn:Hadd; [|done].
    rewrite result_bind_Ret. intros Hrest.
    destruct (summary_add_spec _ _ _ Hadd) as (_ & _ & Hp).
    destruct (match_key_summary _ _ Hk) as [Hx Hport].
    rewrite Hport, <- Hx in Hp. cbn [List.filter].
    destruct (has_port m).
    + rewrite (IH ks' s1 Hks' Hnd); [| |done].
      * rewrite Hp, total_insert; [cbn; lia |].
        apply Hfresh, list_elem_of_here.
      * intros k2 Hin. rewrite Hp.
        destruct (decide (k2.2 = k.2)) as [Heq|Hne].
        -- rewrite Heq, lookup_insert_eq. unfold default, from_option, id.
           intros [Hk2%elem_of_singleton|Hold]%elem_of_union.
           ++ apply Hk'. destruct k2, k. cbn in *. by subst.
           ++ rewrite <- Heq in Hold. by apply (Hfresh k2); [apply list_elem_of_further |].
        -- rewrite lookup_insert_ne by congruence. by apply Hfresh, list_elem_of_further.
    + rewrite (IH ks' s1 Hks' Hnd); [by rewrite Hp | |done].
      intros k2 Hin. rewrite Hp. by apply Hfresh, list_elem_of_further.
Qed.

Lemma summarize_dicts (ms : list json) (s0 : summary) :
  Forall (λ m, ∃ o, m = JObj o) ms → ∃ s, summarize ms s0 = Ret s.
Proof.
  intros Hms. revert s0. induction Hms as [|m ms [o ->] _ IH]; intros s0.
  - by eexists.
  - cbn [summarize]. destruct (summary_add_dict o s0) as [s1 ->].
    rewrite result_bind_Ret. apply IH.
Qed.

Lemma fetch_all_returns_distinct (cfg : Config) (net : Network)
    (query facets : string) (max_results : Z) (sleep_s : Q)
    (ms : list json) (total : Z) (facets_obj : option json) :
  out (fetch_all cfg net query facets max_results sleep_s)
  = Returns (ms, total, facets_obj) →
  ∃ ks, keys_of ms = Ret ks ∧ NoDup ks.
Proof.
  intros (n & _ & ->)%fetch_all_gathered.
  destruct (first_seen_from_keys ∅ (pages_upto cfg net query facets n))
    as (ks & Hks & Hnd & _).
  destruct (keys_of_slice _ ks max_results Hks) as (ks' & Hks' & Hnd').
  exists ks'. split; [done | by apply Hnd'].
Qed.

End Counted.

(** X19.  The summary of a download counts every downloaded match that
    has a port exactly once: the counting loop does not fail on the
    matches the accumulator returned, and the numbers on the port
    lines add up to the number of those matches with a port. *)
Theorem fetched_ports_counted_once `{Py.Builtins} (cfg : Config) (net : Network)
    (query facets : string) (max_results : Z) (sleep_s : Q)
    (ms : list json) (total : Z) (facets_obj : option json) :
  out (fetch_all cfg net query facets max_results sleep_s)
  = Returns (ms, total, facets_obj) →
  ∃ s, summarize ms no_summary = Ret s
       ∧ sum_list_with snd (port_rows s) = length (List.filter has_port ms).
Proof.
  intros (ks & Hks & Hnd)%fetch_all_returns_distinct.
  destruct (summarize_dicts ms no_summary (keys_of_dicts _ _ Hks)) as [s Hs].
  exists s. split; [done |].
  rewrite port_rows_total, (summarize_total ms ks no_summary s Hks Hnd); [done | |done].
  intros k _. cbn. rewrite lookup_empty. apply not_elem_of_empty.
Qed.

Lemma fetched_ports_counted_once_witness :
  ∃ s, summarize (H := example_builtins) [h1; h2] no_summary = Ret s
       ∧ sum_list_with snd (port_rows s)
         = length (List.filter has_port [h1; h2]).
Proof.
  apply (fetched_ports_counted_once (H := example_builtins) source_config net_duplicates
           example_query EmptyString 1000 1%Q [h1; h2] 4 None).
  reflexivity.
Defined.

(** ** The whole run *)

Lemma lift_no_events {A} (r : result A) : trace (lift r) = [].
Proof. by destruct r. Qed.

Lemma print_facets_requests (facets_obj : option json) :
  requests (trace (print_facets facets_obj)) = [].
Proof.
  unfold print_facets. destruct facets_obj as [f|]; [|done].
  destruct (Py.truthy f); [|done]. rewrite bind_emit. cbn [trace requests].
  by rewrite lift_no_events.
Qed.

Lemma print_summary_requests (results : list json) :
  requests (trace (print_summary results)) = [].
Proof. unfold print_summary. rewrite bind_lift. by destruct (for_each _ _). Qed.

Lemma reporting_requests `{Py.Builtins} results total facets_obj :
  requests (trace (reporting results total facets_obj)) = [].
Proof.
  unfold reporting. rewrite bind_emit. cbn [trace requests].
  rewrite bind_trace, requests_app, print_facets_requests. cbn [app].
  destruct (out (print_facets facets_obj)); [|done..].
  rewrite bind_trace, requests_app, print_results_spec. cbn [trace out requests app].
  destruct (forallb table_row_ok results); [|done].
  apply print_summary_requests.
Qed.

(** X20.  Every run ends, and makes at most [MAX_RESULTS] + 1
    requests: whatever the server answers, the loop of the
    accumulator is left after at most [MAX_RESULTS] turns, and nothing
    but the accumulator makes requests. *)
Theorem main_ends_bounded `{Py.Builtins} (cfg : Config) (net : Network) :
  out (main cfg net) ≠ OutOfFuel
  ∧ (length (requests (trace (main cfg net))) ≤ 1 + Z.to_nat (MAX_RESULTS cfg))%nat.
Proof.
  split; [apply main_terminates |].
  destruct (build_query cfg) as [q|e] eqn:Hq.
  2:{ rewrite (main_query_refused cfg net e Hq). cbn. lia. }
  rewrite (main_built cfg net q Hq), bind_emit. cbn [trace requests].
  rewrite bind_trace, requests_app.
  destruct (fetch_all_page_urls cfg net q (FACETS cfg) (MAX_RESULTS cfg) (SLEEP_SECONDS cfg))
    as (k & Hk & ->).
  assert (length (page_urls cfg q (FACETS cfg) k) = k) as Hlen.
  { unfold page_urls. by rewrite length_fmap, length_seq. }
  rewrite length_app, Hlen.
  destruct (out (fetch_all _ _ _ _ _ _)) as [[[ms total] fo]| |]; cbn [length requests];
    [|lia..].
  rewrite reporting_requests. cbn. lia.
Qed.

(** ** The facets *)

Lemma facet_item_dict (o : list (string * json)) : facet_item (JObj o) = Ret tt.
Proof. done. Qed.

Lemma for_each_facet_items (l : list json) :
  forallb is_dict l = true → for_each facet_item l = Ret tt.
Proof.
  induction l as [|it l IH]; [done |]. cbn [forallb for_each].
  intros [Hit Hl]%andb_true_iff. destruct it; try done.
  rewrite facet_item_dict, result_bind_Ret. by apply IH.
Qed.

(** X21.  Facets as the server documents them -- an object whose
    values are lists of objects -- are printed without failure, and
    then once; an empty facet is passed over. *)
Theorem print_facets_wellformed (o : list (string * json)) :
  o ≠ [] →
  Forall (λ kv, ∃ l, kv.2 = JArr l ∧ forallb is_dict l = true) o →
  print_facets (Some (JObj o)) = IO [Stdout (FacetListing (JObj o))] (Returns tt).
Proof.
  intros Hne Ho. unfold print_facets.
  destruct o as [|kv o']; [done |]. cbn [Py.truthy].
  rewrite bind_emit. cbn [Py.items]. rewrite result_bind_Ret.
  rewrite for_each_forall; [done |].
  eapply Forall_impl; [exact Ho |].
  intros [k v] (l & Hv & Hl). cbn [snd] in Hv. subst v. unfold facet_entry. cbn [snd].
  destruct (Py.truthy (JArr l)); [|done]. cbn [Py.iter]. rewrite result_bind_Ret.
  by apply for_each_facet_items.
Qed.

Lemma print_facets_wellformed_witness :
  print_facets
    (Some (JObj [("port", JArr [JObj [("value", JInt 80); ("count", JInt 12)]]);
                 ("city", JArr [])]))
  = IO [Stdout (FacetListing
          (JObj [("port", JArr [JObj [("value", JInt 80); ("count", JInt 12)]]);
                 ("city", JArr [])]))]
       (Returns tt).
Proof.
  apply print_facets_wellformed; [done |].
  repeat constructor; by eexists.
Defined.
